(** * Load-balancer analytics: dashboard engine and warehouse writer

    A shallow embedding of
    [load-balancer-observability-dashboard/src/dashboard_engine.py]
    (class [DashboardEngine]),
    [load-balancer-observability-dashboard/src/sql_injector.py]
    (class [SQLDataWarehouse]) and of the warehouse steps of
    [load-balancer-observability-dashboard/src/observability_orchestrator.py]
    (class [ObservabilityOrchestrator]).

    Conventions of the embedding.
    - A pandas column of numbers is a [list Q]: each double is the rational
      it denotes.  The embedding computes the exact value of an expression
      where the engine computes a double for it; a float result that pandas
      reports as NaN (mean, quantile or standard deviation of too short a
      column) is [None] in an [option].  The one irrational operation of
      the engine, the square root inside [Series.std], lives in [R].
      Where a reported value depends on which side of a rounding tie or of
      a threshold the double falls, the statement says so: it speaks of
      every value within the rounding error of the exact one
      ([Num.rounds_as]).
    - A column of [int64] wraps modulo [2^64] when it is summed
      ([Num.isum]).
    - A timestamp is the [datetime64[ns]] integer: nanoseconds since the
      epoch, in [Z].  A frame read from a file without rows has no such
      column: [read_csv] leaves it with dtype [object], and the datetime
      operations of the engine raise [AttributeError] on it.
    - A Python [dict] produced by [to_dict] is an association list in the
      iteration order pandas gives it.
    - A method that can raise returns a [result]. *)

From Stdlib Require Import ZArith QArith Qabs Qround Qminmax Qreals Reals.
From Stdlib Require Import String Ascii Bool Lia Lra Lqa Psatz.
From Stdlib Require Import List Sorted Permutation.
Import ListNotations.

Local Open Scope Z_scope.
Local Open Scope Q_scope.

(** ** Numbers *)

Module Num.

(** [Series.sum] of a float column. *)
Definition qsum (l : list Q) : Q := fold_right Qplus 0 l.

(** The sum of a list of integers, without bound. *)
Definition zsum (l : list Z) : Z := fold_right Z.add 0%Z l.

(** An [int64] result: the integer modulo [2^64], in the signed range. *)
Definition wrap64 (z : Z) : Z :=
  ((z + 9223372036854775808) mod 18446744073709551616
   - 9223372036854775808)%Z.

(** [Series.sum] of an [int64] column: every addition wraps. *)
Definition isum (l : list Z) : Z :=
  fold_left (fun acc x => wrap64 (acc + x)) l 0%Z.

Definition qlen {A} (l : list A) : Q := inject_Z (Z.of_nat (length l)).

(** [Series.mean]: NaN on an empty column. *)
Definition mean (l : list Q) : option Q :=
  match l with
  | [] => None
  | _ => Some (qsum l / qlen l)
  end.

(** [Series.max]: NaN on an empty column. *)
Definition qmax (l : list Q) : option Q :=
  match l with
  | [] => None
  | x :: r => Some (fold_left Qmax r x)
  end.

(** [Series.max] / [Series.min] of a timestamp column: NaT when empty. *)
Definition zmax (l : list Z) : option Z :=
  match l with
  | [] => None
  | x :: r => Some (fold_left Z.max r x)
  end.

Definition zmin (l : list Z) : option Z :=
  match l with
  | [] => None
  | x :: r => Some (fold_left Z.min r x)
  end.

(** Rounding to the nearest integer, ties to the even one: what Python's
    [round] and numpy's [around] do on the scaled value. *)
Definition round_half_even (x : Q) : Z :=
  let f := Qfloor x in
  match Qcompare (x - inject_Z f) (1 # 2) with
  | Lt => f
  | Gt => (f + 1)%Z
  | Eq => if Z.even f then f else (f + 1)%Z
  end.

(** [round(x, d)]. *)
Definition round_nd (d : nat) (x : Q) : Q :=
  let s := inject_Z (10 ^ Z.of_nat d) in
  inject_Z (round_half_even (x * s)) / s.

Definition round2 : Q -> Q := round_nd 2.
Definition round3 : Q -> Q := round_nd 3.

(** The relative error allowed to a double computed for an exact value,
    per operand of the expression: [2^-44], five hundred times the unit
    roundoff [2^-53] of a double. *)
Definition eps : Q := 1 # 17592186044416.

(** The largest magnitude in a column. *)
Definition magnitude (l : list Q) : Q :=
  fold_right (fun x acc => Qmax (Qabs x) acc) 0 l.

(** The rounding error of a double computed from the column [l] by sums,
    means, deviations and their square root: at most [eps] times the
    largest magnitude, for every element. *)
Definition slack (l : list Q) : Q := qlen l * magnitude l * eps.

(** The distance from [y] to the nearest tie of the rounding to an
    integer: the half-integer of the unit interval [y] lies in. *)
Definition tie_distance (y : Q) : Q :=
  Qabs (y - inject_Z (Qfloor y) - (1 # 2)).

(** [x'] may stand for [x] under [round(., d)]: it is within [slack] of
    [x], and no tie of the rounding is that close to [x].  The double the
    engine computes for [x] is such an [x'] when [slack] bounds its
    rounding error. *)
Definition rounds_as (d : nat) (slack x x' : Q) : Prop :=
  Qabs (x' - x) <= slack
  /\ slack * inject_Z (10 ^ Z.of_nat d)
     < tie_distance (x * inject_Z (10 ^ Z.of_nat d)).

(** Insertion into an ascending list, after the elements equal to [x]. *)
Fixpoint insert_asc (x : Q) (l : list Q) : list Q :=
  match l with
  | [] => [x]
  | y :: r => if Qle_bool y x then y :: insert_asc x r else x :: l
  end.

(** The sorted copy of a column that [quantile] works on. *)
Definition sort_asc (l : list Q) : list Q := fold_right insert_asc [] l.

(** Linear interpolation in a sorted column at the virtual index [pos]:
    between the sample ranked [floor pos] and the next one (the last one
    at the upper end). *)
Definition interpolate (s : list Q) (pos : Q) : Q :=
  let lo := Z.to_nat (Qfloor pos) in
  let hi := Nat.min (S lo) (List.length s - 1) in
  let frac := pos - inject_Z (Qfloor pos) in
  let a := nth lo s 0 in
  let b := nth hi s 0 in
  a + (b - a) * frac.

(** [Series.quantile(q)] with the default linear interpolation: the
    virtual index is [q * (n - 1)] in the sorted copy.  NaN on an empty
    column. *)
Definition quantile (q : Q) (l : list Q) : option Q :=
  match l with
  | [] => None
  | _ =>
      let s := sort_asc l in
      Some (interpolate s (q * (qlen s - 1)))
  end.

(** [x > y] where [x] may be NaN: a comparison with NaN is false. *)
Definition gt_num (x : option Q) (y : Q) : bool :=
  match x with
  | Some v => negb (Qle_bool v y)
  | None => false
  end.

Definition map_num (f : Q -> Q) (x : option Q) : option Q :=
  match x with
  | Some v => Some (f v)
  | None => None
  end.

End Num.

(** ** The two frames *)

(** One row of the request-log frame ([request_logs.csv]). *)
Module RequestLog.
Record t := {
  timestamp : Z;
  server_id : string;
  region : string;
  request_method : string;
  status_code : Z;
  response_time_ms : Q;
  retry_rate : Q;
  bytes_sent : Z;
  client_ip : string;
  user_agent : string
}.
End RequestLog.

(** One row of the server-metric frame ([server_metrics.csv]). *)
Module ServerMetric.
Record t := {
  timestamp : Z;
  server_id : string;
  cpu_usage_percent : Q;
  memory_usage_percent : Q;
  disk_usage_percent : Q;
  network_in_mbps : Q;
  network_out_mbps : Q;
  active_connections : Z;
  requests_per_second : Z;
  backend_health_failures : Z
}.
End ServerMetric.

(** ** Frame operations *)

Module Frame.

Section Keyed.
Context {A K : Type}.
Variable eqb : K -> K -> bool.
Variable leb : K -> K -> bool.
Variable key : A -> K.

(** Insertion of a key into an ascending list without repetition. *)
Fixpoint insert_key (k : K) (ks : list K) : list K :=
  match ks with
  | [] => [k]
  | k' :: r =>
      if eqb k k' then ks
      else if leb k k' then k :: ks
      else k' :: insert_key k r
  end.

(** The group keys of [groupby(key)]: distinct and ascending
    ([sort=True], the default). *)
Definition group_keys (l : list A) : list K :=
  fold_right insert_key [] (map key l).

(** [df.groupby(key)]: each key with its rows, in row order. *)
Definition groupby (l : list A) : list (K * list A) :=
  map (fun k => (k, filter (fun a => eqb (key a) k) l)) (group_keys l).

(** Strictly before, in the order of the keys. *)
Definition before (a b : K) : Prop := leb a b = true /\ a <> b.

(** [Series.unique()]: distinct values in order of first appearance. *)
Fixpoint unique_acc (seen : list K) (ks : list K) : list K :=
  match ks with
  | [] => []
  | k :: r =>
      if existsb (eqb k) seen then unique_acc seen r
      else k :: unique_acc (k :: seen) r
  end.

Definition unique (ks : list K) : list K := unique_acc [] ks.
End Keyed.

Section Ranked.
Context {A : Type}.
Variable gtb : A -> A -> bool.

(** Insertion into a descending list: [x] goes after the elements that
    are larger, before the first one that is not. *)
Fixpoint insert_desc (x : A) (l : list A) : list A :=
  match l with
  | [] => [x]
  | y :: r => if gtb y x then y :: insert_desc x r else x :: l
  end.

(** A stable descending sort: every element is inserted in front of the
    equal ones that came after it, so equal elements keep their order. *)
Definition sort_desc (l : list A) : list A :=
  fold_right insert_desc [] l.
End Ranked.

(** [Series.value_counts().to_dict()]: the count of every distinct value,
    largest count first, equal counts in order of first appearance. *)
Definition value_counts {K} (eqb : K -> K -> bool) (ks : list K)
  : list (K * nat) :=
  sort_desc (fun a b => Nat.ltb (snd b) (snd a))
    (map (fun k => (k, List.length (filter (eqb k) ks))) (unique eqb ks)).

(** [Series.nlargest(n)]: NaN dropped, the [n] largest in descending
    order, the first occurrence winning a tie. *)
Definition nlargest {K} (n : nat) (s : list (K * option Q))
  : list (K * Q) :=
  let present :=
    flat_map (fun kv => match snd kv with
                        | Some v => [(fst kv, v)]
                        | None => []
                        end) s in
  firstn n (sort_desc (fun a b => negb (Qle_bool (snd a) (snd b))) present).

(** [Series.dt.hour] of a nanosecond timestamp. *)
Definition hour (ts : Z) : Z := ((ts / 3600000000000) mod 24)%Z.

(** [Series.dt.day_name()]: the epoch began on a Thursday. *)
Definition day_name (ts : Z) : string :=
  match ((ts / 86400000000000 + 3) mod 7)%Z with
  | 0%Z => "Monday"
  | 1%Z => "Tuesday"
  | 2%Z => "Wednesday"
  | 3%Z => "Thursday"
  | 4%Z => "Friday"
  | 5%Z => "Saturday"
  | _ => "Sunday"
  end%string.

(** A boolean column read as numbers, as [Series.mean] does. *)
Definition flag (b : bool) : Q := if b then 1 else 0.

End Frame.

(** ** Exceptions *)

Inductive exn : Type :=
| ValueError (msg : string)
| KeyError (key : string)
| AttributeError (msg : string)
| OverflowError (msg : string)
| StoreError (msg : string).   (* [pyodbc.Error] *)

Inductive result (A : Type) : Type :=
| Ok (a : A)
| Raise (e : exn).

Arguments Ok {A} a.
Arguments Raise {A} e.

Definition bind {A B} (m : result A) (k : A -> result B) : result B :=
  match m with
  | Ok a => k a
  | Raise e => Raise e
  end.

Notation "x <- m ;; k" := (bind m (fun x => k))
  (at level 61, m at next level, right associativity).

(** ** [class DashboardEngine] *)

Module DashboardEngine.
Import Num Frame.

(** [self]: both frames start as [None] ([__init__]) and are filled by
    [load_data].  Every method below only reads [self]: each works on a
    [.copy()] of the frame it needs. *)
Record engine := {
  request_logs_df : option (list RequestLog.t);
  server_metrics_df : option (list ServerMetric.t)
}.

Definition init : engine :=
  {| request_logs_df := None; server_metrics_df := None |}.

Record request_kpis := {
  total_requests : nat;
  requests_per_second : option Q;
  average_response_time_ms : option Q;
  p95_response_time_ms : option Q;
  p99_response_time_ms : option Q;
  error_rate_percent : option Q;
  retry_rate_avg : option Q;
  retry_rate_p95 : option Q;
  total_bytes_transferred : Z;
  average_bytes_per_request : option Q;
  region_distribution : list (string * nat);
  method_distribution : list (string * nat);
  status_code_distribution : list (Z * nat)
}.

(** [(df['timestamp'].max() - df['timestamp'].min()).total_seconds()].
    On a frame without rows both ends are the float NaN, and so is their
    difference: a float has no [total_seconds]. *)
Definition span_seconds (df : list RequestLog.t) : result Q :=
  let ts := map RequestLog.timestamp df in
  match zmax ts, zmin ts with
  | Some hi, Some lo => Ok (inject_Z (hi - lo) / inject_Z 1000000000)
  | _, _ =>
      Raise (AttributeError "'float' object has no attribute 'total_seconds'")
  end.

(** Python's [max(x, 1)]: [1] replaces [x] only when [1 > x]. *)
Definition max_1 (x : Q) : Q := if Qle_bool 1 x then x else 1.

(** [column.dt]: the accessor is refused on the [object] column of a
    frame without rows. *)
Definition dt {A} (column : list A) : result (list A) :=
  match column with
  | [] =>
      Raise (AttributeError "Can only use .dt accessor with datetimelike values")
  | _ => Ok column
  end.

(** [column.min().isoformat()]: the minimum of a column without rows is
    the float NaN, which has no [isoformat]. *)
Definition isoformat (t : option Z) : result Z :=
  match t with
  | Some z => Ok z
  | None =>
      Raise (AttributeError "'float' object has no attribute 'isoformat'")
  end.

Definition is_error (r : RequestLog.t) : bool :=
  (400 <=? RequestLog.status_code r)%Z.

Definition compute_request_kpis (self : engine) : result request_kpis :=
  match request_logs_df self with
  | None =>
      Raise (ValueError "Request logs data not loaded. Call load_data() first.")
  | Some df =>
      span <- span_seconds df ;;
      let total_time_seconds := max_1 span in
      let rt := map RequestLog.response_time_ms df in
      let rr := map RequestLog.retry_rate df in
      let bytes := map RequestLog.bytes_sent df in
      Ok {| total_requests := List.length df;
            requests_per_second :=
              Some (round2 (qlen df / total_time_seconds));
            average_response_time_ms := map_num round2 (mean rt);
            p95_response_time_ms := map_num round2 (quantile (95 # 100) rt);
            p99_response_time_ms := map_num round2 (quantile (99 # 100) rt);
            error_rate_percent :=
              map_num (fun m => round2 (m * 100))
                      (mean (map (fun r => flag (is_error r)) df));
            retry_rate_avg := map_num round3 (mean rr);
            retry_rate_p95 := map_num round3 (quantile (95 # 100) rr);
            total_bytes_transferred := isum bytes;
            average_bytes_per_request :=
              map_num round2 (mean (map inject_Z bytes));
            region_distribution :=
              value_counts String.eqb (map RequestLog.region df);
            method_distribution :=
              value_counts String.eqb (map RequestLog.request_method df);
            status_code_distribution :=
              value_counts Z.eqb (map RequestLog.status_code df) |}
  end.

(** One row of the per-server utilisation table. *)
Record util_row := {
  cpu_usage_percent : option Q;
  memory_usage_percent : option Q;
  requests_per_second_mean : option Q
}.

Record server_kpis := {
  average_cpu_usage : option Q;
  max_cpu_usage : option Q;
  average_memory_usage : option Q;
  max_memory_usage : option Q;
  total_active_connections : Z;
  average_requests_per_second : option Q;
  backend_health_failures_total : Z;
  backend_health_failures_by_server : list (string * Z);
  total_network_in_gb : Q;
  total_network_out_gb : Q;
  high_cpu_servers : list string;
  high_memory_servers : list string;
  server_utilization : list (string * util_row)
}.

Definition by_server (df : list ServerMetric.t)
  : list (string * list ServerMetric.t) :=
  groupby String.eqb String.leb ServerMetric.server_id df.

(** The rows of one server: its group in [by_server]. *)
Definition rows_of (s : string) (df : list ServerMetric.t)
  : list ServerMetric.t :=
  filter (fun r => String.eqb (ServerMetric.server_id r) s) df.

(** [df.groupby("server_id").agg({... "mean"}).round(2)]. *)
Definition server_util (df : list ServerMetric.t)
  : list (string * util_row) :=
  map (fun g =>
         (fst g,
          {| cpu_usage_percent :=
               map_num round2
                 (mean (map ServerMetric.cpu_usage_percent (snd g)));
             memory_usage_percent :=
               map_num round2
                 (mean (map ServerMetric.memory_usage_percent (snd g)));
             requests_per_second_mean :=
               map_num round2
                 (mean (map (fun r => inject_Z
                               (ServerMetric.requests_per_second r))
                            (snd g))) |}))
      (by_server df).

(** [server_util[server_util[col] > 80].index.tolist()]. *)
Definition above_80 (col : util_row -> option Q)
           (table : list (string * util_row)) : list string :=
  map fst (filter (fun row => gt_num (col (snd row)) 80) table).

(** Mbps samples to GB per hour. *)
Definition to_gb (mbps_sum : Q) : Q :=
  round2 ((mbps_sum * 3600) / (8 * 1024)).

Definition compute_server_kpis (self : engine) : result server_kpis :=
  match server_metrics_df self with
  | None =>
      Raise (ValueError "Server metrics data not loaded. Call load_data() first.")
  | Some df =>
      let cpu := map ServerMetric.cpu_usage_percent df in
      let mem := map ServerMetric.memory_usage_percent df in
      let table := server_util df in
      Ok {| average_cpu_usage := map_num round2 (mean cpu);
            max_cpu_usage := map_num round2 (qmax cpu);
            average_memory_usage := map_num round2 (mean mem);
            max_memory_usage := map_num round2 (qmax mem);
            total_active_connections :=
              isum (map ServerMetric.active_connections df);
            average_requests_per_second :=
              map_num round2
                (mean (map (fun r => inject_Z
                              (ServerMetric.requests_per_second r)) df));
            backend_health_failures_total :=
              isum (map ServerMetric.backend_health_failures df);
            backend_health_failures_by_server :=
              map (fun g =>
                     (fst g,
                      isum (map ServerMetric.backend_health_failures
                                (snd g))))
                  (by_server df);
            total_network_in_gb :=
              to_gb (qsum (map ServerMetric.network_in_mbps df));
            total_network_out_gb :=
              to_gb (qsum (map ServerMetric.network_out_mbps df));
            high_cpu_servers := above_80 cpu_usage_percent table;
            high_memory_servers := above_80 memory_usage_percent table;
            server_utilization := table |}
  end.

Record traffic_patterns := {
  hourly_traffic_volume : list (Z * nat);
  daily_traffic_volume : list (string * nat);
  hourly_avg_latency : list (Z * option Q);
  top_latency_hours : list (Z * Q)
}.

Definition by_hour (df : list RequestLog.t) : list (Z * list RequestLog.t) :=
  groupby Z.eqb Z.leb (fun r => hour (RequestLog.timestamp r)) df.

Definition by_day (df : list RequestLog.t)
  : list (string * list RequestLog.t) :=
  groupby String.eqb String.leb
          (fun r => day_name (RequestLog.timestamp r)) df.

(** [df.groupby("hour")["response_time_ms"].mean()]. *)
Definition hourly_latency (df : list RequestLog.t) : list (Z * option Q) :=
  map (fun g => (fst g, mean (map RequestLog.response_time_ms (snd g))))
      (by_hour df).

Definition compute_traffic_patterns (self : engine)
  : result traffic_patterns :=
  match request_logs_df self with
  | None =>
      Raise (ValueError "Request logs data not loaded. Call load_data() first.")
  | Some df =>
      timestamps <- dt (map RequestLog.timestamp df) ;;
      Ok {| hourly_traffic_volume :=
              map (fun g => (fst g, List.length (snd g))) (by_hour df);
            daily_traffic_volume :=
              map (fun g => (fst g, List.length (snd g))) (by_day df);
            hourly_avg_latency :=
              map (fun kv => (fst kv, map_num round2 (snd kv)))
                  (hourly_latency df);
            top_latency_hours :=
              map (fun kv => (fst kv, round2 (snd kv)))
                  (nlargest 5 (hourly_latency df)) |}
  end.

(** *** Anomalies *)

Local Open Scope R_scope.

(** The sum of squared deviations over [n - 1]: the variance that
    [Series.std()] takes the root of (pandas' default [ddof=1]).
    NaN when the column has fewer than two values. *)
Definition var_ddof1 (l : list Q) : option Q :=
  match mean l with
  | Some m =>
      if (1 <? List.length l)%nat
      then Some (qsum (map (fun x => (x - m) * (x - m))%Q l)
                 / (qlen l - 1))%Q
      else None
  | None => None
  end.

(** [Series.std()]. *)
Definition std (l : list Q) : option R :=
  match var_ddof1 l with
  | Some v => Some (sqrt (Q2R v))
  | None => None
  end.

(** [threshold_rt = mean + 3 * std]. *)
Definition threshold_rt (l : list Q) : option R :=
  match mean l, std l with
  | Some m, Some s => Some (Q2R m + 3 * s)
  | _, _ => None
  end.

(** [x > threshold_rt]: false when the threshold is NaN. *)
Definition above (t : option R) (x : Q) : bool :=
  match t with
  | Some t => if Rlt_dec t (Q2R x) then true else false
  | None => false
  end.

(** [(column > t).sum()]. *)
Definition count_above (t : option R) (l : list Q) : nat :=
  List.length (filter (above t) l).

(** [int((df_req['response_time_ms'] > threshold_rt).sum())]. *)
Definition slow_count (l : list Q) : nat :=
  count_above (threshold_rt l) l.

(** The standard deviation and threshold as the specification words
    them: the population deviation, squared deviations over [n]. *)
Definition var_population (l : list Q) : option Q :=
  match mean l with
  | Some m =>
      Some (qsum (map (fun x => (x - m) * (x - m))%Q l) / qlen l)%Q
  | None => None
  end.

Definition threshold_population (l : list Q) : option R :=
  match mean l, var_population l with
  | Some m, Some v => Some (Q2R m + 3 * sqrt (Q2R v))
  | _, _ => None
  end.

(** [round(x, 2)] on a real. *)
Definition Rround_half_even (x : R) : Z :=
  let f := Int_part x in
  let r := x - IZR f in
  if Rlt_dec r (1 / 2) then f
  else if Rlt_dec (1 / 2) r then (f + 1)%Z
  else if Z.even f then f else (f + 1)%Z.

Definition Rround2 (x : R) : R := IZR (Rround_half_even (x * 100)) / 100.



Local Close Scope R_scope.


(** [df_req.groupby(hour).apply(lambda x: (x.status_code >= 400).mean() * 100)]. *)
Definition hourly_errors (df : list RequestLog.t) : list (Z * option Q) :=
  map (fun g =>
         (fst g,
          map_num (fun m => m * 100)
                  (mean (map (fun r => flag (is_error r)) (snd g)))))
      (by_hour df).

(** [Series.mean()] of a keyed series: NaN entries are skipped. *)
Definition series_mean {K} (s : list (K * option Q)) : option Q :=
  mean (flat_map (fun kv => match snd kv with
                            | Some v => [v]
                            | None => []
                            end) s).

(** [hourly_errors[hourly_errors > hourly_errors.mean() * 2].round(2).to_dict()]. *)
Definition error_spikes (df : list RequestLog.t) : list (Z * Q) :=
  let he := hourly_errors df in
  match series_mean he with
  | None => []
  | Some m =>
      flat_map (fun kv =>
                  if gt_num (snd kv) (m * 2)
                  then match snd kv with
                       | Some v => [(fst kv, round2 v)]
                       | None => []
                       end
                  else []) he
  end.

Record anomalies := {
  slow_request_threshold_ms : option R;
  slow_request_count : nat;
  error_spike_hours : list (Z * Q);
  server_health_failures_above_5 : list string
}.

Definition detect_anomalies (self : engine) : result anomalies :=
  match request_logs_df self, server_metrics_df self with
  | Some df_req, Some df_srv =>
      let rt := map RequestLog.response_time_ms df_req in
      let threshold_ms := option_map Rround2 (threshold_rt rt) in
      let count := slow_count rt in
      timestamps <- dt (map RequestLog.timestamp df_req) ;;
      Ok {| slow_request_threshold_ms := threshold_ms;
            slow_request_count := count;
            error_spike_hours := error_spikes df_req;
            server_health_failures_above_5 :=
              unique String.eqb
                (map ServerMetric.server_id
                     (filter (fun r =>
                                (5 <? ServerMetric.backend_health_failures r)%Z)
                             df_srv)) |}
  | _, _ =>
      Raise (ValueError "Both request logs and server metrics data must be loaded")
  end.

(** *** The report *)

Record report_metadata := {
  generated_at : Z;
  request_log_entries : nat;
  server_metric_entries : nat;
  time_range_start : option Z;
  time_range_end : option Z
}.

Record report := {
  metadata : report_metadata;
  report_request_kpis : request_kpis;
  report_server_kpis : server_kpis;
  report_traffic_patterns : traffic_patterns;
  report_anomalies : anomalies
}.

(** [now] is the reading of [datetime.now()] taken by this call. *)
Definition generate_comprehensive_report (self : engine) (now : Z)
  : result report :=
  match request_logs_df self, server_metrics_df self with
  | Some df_req, Some df_srv =>
      let ts := map RequestLog.timestamp df_req in
      start <- isoformat (zmin ts) ;;
      stop <- isoformat (zmax ts) ;;
      let md := {| generated_at := now;
                   request_log_entries := List.length df_req;
                   server_metric_entries := List.length df_srv;
                   time_range_start := Some start;
                   time_range_end := Some stop |} in
      rk <- compute_request_kpis self ;;
      sk <- compute_server_kpis self ;;
      tp <- compute_traffic_patterns self ;;
      an <- detect_anomalies self ;;
      Ok {| metadata := md;
            report_request_kpis := rk;
            report_server_kpis := sk;
            report_traffic_patterns := tp;
            report_anomalies := an |}
  | _, _ =>
      Raise (ValueError "Both request logs and server metrics data must be loaded")
  end.

End DashboardEngine.

(** ** Python values *)

(** The values a record or a report document is made of.  A [dict] keeps
    its items as an association list; [lookup] takes the first match. *)
#[local] Set Warnings "-register-all".

Inductive pyval : Type :=
| PyNone
| PyBool (b : bool)
| PyInt (z : Z)
| PyFloat (q : Q)
| PyStr (s : string)
| PyList (l : list pyval)
| PyDict (d : list (string * pyval)).

Definition pydict : Type := list (string * pyval).

Fixpoint lookup (k : string) (d : pydict) : option pyval :=
  match d with
  | [] => None
  | (k', v) :: r => if String.eqb k k' then Some v else lookup k r
  end.

(** [d[k]]: [KeyError] when the key is missing. *)
Definition getitem (d : pydict) (k : string) : result pyval :=
  match lookup k d with
  | Some v => Ok v
  | None => Raise (KeyError k)
  end.

(** [d.get(k, default)]. *)
Definition get (d : pydict) (k : string) (default : pyval) : pyval :=
  match lookup k d with
  | Some v => v
  | None => default
  end.

(** [k in d]. *)
Definition contains (k : string) (d : pydict) : bool :=
  match lookup k d with
  | Some _ => true
  | None => false
  end.

(** ** [class SQLDataWarehouse] *)

Module SQLDataWarehouse.

Inductive table : Type :=
| RequestLogs
| ServerMetrics
| AnalyticsReports
| DataQualityMetrics.

(** A parameter tuple bound to an [INSERT] into a table. *)
Definition row : Type := (table * list pyval)%type.

(** What the store does to one connection: the behaviour of
    [pyodbc.connect], of each [cursor.execute] and of [conn.commit]. *)
Inductive conn_plan : Type :=
| Healthy
| ConnectFails (e : exn)
| ExecuteFails (k : nat) (e : exn)   (* the execute number [k], from 0 *)
| CommitFails (e : exn).

Inductive event : Type :=
| EvConnect
| EvSleep (seconds : Z).

(** The world a warehouse call runs in: the committed rows, the number of
    connections opened so far, the plan of the store for each connection
    to come, and the trace of connections and [time.sleep] calls. *)
Record world := {
  committed : list row;
  opened : nat;
  faults : nat -> conn_plan;
  trace : list event
}.

(** [self]. *)
Record warehouse := {
  batch_size : Z;
  retry_attempts : Z
}.

(** [__init__] defaults. *)
Definition default : warehouse :=
  {| batch_size := 1000; retry_attempts := 3 |}.

(** An open connection: its plan, the number of statements executed and
    the rows of the transaction in progress. *)
Record conn := {
  plan : conn_plan;
  executed : nat;
  pending : list row
}.

(** [pyodbc.connect(self.connection_string)]. *)
Definition connect (p : conn_plan) : result conn :=
  match p with
  | ConnectFails e => Raise e
  | _ => Ok {| plan := p; executed := 0; pending := [] |}
  end.

(** [cursor.execute(insert_sql, row_data)]. *)
Definition execute (c : conn) (r : row) : result conn :=
  match plan c with
  | ExecuteFails k e =>
      if Nat.eqb (executed c) k then Raise e
      else Ok {| plan := plan c; executed := S (executed c);
                 pending := pending c ++ [r] |}
  | _ => Ok {| plan := plan c; executed := S (executed c);
               pending := pending c ++ [r] |}
  end.

(** [conn.commit()]: the rows of the transaction, made durable. *)
Definition commit (c : conn) : result (list row) :=
  match plan c with
  | CommitFails e => Raise e
  | _ => Ok (pending c)
  end.

(** [range(n)]. *)
Definition range (n : Z) : list Z :=
  map Z.of_nat (seq 0 (Z.to_nat n)).

(** [records[i:i + batch_size] for i in range(0, len(records), batch_size)]
    for a positive [batch_size]; [fuel] bounds the number of batches. *)
Fixpoint chunks {A} (fuel : nat) (n : nat) (l : list A) : list (list A) :=
  match fuel, l with
  | _, [] => []
  | O, _ => []
  | S f, _ => firstn n l :: chunks f n (skipn n l)
  end.

(** The batches of the inner loop.  [range] raises [ValueError] on a zero
    step and is empty on a negative one. *)
Definition batches {A} (bs : Z) (records : list A) : result (list (list A)) :=
  if (bs =? 0)%Z then Raise (ValueError "range() arg 3 must not be zero")
  else if (bs <? 0)%Z then Ok []
  else Ok (chunks (List.length records) (Z.to_nat bs) records).

Section BatchInsert.
Context {A : Type}.
Variable self : warehouse.
Variable insert_sql : table.
Variable row_preparer : A -> result (list pyval).

(** [for record in batch: cursor.execute(insert_sql, row_preparer(record))]. *)
Fixpoint run_batch (c : conn) (batch : list A) : result conn :=
  match batch with
  | [] => Ok c
  | record :: rest =>
      row_data <- row_preparer record ;;
      c' <- execute c (insert_sql, row_data) ;;
      run_batch c' rest
  end.

(** The loop over batches.  [total_inserted] grows by [len(batch)] after
    each batch that went through, and keeps what it has when a later
    batch raises. *)
Fixpoint run_batches (c : conn) (total_inserted : nat)
         (bs : list (list A)) : result conn * nat :=
  match bs with
  | [] => (Ok c, total_inserted)
  | batch :: rest =>
      match run_batch c batch with
      | Ok c' => run_batches c' (total_inserted + List.length batch) rest
      | Raise e => (Raise e, total_inserted)
      end
  end.

(** The body of [try:] on a connection that follows plan [p]: the rows
    it commits, or the exception it raises, and [total_inserted] after
    it. *)
Definition attempt (p : conn_plan) (total_inserted : nat)
           (records : list A) : result (list row) * nat :=
  match connect p with
  | Raise e => (Raise e, total_inserted)
  | Ok c =>
      match batches (batch_size self) records with
      | Raise e => (Raise e, total_inserted)
      | Ok bs =>
          match run_batches c total_inserted bs with
          | (Raise e, t) => (Raise e, t)
          | (Ok c', t) =>
              match commit c' with
              | Raise e => (Raise e, t)
              | Ok rows => (Ok rows, t)
              end
          end
      end
  end.

(** [for attempt in range(self.retry_attempts)], from the attempts that
    remain.  A transaction that raised is rolled back: nothing of it
    reaches [committed]. *)
Fixpoint retry_loop (attempts : list Z) (total_inserted : nat)
         (records : list A) (w : world) : result nat * world :=
  match attempts with
  | [] => (Ok total_inserted, w)
  | n :: rest =>
      let w1 := {| committed := committed w; opened := S (opened w);
                   faults := faults w;
                   trace := trace w ++ [EvConnect] |} in
      match attempt (faults w (opened w)) total_inserted records with
      | (Ok rows, t) =>
          (Ok t, {| committed := committed w1 ++ rows;
                    opened := opened w1; faults := faults w1;
                    trace := trace w1 |})
      | (Raise e, t) =>
          if (n =? retry_attempts self - 1)%Z then (Raise e, w1)
          else retry_loop rest t records
                 {| committed := committed w1; opened := opened w1;
                    faults := faults w1;
                    trace := trace w1 ++ [EvSleep (2 ^ n)] |}
      end
  end.

Definition _batch_insert (records : list A) (w : world)
  : result nat * world :=
  retry_loop (range (retry_attempts self)) 0 records w.
End BatchInsert.

(** [_prepare_request_log_row]. *)
Definition _prepare_request_log_row (record : pydict)
  : result (list pyval) :=
  timestamp <- getitem record "timestamp" ;;
  server_id <- getitem record "server_id" ;;
  region <- getitem record "region" ;;
  request_method <- getitem record "request_method" ;;
  status_code <- getitem record "status_code" ;;
  response_time_ms <- getitem record "response_time_ms" ;;
  retry_rate <- getitem record "retry_rate" ;;
  bytes_sent <- getitem record "bytes_sent" ;;
  Ok [timestamp; server_id; region; request_method; status_code;
      response_time_ms; retry_rate; bytes_sent;
      get record "client_ip" (PyStr "");
      get record "user_agent" (PyStr "")].

(** [_prepare_server_metrics_row]. *)
Definition _prepare_server_metrics_row (record : pydict)
  : result (list pyval) :=
  timestamp <- getitem record "timestamp" ;;
  server_id <- getitem record "server_id" ;;
  cpu_usage_percent <- getitem record "cpu_usage_percent" ;;
  memory_usage_percent <- getitem record "memory_usage_percent" ;;
  disk_usage_percent <- getitem record "disk_usage_percent" ;;
  network_in_mbps <- getitem record "network_in_mbps" ;;
  network_out_mbps <- getitem record "network_out_mbps" ;;
  active_connections <- getitem record "active_connections" ;;
  requests_per_second <- getitem record "requests_per_second" ;;
  backend_health_failures <- getitem record "backend_health_failures" ;;
  Ok [timestamp; server_id; cpu_usage_percent; memory_usage_percent;
      disk_usage_percent; network_in_mbps; network_out_mbps;
      active_connections; requests_per_second; backend_health_failures].

(** [if not records: return 0], then the batch insert. *)
Definition insert_request_logs (self : warehouse) (records : list pydict)
           (w : world) : result nat * world :=
  match records with
  | [] => (Ok 0%nat, w)
  | _ => _batch_insert self RequestLogs _prepare_request_log_row records w
  end.

Definition insert_server_metrics (self : warehouse) (records : list pydict)
           (w : world) : result nat * world :=
  match records with
  | [] => (Ok 0%nat, w)
  | _ => _batch_insert self ServerMetrics _prepare_server_metrics_row
                       records w
  end.

(** [record_count]: [0], or [report_data['request_kpis'].get('total_requests', 0)]
    when the report has the key; [.get] exists on a [dict] only. *)
Definition report_record_count (report_data : pydict) : result pyval :=
  if contains "request_kpis" report_data then
    kpis <- getitem report_data "request_kpis" ;;
    match kpis with
    | PyDict d => Ok (get d "total_requests" (PyInt 0))
    | _ => Raise (AttributeError "object has no attribute 'get'")
    end
  else Ok (PyInt 0).

Definition opt_int (x : option Z) : pyval :=
  match x with
  | Some z => PyInt z
  | None => PyNone
  end.

(** The row of [AnalyticsReports]: timestamp, type tag, the serialised
    document (kept as the document), processing time and record count. *)
Definition report_row (now : Z) (report_type : string)
           (report_data : pydict) (processing_time_ms : option Z)
           (record_count : pyval) : row :=
  (AnalyticsReports,
   [PyInt now; PyStr report_type; PyDict report_data;
    opt_int processing_time_ms; record_count]).

(** [store_analytics_report]: the whole body sits in [try:], and
    [except Exception] turns every failure into [False].  [now] is the
    reading of [datetime.now()]. *)
Definition store_analytics_report (report_data : pydict)
           (report_type : string) (processing_time_ms : option Z)
           (now : Z) (w : world) : bool * world :=
  match report_record_count report_data with
  | Raise _ => (false, w)
  | Ok record_count =>
      let w1 := {| committed := committed w; opened := S (opened w);
                   faults := faults w;
                   trace := trace w ++ [EvConnect] |} in
      let stored :=
        c <- connect (faults w (opened w)) ;;
        c' <- execute c (report_row now report_type report_data
                                    processing_time_ms record_count) ;;
        commit c' in
      match stored with
      | Ok rows =>
          (true, {| committed := committed w1 ++ rows;
                    opened := opened w1; faults := faults w1;
                    trace := trace w1 |})
      | Raise _ => (false, w1)
      end
  end.

(** *** Vocabulary of the retry policy *)

(** The store fails permanently on [records]: whichever connection is
    opened, the attempt on it raises. *)
Definition fails_permanently {A} (self : warehouse) (insert_sql : table)
           (row_preparer : A -> result (list pyval)) (records : list A)
           (w : world) : Prop :=
  forall (i t : nat), exists e,
    fst (attempt self insert_sql row_preparer (faults w i) t records)
    = Raise e.

(** The arguments of the [time.sleep] calls of a trace, in order. *)
Definition sleeps (tr : list event) : list Z :=
  flat_map (fun ev => match ev with
                      | EvSleep d => [d]
                      | EvConnect => []
                      end) tr.

(** [n] attempts, the first one numbered [a], with a sleep of
    [2 ^ attempt] seconds between two consecutive ones. *)
Fixpoint backoff_trace (a : Z) (n : nat) : list event :=
  match n with
  | O => []
  | S m =>
      match m with
      | O => [EvConnect]
      | S _ => EvConnect :: EvSleep (2 ^ a) :: backoff_trace (a + 1) m
      end
  end.

End SQLDataWarehouse.

(** ** Fields a record must carry *)

Module Fields.

(** The keys [_prepare_request_log_row] subscripts, in the order it reads
    them. *)
Definition request_log_required : list string :=
  ["timestamp"; "server_id"; "region"; "request_method"; "status_code";
   "response_time_ms"; "retry_rate"; "bytes_sent"]%string.

(** The first required key a record lacks. *)
Definition first_missing (required : list string) (record : pydict)
  : option string :=
  find (fun k => negb (contains k record)) required.

End Fields.

(** ** Retention: [SQLDataWarehouse.cleanup_old_data] *)

Module Retention.
Import SQLDataWarehouse.

(** A stored row: the value of the date column of its table
    ([created_at], or [check_timestamp] for [DataQualityMetrics]), in
    nanoseconds, and the other columns. *)
Definition stored : Type := (Z * list pyval)%type.

Definition database : Type := table -> list stored.

Definition table_eqb (a b : table) : bool :=
  match a, b with
  | RequestLogs, RequestLogs => true
  | ServerMetrics, ServerMetrics => true
  | AnalyticsReports, AnalyticsReports => true
  | DataQualityMetrics, DataQualityMetrics => true
  | _, _ => false
  end.

Definition set_table (db : database) (t : table) (rows : list stored)
  : database :=
  fun t' => if table_eqb t' t then rows else db t'.

(** [cleanup_tables], in the order of the dict literal. *)
Definition cleanup_tables : list table :=
  [RequestLogs; ServerMetrics; AnalyticsReports; DataQualityMetrics].

(** [datetime.now() - timedelta(days=retention_days)]. *)
Definition cutoff_date (now retention_days : Z) : Z :=
  (now - retention_days * 86400000000000)%Z.

(** [datetime.min] and [datetime.max]: the first instant of year 1 and
    the last microsecond of year 9999, in nanoseconds since the epoch. *)
Definition datetime_min : Z := (-62135596800000000000)%Z.
Definition datetime_max : Z := 253402300799999999000%Z.

(** The cutoff cannot be computed: [timedelta] takes at most 999999999
    days, and the difference has to be a date between [datetime.min] and
    [datetime.max].  Either way Python raises [OverflowError]. *)
Definition cutoff_overflows (now retention_days : Z) : bool :=
  (999999999 <? Z.abs retention_days)%Z
  || (cutoff_date now retention_days <? datetime_min)%Z
  || (datetime_max <? cutoff_date now retention_days)%Z.

Definition expired (cutoff : Z) (r : stored) : bool := (fst r <? cutoff)%Z.

(** [DELETE FROM table WHERE date_column < ?] inside the transaction:
    the statements run in order, statement number [k] first; each one
    records [cursor.rowcount] under its table. *)
Fixpoint delete_loop (p : conn_plan) (cutoff : Z) (k : nat)
         (tables : list table) (db : database)
         (cleanup_results : list (table * nat))
  : result (database * list (table * nat)) :=
  match tables with
  | [] => Ok (db, cleanup_results)
  | t :: rest =>
      let run :=
        delete_loop p cutoff (S k) rest
          (set_table db t (filter (fun r => negb (expired cutoff r)) (db t)))
          (cleanup_results
           ++ [(t, List.length (filter (expired cutoff) (db t)))]) in
      match p with
      | ExecuteFails j e => if Nat.eqb k j then Raise e else run
      | _ => run
      end
  end.

(** [cleanup_old_data]: the cutoff is computed before the [try:]; then
    one connection, the four deletions, one commit.  An exception is
    logged and raised again; the transaction it interrupts is rolled
    back. *)
Definition cleanup_old_data (retention_days now : Z) (p : conn_plan)
           (db : database) : result (list (table * nat)) * database :=
  if cutoff_overflows now retention_days
  then (Raise (OverflowError "date value out of range"), db)
  else
    match connect p with
    | Raise e => (Raise e, db)
    | Ok _ =>
        match delete_loop p (cutoff_date now retention_days) 0
                          cleanup_tables db [] with
        | Raise e => (Raise e, db)
        | Ok (db', cleanup_results) =>
            match p with
            | CommitFails e => (Raise e, db)
            | _ => (Ok cleanup_results, db')
            end
        end
    end.

End Retention.

(** ** [class ObservabilityOrchestrator] *)

Module ObservabilityOrchestrator.
Import SQLDataWarehouse.

(** [cleanup_old_data]: the warehouse's result, or [{}] when it raised. *)
Definition cleanup_old_data (retention_days now : Z) (p : conn_plan)
           (db : Retention.database)
  : list (table * nat) * Retention.database :=
  match Retention.cleanup_old_data retention_days now p db with
  | (Ok cleanup_results, db') => (cleanup_results, db')
  | (Raise _, db') => ([], db')
  end.

(** Python's truth value of an object. *)
Definition truthy (v : pyval) : bool :=
  match v with
  | PyNone => false
  | PyBool b => b
  | PyInt z => negb (z =? 0)%Z
  | PyFloat q => negb (Qeq_bool q 0)
  | PyStr s => negb (String.eqb s "")
  | PyList l => match l with [] => false | _ :: _ => true end
  | PyDict d => match d with [] => false | _ :: _ => true end
  end.

(** [s * n] on a string. *)
Fixpoint str_repeat (n : nat) (s : string) : string :=
  match n with
  | O => ""%string
  | S m => (s ++ str_repeat m s)%string
  end.

Section StoreDataWarehouse.

(** Python's built-in [int] on a string: the integer it denotes, or
    nothing when it raises [ValueError]. *)
Variable int_of_str : string -> option Z.

(** The product of two doubles: the double nearest to the exact product,
    or nothing when it is infinite. *)
Variable float_mul : Q -> Q -> option Q.

(** [int(x)] on a finite double: truncation towards zero. *)
Definition trunc (x : Q) : Z := Z.quot (Qnum x) (Z.pos (Qden x)).

(** [int(processing_time * 1000)]; nothing when the expression raises.
    A float is multiplied as a double, then truncated towards zero
    ([int] refuses an infinite product); a list or a dict cannot be
    converted. *)
Definition scaled_int (processing_time : pyval) : option Z :=
  match processing_time with
  | PyNone => None
  | PyBool b => Some (if b then 1000 else 0)%Z
  | PyInt z => Some (z * 1000)%Z
  | PyFloat q => option_map trunc (float_mul q 1000)
  | PyStr s => int_of_str (str_repeat 1000 s)
  | PyList _ => None
  | PyDict _ => None
  end.

(** [analytics_report.get("processing_metadata", {}).get("processing_time_seconds")]
    and the conversion to milliseconds: [None] for a missing or falsy
    time; nothing when an exception is raised ([.get] on a value that is
    not a dict, or [int]). *)
Definition processing_time_ms (analytics_report : pydict)
  : option (option Z) :=
  match get analytics_report "processing_metadata" (PyDict []) with
  | PyDict metadata =>
      let processing_time := get metadata "processing_time_seconds" PyNone in
      if truthy processing_time
      then match scaled_int processing_time with
           | Some ms => Some (Some ms)
           | None => None
           end
      else Some None
  | _ => None
  end.

(** [store_data_warehouse]: the two frames are read and inserted one
    after the other, then the report is stored; any exception is logged
    and answered with [False].  [request_logs] and [server_metrics] are
    what [pd.read_csv(...).to_dict("records")] gives, or nothing when the
    read raises. *)
Definition store_data_warehouse
           (warehouse : SQLDataWarehouse.warehouse)
           (request_logs server_metrics : option (list pydict))
           (analytics_report : pydict) (now : Z) (w : world)
  : bool * world :=
  match request_logs with
  | None => (false, w)
  | Some rq =>
      match insert_request_logs warehouse rq w with
      | (Raise _, w1) => (false, w1)
      | (Ok _, w1) =>
          match server_metrics with
          | None => (false, w1)
          | Some sm =>
              match insert_server_metrics warehouse sm w1 with
              | (Raise _, w2) => (false, w2)
              | (Ok _, w2) =>
                  match processing_time_ms analytics_report with
                  | None => (false, w2)
                  | Some ms =>
                      store_analytics_report analytics_report
                                             "comprehensive" ms now w2
                  end
              end
          end
      end
  end.

End StoreDataWarehouse.

End ObservabilityOrchestrator.

(** ** Concrete data used by the examples *)

Module Samples.
Import SQLDataWarehouse.

Definition log_record (bytes : Z) : pydict :=
  [("timestamp", PyStr "2024-01-01T00:00:00");
   ("server_id", PyStr "srv-01");
   ("region", PyStr "us-east");
   ("request_method", PyStr "GET");
   ("status_code", PyInt 200);
   ("response_time_ms", PyInt 120);
   ("retry_rate", PyFloat (5 # 100));
   ("bytes_sent", PyInt bytes)]%string.

Definition three_logs : list pydict :=
  [log_record 1; log_record 2; log_record 3].

Definition small_batches : warehouse :=
  {| batch_size := 2; retry_attempts := 3 |}.

Definition fresh (f : nat -> conn_plan) : world :=
  {| committed := []; opened := 0; faults := f; trace := [] |}.

(** The first connection breaks on its third statement; later ones work. *)
Definition breaks_once (i : nat) : conn_plan :=
  match i with
  | O => ExecuteFails 2 (StoreError "connection reset")
  | S _ => Healthy
  end.

(** The store is unreachable. *)
Definition always_down (i : nat) : conn_plan :=
  ConnectFails (StoreError "unreachable").

Definition metric_record (failures : Z) : pydict :=
  [("timestamp", PyStr "2024-01-01T00:00:00");
   ("server_id", PyStr "srv-01");
   ("cpu_usage_percent", PyFloat (4250 # 100));
   ("memory_usage_percent", PyFloat (6125 # 100));
   ("disk_usage_percent", PyFloat (5000 # 100));
   ("network_in_mbps", PyFloat (40000 # 100));
   ("network_out_mbps", PyFloat (30000 # 100));
   ("active_connections", PyInt 120);
   ("requests_per_second", PyInt 40);
   ("backend_health_failures", PyInt failures)]%string.

Definition three_metrics : list pydict :=
  [metric_record 0; metric_record 1; metric_record 2].

(** One record more than the default batch size. *)
Definition many_logs : list pydict := repeat (log_record 1) 1001.

(** The first connection breaks on statement number 1000, the first of
    the second default batch; later ones work. *)
Definition breaks_once_late (i : nat) : conn_plan :=
  match i with
  | O => ExecuteFails 1000 (StoreError "connection reset")
  | S _ => Healthy
  end.

(** A request row: time in seconds, status code, latency. *)
Definition req (seconds : Z) (status : Z) (latency : Q) : RequestLog.t :=
  {| RequestLog.timestamp := (seconds * 1000000000)%Z;
     RequestLog.server_id := "srv-01";
     RequestLog.region := "us-east";
     RequestLog.request_method := "GET";
     RequestLog.status_code := status;
     RequestLog.response_time_ms := latency;
     RequestLog.retry_rate := 5 # 100;
     RequestLog.bytes_sent := 1500;
     RequestLog.client_ip := "10.0.0.1";
     RequestLog.user_agent := "curl" |}.

(** A server-metric row: server, cpu, memory, health failures. *)
Definition srv (id : string) (cpu mem : Q) (failures : Z)
  : ServerMetric.t :=
  {| ServerMetric.timestamp := 0;
     ServerMetric.server_id := id;
     ServerMetric.cpu_usage_percent := cpu;
     ServerMetric.memory_usage_percent := mem;
     ServerMetric.disk_usage_percent := 50;
     ServerMetric.network_in_mbps := 400;
     ServerMetric.network_out_mbps := 300;
     ServerMetric.active_connections := 120;
     ServerMetric.requests_per_second := 40;
     ServerMetric.backend_health_failures := failures |}.

(** Two requests three seconds apart. *)
Definition two_requests : list RequestLog.t :=
  [req 0 200 100; req 3 200 200].

(** One server whose three cpu samples average 80.00333...,
    and whose memory samples average exactly 80. *)
Definition warm_server : list ServerMetric.t :=
  [srv "srv-01" 80 79 0; srv "srv-01" 80 80 0;
   srv "srv-01" (8001 # 100) 81 0].





(** A single request. *)
Definition single : DashboardEngine.engine :=
  {| DashboardEngine.request_logs_df := Some [req 0 200 100];
     DashboardEngine.server_metrics_df := Some warm_server |}.

(** A clock reading, and a database whose request log holds one row two
    days old and one row of today. *)
Definition today : Z := 1700000000000000000.

Definition aged : Retention.database :=
  fun t =>
    match t with
    | RequestLogs =>
        [((today - 2 * 86400000000000)%Z, [PyStr "srv-01"]);
         (today, [PyStr "srv-02"])]
    | _ => [(today, [])]
    end.

Definition loaded : DashboardEngine.engine :=
  {| DashboardEngine.request_logs_df := Some two_requests;
     DashboardEngine.server_metrics_df := Some warm_server |}.

End Samples.

(** * Properties *)

(** ** The warehouse writer *)

Section WarehouseFacts.
Import SQLDataWarehouse.

Lemma range_succ (n : nat) :
  range (Z.of_nat (S n)) = range (Z.of_nat n) ++ [Z.of_nat n].
Proof.
  unfold range. rewrite !Nat2Z.id, seq_S, map_app. reflexivity.
Qed.

Lemma chunks_concat {A} (n : nat) :
  (0 < n)%nat ->
  forall (fuel : nat) (l : list A),
    (List.length l <= fuel)%nat -> concat (chunks fuel n l) = l.
Proof.
  intros Hn fuel. induction fuel as [|f IH]; intros l Hl.
  - destruct l; [reflexivity | simpl in Hl; lia].
  - destruct l as [|a l]; [reflexivity|].
    change (chunks (S f) n (a :: l))
      with (firstn n (a :: l) :: chunks f n (skipn n (a :: l))).
    simpl concat. rewrite IH.
    + apply firstn_skipn.
    + rewrite length_skipn. simpl List.length in *. lia.
Qed.

Section Attempts.
Context {A : Type}.
Variable self : warehouse.
Variable insert_sql : table.
Variable row_preparer : A -> result (list pyval).

Lemma run_batches_outcome (bs : list (list A)) :
  forall c t t',
    match fst (run_batches insert_sql row_preparer c t bs),
          fst (run_batches insert_sql row_preparer c t' bs) with
    | Ok c1, Ok c2 => c1 = c2
    | Raise e1, Raise e2 => e1 = e2
    | _, _ => False
    end.
Proof.
  induction bs as [|b bs IH]; intros c t t'; simpl.
  - reflexivity.
  - destruct (run_batch insert_sql row_preparer c b) as [c'|e]; simpl.
    + apply IH.
    + reflexivity.
Qed.

(** Whether an attempt raises, and what, does not depend on the counter
    it starts from. *)
Lemma attempt_outcome (p : conn_plan) (records : list A) (t t' : nat) :
  fst (attempt self insert_sql row_preparer p t records)
  = fst (attempt self insert_sql row_preparer p t' records).
Proof.
  unfold attempt.
  destruct (connect p) as [c|e]; [|reflexivity].
  destruct (batches (batch_size self) records) as [bs|e]; [|reflexivity].
  pose proof (run_batches_outcome bs c t t') as H.
  destruct (run_batches insert_sql row_preparer c t bs) as [[c1|e1] n1];
    destruct (run_batches insert_sql row_preparer c t' bs) as [[c2|e2] n2];
    simpl in H; try contradiction; subst.
  - destruct (commit c2); reflexivity.
  - reflexivity.
Qed.

Lemma backoff_trace_step (a : Z) (k : nat) :
  backoff_trace a (S (S k))
  = EvConnect :: EvSleep (2 ^ a) :: backoff_trace (a + 1) (S k).
Proof. reflexivity. Qed.

Lemma sleeps_backoff (k : nat) :
  forall a : nat,
    sleeps (backoff_trace (Z.of_nat a) (S k))
    = map (fun n => 2 ^ n)%Z (map Z.of_nat (seq a k)).
Proof.
  induction k as [|k IH]; intro a.
  - reflexivity.
  - rewrite backoff_trace_step.
    change ((2 ^ Z.of_nat a)%Z
            :: sleeps (backoff_trace (Z.of_nat a + 1) (S k))
            = map (fun n => 2 ^ n)%Z
                  (map Z.of_nat (a :: seq (S a) k))).
    cbn [map]. f_equal.
    replace (Z.of_nat a + 1)%Z with (Z.of_nat (S a)) by lia.
    apply IH.
Qed.

Lemma powers_increasing (k : nat) :
  forall a : nat,
    StronglySorted Z.lt
      (map (fun n => 2 ^ n)%Z (map Z.of_nat (seq a k))).
Proof.
  induction k as [|k IH]; intro a; simpl.
  - constructor.
  - constructor; [apply IH|].
    rewrite Forall_forall. intros x Hx.
    rewrite map_map in Hx. apply in_map_iff in Hx.
    destruct Hx as [b [<- Hb]]. apply in_seq in Hb.
    apply Z.pow_lt_mono_r; lia.
Qed.

(** The loop, run under a permanent failure from attempt number [a]
    with [S k] attempts left. *)
Lemma retry_loop_permanent (records : list A) (k : nat) :
  forall (a t : nat) (w : world),
    (Z.of_nat a + Z.of_nat (S k) = retry_attempts self)%Z ->
    fails_permanently self insert_sql row_preparer records w ->
    exists e w',
      retry_loop self insert_sql row_preparer
                 (map Z.of_nat (seq a (S k))) t records w
      = (Raise e, w')
      /\ fst (attempt self insert_sql row_preparer
                      (faults w (opened w + k)%nat) 0 records) = Raise e
      /\ opened w' = (opened w + S k)%nat
      /\ trace w' = trace w ++ backoff_trace (Z.of_nat a) (S k)
      /\ committed w' = committed w.
Proof.
  induction k as [|k IH]; intros a t w Hn Hf.
  - destruct (Hf (opened w) t) as [e He].
    exists e.
    cbn [seq map retry_loop].
    rewrite (attempt_outcome _ records 0 t).
    rewrite Nat.add_0_r.
    destruct (attempt self insert_sql row_preparer
                      (faults w (opened w)) t records) as [[rows|e'] t1];
      simpl in He; [discriminate|].
    injection He as ->.
    replace (Z.of_nat a =? retry_attempts self - 1)%Z with true
      by (symmetry; apply Z.eqb_eq; lia).
    eexists. split; [reflexivity|].
    cbn. repeat split; try reflexivity. lia.
  - destruct (Hf (opened w) t) as [e1 He1].
    change (seq a (S (S k))) with (a :: seq (S a) (S k)).
    cbn [map retry_loop].
    destruct (attempt self insert_sql row_preparer
                      (faults w (opened w)) t records) as [[rows|e'] t1];
      simpl in He1; [discriminate|].
    replace (Z.of_nat a =? retry_attempts self - 1)%Z with false
      by (symmetry; apply Z.eqb_neq; lia).
    match goal with
    | |- context [retry_loop _ _ _ _ t1 records ?w2] =>
        destruct (IH (S a) t1 w2) as [e [w' [Hrun [Hlast [Ho [Ht Hc]]]]]];
        [lia | exact Hf |]
    end.
    exists e, w'. cbn [opened trace committed faults] in *.
    split; [exact Hrun|].
    split; [replace (opened w + S k)%nat with (S (opened w) + k)%nat by lia;
            exact Hlast|].
    split; [lia|].
    split; [|exact Hc].
    rewrite Ht, backoff_trace_step, <- !app_assoc.
    replace (Z.of_nat a + 1)%Z with (Z.of_nat (S a)) by lia.
    reflexivity.
Qed.
End Attempts.

(** C3.  Under a permanent store failure, and with at least one attempt
    configured, a batch insert opens exactly [retry_attempts]
    connections, sleeps [2 ^ attempt] seconds after every attempt but the
    last (so the delays are [2^0, 2^1, ...], strictly increasing), raises
    the exception of the last attempt, and commits nothing. *)
Theorem batch_insert_permanent_failure
        {A} (self : warehouse) (insert_sql : table)
        (row_preparer : A -> result (list pyval))
        (records : list A) (w : world) :
  (1 <= retry_attempts self)%Z ->
  fails_permanently self insert_sql row_preparer records w ->
  let n := Z.to_nat (retry_attempts self) in
  exists e w',
    _batch_insert self insert_sql row_preparer records w = (Raise e, w')
    /\ (forall t,
           fst (attempt self insert_sql row_preparer
                        (faults w (opened w + n - 1)%nat) t records)
           = Raise e)
    /\ opened w' = (opened w + n)%nat
    /\ trace w' = trace w ++ backoff_trace 0 n
    /\ sleeps (backoff_trace 0 n)
       = map (fun a => 2 ^ a)%Z (range (retry_attempts self - 1))
    /\ StronglySorted Z.lt (sleeps (backoff_trace 0 n))
    /\ committed w' = committed w.
Proof.
  intros Hn Hf n.
  assert (Hk : exists k, n = S k).
  { exists (Nat.pred n). subst n. lia. }
  destruct Hk as [k Hk].
  destruct (retry_loop_permanent self insert_sql row_preparer records k
                                 0%nat 0%nat w)
    as [e [w' [Hrun [Hlast [Ho [Ht Hc]]]]]]; [subst n; lia | exact Hf |].
  exists e, w'.
  assert (Hs : sleeps (backoff_trace 0 n)
               = map (fun a => 2 ^ a)%Z (range (retry_attempts self - 1))).
  { rewrite Hk. change 0%Z with (Z.of_nat 0). rewrite sleeps_backoff.
    unfold range. do 3 f_equal. subst n. lia. }
  split.
  { unfold _batch_insert, range. fold n. rewrite Hk. exact Hrun. }
  split.
  { intro t. rewrite (attempt_outcome _ _ _ _ records t 0%nat).
    replace (opened w + n - 1)%nat with (opened w + k)%nat by lia.
    exact Hlast. }
  split; [rewrite Hk; exact Ho|].
  split; [rewrite Hk; exact Ht|].
  split; [exact Hs|].
  split; [|exact Hc].
  rewrite Hs. unfold range. apply powers_increasing.
Qed.

(** C3 at the defaults: three log records, an unreachable store. *)
Lemma batch_insert_permanent_failure_witness :
  exists e w',
    _batch_insert default RequestLogs _prepare_request_log_row
                  Samples.three_logs (Samples.fresh Samples.always_down)
    = (Raise e, w')
    /\ opened w' = 3%nat
    /\ trace w' = [EvConnect; EvSleep 1; EvConnect; EvSleep 2; EvConnect]
    /\ committed w' = [].
Proof.
  destruct (batch_insert_permanent_failure
              default RequestLogs _prepare_request_log_row
              Samples.three_logs (Samples.fresh Samples.always_down))
    as [e [w' [Hrun [_ [Ho [Ht [_ [_ Hc]]]]]]]].
  - simpl. lia.
  - intros i t. exists (StoreError "unreachable"). reflexivity.
  - exists e, w'. repeat split; assumption.
Defined.

(** With no attempt configured the loop body never runs: the call
    returns the initial counter and touches nothing. *)
Lemma batch_insert_no_attempt
      {A} (self : warehouse) (insert_sql : table)
      (row_preparer : A -> result (list pyval))
      (records : list A) (w : world) :
  (retry_attempts self <= 0)%Z ->
  _batch_insert self insert_sql row_preparer records w = (Ok 0%nat, w).
Proof.
  intro H. unfold _batch_insert, range.
  replace (Z.to_nat (retry_attempts self)) with 0%nat by lia.
  reflexivity.
Qed.

Lemma run_batch_healthy {A} (insert_sql : table)
      (row_preparer : A -> result (list pyval)) (batch : list A) :
  forall (rows : list (list pyval)) (c : conn),
    plan c = Healthy ->
    Forall2 (fun r row => row_preparer r = Ok row) batch rows ->
    exists c',
      run_batch insert_sql row_preparer c batch = Ok c'
      /\ plan c' = Healthy
      /\ pending c' = pending c ++ map (pair insert_sql) rows.
Proof.
  induction batch as [|r batch IH]; intros rows c Hp Hrows.
  - inversion Hrows; subst. exists c. simpl. rewrite app_nil_r. auto.
  - inversion Hrows as [|? row ? rows' Hr Hrest]; subst.
    cbn [run_batch]. rewrite Hr. cbn [bind].
    unfold execute at 1. rewrite Hp. cbn [bind].
    destruct (IH rows' {| plan := Healthy; executed := S (executed c);
                          pending := pending c ++ [(insert_sql, row)] |})
      as [c' [Hrun [Hp' Hpend]]]; [reflexivity | exact Hrest |].
    exists c'. split; [exact Hrun|]. split; [exact Hp'|].
    rewrite Hpend. cbn [pending map]. rewrite <- app_assoc. reflexivity.
Qed.

Lemma run_batches_healthy {A} (insert_sql : table)
      (row_preparer : A -> result (list pyval)) (bs : list (list A)) :
  forall (rows : list (list pyval)) (c : conn) (t : nat),
    plan c = Healthy ->
    Forall2 (fun r row => row_preparer r = Ok row) (concat bs) rows ->
    exists c',
      run_batches insert_sql row_preparer c t bs
      = (Ok c', (t + List.length (concat bs))%nat)
      /\ plan c' = Healthy
      /\ pending c' = pending c ++ map (pair insert_sql) rows.
Proof.
  induction bs as [|b bs IH]; intros rows c t Hp Hrows.
  - simpl in *. inversion Hrows; subst. exists c.
    rewrite Nat.add_0_r, app_nil_r. auto.
  - simpl concat in *. apply Forall2_app_inv_l in Hrows.
    destruct Hrows as [rows1 [rows2 [H1 [H2 ->]]]].
    destruct (run_batch_healthy insert_sql row_preparer b rows1 c Hp H1)
      as [c1 [Hrun1 [Hp1 Hpend1]]].
    cbn [run_batches]. rewrite Hrun1.
    destruct (IH rows2 c1 (t + List.length b)%nat Hp1 H2)
      as [c' [Hrun [Hp' Hpend]]].
    exists c'. rewrite Hrun, length_app, Nat.add_assoc.
    split; [reflexivity|]. split; [exact Hp'|].
    rewrite Hpend, Hpend1, map_app, app_assoc. reflexivity.
Qed.

(** X14.  When the first connection works and every record can be prepared, the
    call returns the number of records and commits one row for each. *)
Lemma batch_insert_healthy
      {A} (self : warehouse) (insert_sql : table)
      (row_preparer : A -> result (list pyval))
      (records : list A) (rows : list (list pyval)) (w : world) :
  (1 <= retry_attempts self)%Z ->
  (0 < batch_size self)%Z ->
  faults w (opened w) = Healthy ->
  Forall2 (fun r row => row_preparer r = Ok row) records rows ->
  exists w',
    _batch_insert self insert_sql row_preparer records w
    = (Ok (List.length records), w')
    /\ committed w' = committed w ++ map (pair insert_sql) rows
    /\ trace w' = trace w ++ [EvConnect].
Proof.
  intros Hn Hb Hf Hrows.
  unfold _batch_insert, range.
  destruct (Z.to_nat (retry_attempts self)) as [|k] eqn:Ek; [lia|].
  cbn [seq map retry_loop]. unfold attempt. rewrite Hf. cbn [connect].
  unfold batches.
  replace (batch_size self =? 0)%Z with false
    by (symmetry; apply Z.eqb_neq; lia).
  replace (batch_size self <? 0)%Z with false
    by (symmetry; apply Z.ltb_ge; lia).
  set (bs := chunks (List.length records) (Z.to_nat (batch_size self))
                    records).
  assert (Hc : concat bs = records).
  { apply chunks_concat; lia. }
  destruct (run_batches_healthy insert_sql row_preparer bs rows
              {| plan := Healthy; executed := 0; pending := [] |} 0%nat)
    as [c' [Hrun [Hp Hpend]]]; [reflexivity | rewrite Hc; exact Hrows |].
  rewrite Hrun. unfold commit. rewrite Hp, Hpend, Hc.
  eexists. split; [reflexivity|]. split; reflexivity.
Qed.

(** C2.  Three records in batches of two; the first connection raises on
    its third statement, after the first batch went through; the second
    attempt commits all three rows.  The call returns 5: the counter is
    set to zero once, before the retry loop, and keeps the 2 of the
    attempt that was rolled back. *)
Theorem batch_insert_counts_rolled_back_rows :
  exists w',
    insert_request_logs Samples.small_batches Samples.three_logs
                        (Samples.fresh Samples.breaks_once)
    = (Ok 5%nat, w')
    /\ List.length Samples.three_logs = 3%nat
    /\ List.length (committed w') = 3%nat
    /\ trace w' = [EvConnect; EvSleep 1; EvConnect].
Proof. eexists. split; [vm_compute; reflexivity|]. repeat split. Qed.

(** The same on [insert_server_metrics], which shares the loop. *)
Lemma server_metrics_count_rolled_back_rows :
  exists w',
    insert_server_metrics Samples.small_batches Samples.three_metrics
                          (Samples.fresh Samples.breaks_once)
    = (Ok 5%nat, w')
    /\ List.length (committed w') = 3%nat.
Proof. eexists. split; [vm_compute; reflexivity|]. reflexivity. Qed.

(** The same with the default configuration: 1001 records, the first
    connection breaking at the start of the second batch; the call
    returns 2001. *)
Lemma default_batches_count_rolled_back_rows :
  exists w',
    insert_request_logs default Samples.many_logs
                        (Samples.fresh Samples.breaks_once_late)
    = (Ok 2001%nat, w')
    /\ List.length Samples.many_logs = 1001%nat
    /\ List.length (committed w') = 1001%nat.
Proof. eexists. split; [vm_compute; reflexivity|]. split; reflexivity. Qed.

(** On a store that works at the first attempt the count is the length
    of the input and the rows are committed. *)
Lemma batch_insert_first_attempt :
  exists w',
    insert_request_logs Samples.small_batches Samples.three_logs
                        (Samples.fresh (fun _ => Healthy))
    = (Ok 3%nat, w')
    /\ List.length (committed w') = 3%nat.
Proof. eexists. split; [vm_compute; reflexivity|]. reflexivity. Qed.



End WarehouseFacts.

(** ** Rounding and order *)

Section NumFacts.
Import Num.


Lemma round_half_even_bounds (x : Q) :
  (Qfloor x <= round_half_even x <= Qfloor x + 1)%Z.
Proof.
  unfold round_half_even.
  destruct (Qcompare (x - inject_Z (Qfloor x)) (1 # 2));
    [destruct (Z.even (Qfloor x))| |]; lia.
Qed.

Lemma round_half_even_mono (x y : Q) :
  x <= y -> (round_half_even x <= round_half_even y)%Z.
Proof.
  intro H.
  pose proof (Qfloor_resp_le _ _ H) as Hf.
  destruct (Z.eq_dec (Qfloor x) (Qfloor y)) as [E|NE].
  - unfold round_half_even. rewrite E.
    destruct (Qcompare_spec (x - inject_Z (Qfloor y)) (1 # 2)) as [Cx|Cx|Cx];
      destruct (Qcompare_spec (y - inject_Z (Qfloor y)) (1 # 2)) as [Cy|Cy|Cy];
      try (destruct (Z.even (Qfloor y))); try lia;
      exfalso; lra.
  - pose proof (round_half_even_bounds x).
    pose proof (round_half_even_bounds y). lia.
Qed.


Lemma scale_pos (d : nat) : 0 < inject_Z (10 ^ Z.of_nat d).
Proof.
  change 0 with (inject_Z 0). rewrite <- Zlt_Qlt.
  apply Z.pow_pos_nonneg; lia.
Qed.

Lemma round_nd_mono (d : nat) (x y : Q) :
  x <= y -> round_nd d x <= round_nd d y.
Proof.
  intro H. unfold round_nd.
  pose proof (scale_pos d) as Hs.
  apply Qmult_le_compat_r.
  - rewrite <- Zle_Qle. apply round_half_even_mono.
    apply Qmult_le_compat_r; [exact H | apply Qlt_le_weak, Hs].
  - apply Qlt_le_weak, Qinv_lt_0_compat, Hs.
Qed.



Lemma qlen_pos {A} (l : list A) : l <> [] -> 0 < qlen l.
Proof.
  intro H. unfold qlen. change 0 with (inject_Z 0). rewrite <- Zlt_Qlt.
  destruct l; [congruence | simpl; lia].
Qed.

Lemma Qfloor_bounds (x : Q) :
  inject_Z (Qfloor x) <= x /\ x < inject_Z (Qfloor x) + 1.
Proof.
  split; [apply Qfloor_le|].
  pose proof (Qlt_floor x) as H. rewrite inject_Z_plus in H. exact H.
Qed.

Lemma inject_Z_lt_succ (a b : Z) :
  inject_Z a < inject_Z b + 1 -> (a <= b)%Z.
Proof.
  intro H. change 1 with (inject_Z 1) in H.
  rewrite <- inject_Z_plus, <- Zlt_Qlt in H. lia.
Qed.

(** A value less than half a unit away from an integer rounds to it. *)
Lemma round_half_even_near (y : Q) (z : Z) :
  Qabs (y - inject_Z z) < 1 # 2 -> round_half_even y = z.
Proof.
  intro H. apply Qabs_Qlt_condition in H. destruct H as [H1 H2].
  destruct (Qfloor_bounds y) as [F1 F2].
  unfold round_half_even.
  destruct (Qcompare_spec (y - inject_Z (Qfloor y)) (1 # 2)) as [C|C|C].
  - exfalso.
    assert (A : (Qfloor y <= z)%Z) by (apply inject_Z_lt_succ; lra).
    assert (B : (z <= Qfloor y + 1)%Z).
    { apply inject_Z_lt_succ. rewrite inject_Z_plus.
      change (inject_Z 1) with 1. lra. }
    assert (E : z = Qfloor y \/ z = (Qfloor y + 1)%Z) by lia.
    destruct E as [->| ->]; [|rewrite inject_Z_plus in *;
                               change (inject_Z 1) with 1 in *]; lra.
  - assert (A : (Qfloor y <= z)%Z) by (apply inject_Z_lt_succ; lra).
    assert (B : (z <= Qfloor y)%Z) by (apply inject_Z_lt_succ; lra).
    lia.
  - assert (A : (Qfloor y + 1 <= z)%Z).
    { apply inject_Z_lt_succ. rewrite inject_Z_plus.
      change (inject_Z 1) with 1. lra. }
    assert (B : (z <= Qfloor y + 1)%Z).
    { apply inject_Z_lt_succ. rewrite inject_Z_plus.
      change (inject_Z 1) with 1. lra. }
    lia.
Qed.

Lemma Qabs_cases (a : Q) : (0 <= a /\ Qabs a == a) \/ (a < 0 /\ Qabs a == - a).
Proof.
  destruct (Qlt_le_dec a 0) as [H|H].
  - right. split; [exact H|]. apply Qabs_neg, Qlt_le_weak, H.
  - left. split; [exact H|]. apply Qabs_pos, H.
Qed.

(** Rounding does not tell two values apart when no tie lies between
    them. *)
Lemma round_half_even_stable (s y y' : Q) :
  Qabs (y' - y) <= s -> s < tie_distance y ->
  round_half_even y' = round_half_even y.
Proof.
  intros Hc Ht. apply Qabs_Qle_condition in Hc. destruct Hc as [C1 C2].
  destruct (Qfloor_bounds y) as [F1 F2].
  unfold tie_distance in Ht.
  apply round_half_even_near. apply Qabs_Qlt_condition.
  unfold round_half_even.
  destruct (Qabs_cases (y - inject_Z (Qfloor y) - (1 # 2))) as [[P E]|[P E]];
    rewrite E in Ht;
    destruct (Qcompare_spec (y - inject_Z (Qfloor y)) (1 # 2)) as [C|C|C];
    try (exfalso; lra);
    try (rewrite inject_Z_plus; change (inject_Z 1) with 1);
    split; lra.
Qed.

Lemma round_nd_stable (d : nat) (slack x x' : Q) :
  rounds_as d slack x x' -> round_nd d x' = round_nd d x.
Proof.
  intros [Hc Ht]. unfold round_nd.
  pose proof (scale_pos d) as Hs.
  set (S := inject_Z (10 ^ Z.of_nat d)) in *.
  rewrite (round_half_even_stable (slack * S) (x * S) (x' * S));
    [reflexivity | | exact Ht].
  apply Qabs_Qle_condition in Hc. destruct Hc as [C1 C2].
  apply Qabs_Qle_condition. split; nra.
Qed.

(** A value rounds as itself when it is clear of the ties. *)
Lemma rounds_as_refl (d : nat) (slack x : Q) :
  0 <= slack ->
  slack * inject_Z (10 ^ Z.of_nat d)
  < tie_distance (x * inject_Z (10 ^ Z.of_nat d)) ->
  rounds_as d slack x x.
Proof.
  intros H0 Ht. split; [|exact Ht].
  apply Qabs_Qle_condition. split; lra.
Qed.

(** *** Sums of [int64] columns *)

Lemma wrap64_small (z : Z) :
  (- 9223372036854775808 <= z < 9223372036854775808)%Z -> wrap64 z = z.
Proof. intro H. unfold wrap64. rewrite Z.mod_small; lia. Qed.

(** A wrapped integer lies in the signed range and differs from the
    integer by a multiple of [2^64]. *)
Lemma wrap64_spec (z : Z) :
  (- 9223372036854775808 <= wrap64 z < 9223372036854775808)%Z
  /\ ((wrap64 z - z) mod 18446744073709551616 = 0)%Z.
Proof.
  unfold wrap64.
  pose proof (Z.mod_pos_bound (z + 9223372036854775808)
                              18446744073709551616) as H.
  split; [lia|].
  rewrite (Z.mod_eq (z + 9223372036854775808) 18446744073709551616) by lia.
  replace (z + 9223372036854775808
           - 18446744073709551616
             * ((z + 9223372036854775808) / 18446744073709551616)
           - 9223372036854775808 - z)%Z
    with ((- ((z + 9223372036854775808) / 18446744073709551616))
          * 18446744073709551616)%Z by lia.
  apply Z.mod_mul. lia.
Qed.

Lemma wrap64_add (a b : Z) : wrap64 (wrap64 a + b) = wrap64 (a + b).
Proof.
  unfold wrap64. f_equal.
  replace ((a + 9223372036854775808) mod 18446744073709551616
           - 9223372036854775808 + b + 9223372036854775808)%Z
    with ((a + 9223372036854775808) mod 18446744073709551616 + b)%Z by lia.
  rewrite Zplus_mod_idemp_l. f_equal. lia.
Qed.

Lemma wrap64_idem (a : Z) : wrap64 (wrap64 a) = wrap64 a.
Proof.
  transitivity (wrap64 (wrap64 a + 0)); [f_equal; lia|].
  rewrite wrap64_add. f_equal. lia.
Qed.

Lemma isum_from (l : list Z) :
  forall a,
    fold_left (fun acc x => wrap64 (acc + x)) l (wrap64 a)
    = wrap64 (a + zsum l).
Proof.
  induction l as [|x l IH]; intro a; simpl.
  - f_equal. lia.
  - rewrite wrap64_add, IH. f_equal. lia.
Qed.

(** The wrapped sum is the sum modulo [2^64]. *)
Lemma isum_wrap (l : list Z) : isum l = wrap64 (zsum l).
Proof.
  unfold isum. change 0%Z with (wrap64 0) at 1. rewrite isum_from.
  reflexivity.
Qed.

End NumFacts.

(** ** The dashboard engine: preconditions and reproducibility *)

Section EngineFacts.
Import Num Frame DashboardEngine.

(** A frame with rows has timestamps, a span and an accessor. *)
Lemma timestamps_loaded (df : list RequestLog.t) :
  df <> [] -> map RequestLog.timestamp df <> [].
Proof. destruct df; [congruence | discriminate]. Qed.

Lemma dt_loaded {A} (column : list A) : column <> [] -> dt column = Ok column.
Proof. destruct column; [congruence | reflexivity]. Qed.

Lemma dt_timestamps (df : list RequestLog.t) :
  df <> [] ->
  dt (map RequestLog.timestamp df) = Ok (map RequestLog.timestamp df).
Proof. intro H. apply dt_loaded, timestamps_loaded, H. Qed.

Lemma span_seconds_loaded (df : list RequestLog.t) :
  df <> [] -> exists span, span_seconds df = Ok span.
Proof.
  destruct df as [|r df]; [congruence|]. intros _.
  unfold span_seconds. cbn [map zmax zmin]. eexists. reflexivity.
Qed.

Lemma time_range_loaded (df : list RequestLog.t) :
  df <> [] ->
  exists lo hi,
    zmin (map RequestLog.timestamp df) = Some lo
    /\ zmax (map RequestLog.timestamp df) = Some hi.
Proof.
  destruct df as [|r df]; [congruence|]. intros _.
  cbn [map zmax zmin]. eexists. eexists. split; reflexivity.
Qed.

(** The three outcomes of the computations that read the request frame. *)
Lemma compute_request_kpis_outcome (self : engine) :
  match request_logs_df self with
  | None =>
      compute_request_kpis self
      = Raise (ValueError "Request logs data not loaded. Call load_data() first.")
  | Some [] => exists msg, compute_request_kpis self = Raise (AttributeError msg)
  | Some (_ :: _) => exists k, compute_request_kpis self = Ok k
  end.
Proof.
  unfold compute_request_kpis.
  destruct (request_logs_df self) as [[|r df]|]; [| |reflexivity].
  - eexists. reflexivity.
  - destruct (span_seconds_loaded (r :: df)) as [span E]; [discriminate|].
    rewrite E. cbn [bind]. eexists. reflexivity.
Qed.

Lemma compute_traffic_patterns_outcome (self : engine) :
  match request_logs_df self with
  | None =>
      compute_traffic_patterns self
      = Raise (ValueError "Request logs data not loaded. Call load_data() first.")
  | Some [] =>
      exists msg, compute_traffic_patterns self = Raise (AttributeError msg)
  | Some (_ :: _) => exists p, compute_traffic_patterns self = Ok p
  end.
Proof.
  unfold compute_traffic_patterns.
  destruct (request_logs_df self) as [[|r df]|]; [| |reflexivity].
  - eexists. reflexivity.
  - rewrite dt_timestamps by discriminate. cbn [bind]. eexists. reflexivity.
Qed.

Lemma compute_server_kpis_outcome (self : engine) :
  match server_metrics_df self with
  | None =>
      compute_server_kpis self
      = Raise (ValueError "Server metrics data not loaded. Call load_data() first.")
  | Some _ => exists k, compute_server_kpis self = Ok k
  end.
Proof.
  unfold compute_server_kpis.
  destruct (server_metrics_df self); [eexists|]; reflexivity.
Qed.

Lemma detect_anomalies_outcome (self : engine) :
  match request_logs_df self, server_metrics_df self with
  | Some [], Some _ =>
      exists msg, detect_anomalies self = Raise (AttributeError msg)
  | Some (_ :: _), Some _ => exists a, detect_anomalies self = Ok a
  | _, _ =>
      detect_anomalies self
      = Raise (ValueError "Both request logs and server metrics data must be loaded")
  end.
Proof.
  unfold detect_anomalies.
  destruct (request_logs_df self) as [[|r df]|];
    destruct (server_metrics_df self) as [sm|]; try reflexivity.
  - eexists. reflexivity.
  - cbv zeta. rewrite dt_timestamps by discriminate. cbn [bind].
    eexists. reflexivity.
Qed.

Lemma generate_comprehensive_report_outcome (self : engine) (now : Z) :
  match request_logs_df self, server_metrics_df self with
  | Some [], Some _ =>
      exists msg,
        generate_comprehensive_report self now = Raise (AttributeError msg)
  | Some (_ :: _), Some _ =>
      exists r, generate_comprehensive_report self now = Ok r
  | _, _ =>
      generate_comprehensive_report self now
      = Raise (ValueError "Both request logs and server metrics data must be loaded")
  end.
Proof.
  pose proof (compute_request_kpis_outcome self) as Hk.
  pose proof (compute_server_kpis_outcome self) as Hs.
  pose proof (compute_traffic_patterns_outcome self) as Hp.
  pose proof (detect_anomalies_outcome self) as Ha.
  unfold generate_comprehensive_report.
  destruct (request_logs_df self) as [[|r df]|];
    destruct (server_metrics_df self) as [sm|]; try reflexivity.
  - eexists. reflexivity.
  - destruct (time_range_loaded (r :: df)) as [lo [hi [Elo Ehi]]];
      [discriminate|].
    destruct Hk as [k Hk]. destruct Hs as [sk Hs]. destruct Hp as [tp Hp].
    destruct Ha as [a Ha].
    cbv zeta. rewrite Elo, Ehi, Hk, Hs, Hp, Ha. cbn [isoformat bind].
    eexists. reflexivity.
Qed.


Lemma compute_traffic_patterns_loaded
      (self : engine) (df : list RequestLog.t) :
  request_logs_df self = Some df ->
  df <> [] ->
  compute_traffic_patterns self
  = Ok {| hourly_traffic_volume :=
            map (fun g => (fst g, List.length (snd g))) (by_hour df);
          daily_traffic_volume :=
            map (fun g => (fst g, List.length (snd g))) (by_day df);
          hourly_avg_latency :=
            map (fun kv => (fst kv, map_num round2 (snd kv)))
                (hourly_latency df);
          top_latency_hours :=
            map (fun kv => (fst kv, round2 (snd kv)))
                (nlargest 5 (hourly_latency df)) |}.
Proof.
  intros Hdf Hne. unfold compute_traffic_patterns.
  rewrite Hdf, (dt_timestamps df Hne). reflexivity.
Qed.

Lemma detect_anomalies_loaded
      (self : engine) (df_req : list RequestLog.t)
      (df_srv : list ServerMetric.t) :
  request_logs_df self = Some df_req ->
  server_metrics_df self = Some df_srv ->
  df_req <> [] ->
  detect_anomalies self
  = Ok {| slow_request_threshold_ms :=
            option_map Rround2
              (threshold_rt (map RequestLog.response_time_ms df_req));
          slow_request_count :=
            slow_count (map RequestLog.response_time_ms df_req);
          error_spike_hours := error_spikes df_req;
          server_health_failures_above_5 :=
            unique String.eqb
              (map ServerMetric.server_id
                   (filter (fun r =>
                              (5 <? ServerMetric.backend_health_failures r)%Z)
                           df_srv)) |}.
Proof.
  intros Hr Hs Hne. unfold detect_anomalies. rewrite Hr, Hs. cbv zeta.
  rewrite (dt_timestamps df_req Hne). reflexivity.
Qed.


(** A report is produced as soon as both frames are loaded and the
    request frame has a row. *)
Lemma report_of_loaded (rq : list RequestLog.t) (sm : list ServerMetric.t)
      (now : Z) :
  rq <> [] ->
  exists r,
    generate_comprehensive_report
      {| request_logs_df := Some rq; server_metrics_df := Some sm |} now
    = Ok r.
Proof.
  intro Hne.
  pose proof (generate_comprehensive_report_outcome
                {| request_logs_df := Some rq; server_metrics_df := Some sm |}
                now) as H.
  cbn [request_logs_df server_metrics_df] in H.
  destruct rq; [congruence | exact H].
Qed.

(** C9.  Two reports drawn from the same engine at two clock readings
    agree on the four computed sections and on the counts and time range
    of the metadata; [generated_at] is the reading of each call. *)
Theorem report_reproducible (self : engine) (t1 t2 : Z) (r1 r2 : report) :
  generate_comprehensive_report self t1 = Ok r1 ->
  generate_comprehensive_report self t2 = Ok r2 ->
  report_request_kpis r1 = report_request_kpis r2
  /\ report_server_kpis r1 = report_server_kpis r2
  /\ report_traffic_patterns r1 = report_traffic_patterns r2
  /\ report_anomalies r1 = report_anomalies r2
  /\ request_log_entries (metadata r1) = request_log_entries (metadata r2)
  /\ server_metric_entries (metadata r1) = server_metric_entries (metadata r2)
  /\ time_range_start (metadata r1) = time_range_start (metadata r2)
  /\ time_range_end (metadata r1) = time_range_end (metadata r2)
  /\ generated_at (metadata r1) = t1
  /\ generated_at (metadata r2) = t2.
Proof.
  unfold generate_comprehensive_report.
  destruct (request_logs_df self) as [rq|]; [|discriminate].
  destruct (server_metrics_df self) as [sm|]; [|discriminate].
  cbv zeta.
  destruct (isoformat (zmin (map RequestLog.timestamp rq))) as [start|];
    [|discriminate].
  destruct (isoformat (zmax (map RequestLog.timestamp rq))) as [stop|];
    [|discriminate].
  cbn [bind].
  destruct (compute_request_kpis self) as [rk|]; [|discriminate].
  destruct (compute_server_kpis self) as [sk|]; [|discriminate].
  destruct (compute_traffic_patterns self) as [tp|]; [|discriminate].
  destruct (detect_anomalies self) as [an|]; [|discriminate].
  cbn [bind]. intros H1 H2.
  injection H1 as <-. injection H2 as <-.
  cbn. repeat split.
Qed.

(** C9 on the sample engine, read at two different times. *)
Lemma report_reproducible_witness :
  exists r1 r2,
    generate_comprehensive_report Samples.loaded 1000 = Ok r1
    /\ generate_comprehensive_report Samples.loaded 2000 = Ok r2
    /\ report_request_kpis r1 = report_request_kpis r2
    /\ report_anomalies r1 = report_anomalies r2
    /\ generated_at (metadata r1) <> generated_at (metadata r2).
Proof.
  destruct (report_of_loaded Samples.two_requests Samples.warm_server 1000)
    as [r1 H1]; [discriminate|].
  destruct (report_of_loaded Samples.two_requests Samples.warm_server 2000)
    as [r2 H2]; [discriminate|].
  exists r1, r2.
  destruct (report_reproducible Samples.loaded 1000 2000 r1 r2 H1 H2)
    as [Hk [_ [_ [Ha [_ [_ [_ [_ [G1 G2]]]]]]]]].
  repeat split; try assumption.
  rewrite G1, G2. discriminate.
Defined.

End EngineFacts.

(** ** Requests per second *)

Section ThroughputFacts.
Import Num Frame DashboardEngine.









End ThroughputFacts.

(** ** Grouping *)

Section GroupFacts.
Import Frame.
Context {A K : Type}.
Variable eqb : K -> K -> bool.
Variable leb : K -> K -> bool.
Variable key : A -> K.
Hypothesis eqb_eq : forall a b, eqb a b = true <-> a = b.

Lemma insert_key_In (k x : K) (ks : list K) :
  In x (insert_key eqb leb k ks) <-> x = k \/ In x ks.
Proof.
  induction ks as [|k' r IH]; simpl.
  - intuition.
  - destruct (eqb k k') eqn:E.
    + apply eqb_eq in E. subst k'. simpl. intuition.
    + destruct (leb k k'); simpl; [intuition|].
      rewrite IH. intuition.
Qed.

Lemma group_keys_In (l : list A) (k : K) :
  In k (group_keys eqb leb key l) <-> In k (map key l).
Proof.
  unfold group_keys. induction (map key l) as [|a r IH]; simpl.
  - tauto.
  - rewrite insert_key_In, IH. intuition.
Qed.

(** The groups are the keys that occur, each with the rows that carry
    it. *)
Lemma groupby_In (l : list A) (k : K) (rows : list A) :
  In (k, rows) (groupby eqb leb key l)
  <-> In k (map key l) /\ rows = filter (fun a => eqb (key a) k) l.
Proof.
  unfold groupby. rewrite in_map_iff. split.
  - intros [k' [E Hk]]. injection E as -> <-.
    split; [apply group_keys_In, Hk | reflexivity].
  - intros [Hk ->]. exists k. split; [reflexivity|].
    apply group_keys_In, Hk.
Qed.

Lemma groupby_rows (l : list A) (g : K * list A) :
  In g (groupby eqb leb key l) ->
  snd g <> [] /\ forall a, In a (snd g) -> In a l /\ key a = fst g.
Proof.
  destruct g as [k rows]. intro H. apply groupby_In in H.
  destruct H as [Hk ->]. simpl. split.
  - apply in_map_iff in Hk. destruct Hk as [a [Ha Hin]].
    intro E.
    assert (Hf : In a (filter (fun a => eqb (key a) k) l)).
    { apply filter_In. split; [exact Hin|]. apply eqb_eq, Ha. }
    rewrite E in Hf. exact Hf.
  - intros a Ha. apply filter_In in Ha. destruct Ha as [Hin Hk'].
    split; [exact Hin | apply eqb_eq, Hk'].
Qed.

End GroupFacts.

(** ** Error spikes *)

Section SpikeFacts.
Import Num Frame DashboardEngine.

Lemma qsum_zero (l : list Q) :
  Forall (fun x => x == 0) l -> qsum l == 0.
Proof.
  induction 1 as [|x l Hx _ IH]; simpl.
  - reflexivity.
  - rewrite Hx, IH. reflexivity.
Qed.

Lemma mean_zero (l : list Q) (m : Q) :
  Forall (fun x => x == 0) l -> mean l = Some m -> m == 0.
Proof.
  intros H. destruct l as [|x l]; [discriminate|].
  unfold mean. intro E. injection E as <-.
  rewrite (qsum_zero _ H). unfold Qdiv. apply Qmult_0_l.
Qed.

(** Without a failed request every hourly error rate is zero. *)
Lemma hourly_errors_zero (df : list RequestLog.t) :
  (forall r, In r df -> (RequestLog.status_code r < 400)%Z) ->
  Forall (fun kv => forall v, snd kv = Some v -> v == 0) (hourly_errors df).
Proof.
  intro Hok. unfold hourly_errors. rewrite Forall_forall.
  intros kv Hkv. apply in_map_iff in Hkv.
  destruct Hkv as [g [<- Hg]]. cbn [snd].
  apply (groupby_rows Z.eqb Z.leb _ Z.eqb_eq) in Hg.
  destruct Hg as [_ Hrows].
  destruct (mean (map (fun r => flag (is_error r)) (snd g)))
    as [m|] eqn:Em; [|discriminate].
  simpl. intros v Ev. injection Ev as <-. apply mean_zero in Em.
  - rewrite Em. reflexivity.
  - rewrite Forall_forall. intros x Hx. apply in_map_iff in Hx.
    destruct Hx as [r [<- Hr]].
    destruct (Hrows r Hr) as [Hin _]. specialize (Hok r Hin).
    unfold is_error.
    replace (400 <=? RequestLog.status_code r)%Z with false
      by (symmetry; apply Z.leb_gt; exact Hok).
    reflexivity.
Qed.

Lemma series_mean_zero {K} (s : list (K * option Q)) (m : Q) :
  Forall (fun kv => forall v, snd kv = Some v -> v == 0) s ->
  series_mean s = Some m -> m == 0.
Proof.
  intros H. unfold series_mean. apply mean_zero.
  induction H as [|kv s Hkv _ IH]; simpl.
  - constructor.
  - destruct (snd kv) as [v|]; simpl; [constructor|]; auto.
Qed.

Lemma no_spike_over_zero {K} (s : list (K * option Q)) (m : Q) :
  Forall (fun kv => forall v, snd kv = Some v -> v == 0) s ->
  m == 0 ->
  flat_map (fun kv =>
              if gt_num (snd kv) (m * 2)
              then match snd kv with
                   | Some v => [(fst kv, round2 v)]
                   | None => []
                   end
              else []) s = [].
Proof.
  intros H Hm. induction H as [|kv s Hkv _ IH]; [reflexivity|].
  cbn [flat_map]. rewrite IH.
  destruct (snd kv) as [v|]; simpl; [|reflexivity].
  assert (E : Qle_bool v (m * 2) = true).
  { apply Qle_bool_iff. rewrite (Hkv v eq_refl), Hm. discriminate. }
  rewrite E. reflexivity.
Qed.

Lemma error_spikes_none (df : list RequestLog.t) :
  (forall r, In r df -> (RequestLog.status_code r < 400)%Z) ->
  error_spikes df = [].
Proof.
  intro Hok. unfold error_spikes.
  pose proof (hourly_errors_zero df Hok) as Hz.
  destruct (series_mean (hourly_errors df)) as [m|] eqn:Em;
    [|reflexivity].
  apply no_spike_over_zero; [exact Hz|].
  apply (series_mean_zero _ _ Hz Em).
Qed.

(** C6.  On a request frame with rows of which none has a status of 400
    or more, the anomalies are produced and their error-spike mapping is
    empty. *)
Theorem no_errors_no_spikes
        (self : engine) (df_req : list RequestLog.t)
        (df_srv : list ServerMetric.t) :
  request_logs_df self = Some df_req ->
  server_metrics_df self = Some df_srv ->
  df_req <> [] ->
  (forall r, In r df_req -> (RequestLog.status_code r < 400)%Z) ->
  exists a, detect_anomalies self = Ok a /\ error_spike_hours a = [].
Proof.
  intros Hr Hs Hne Hok.
  rewrite (detect_anomalies_loaded self df_req df_srv Hr Hs Hne).
  eexists. split; [reflexivity|].
  cbn [error_spike_hours]. apply error_spikes_none, Hok.
Qed.

(** C6 on the sample engine, whose two requests both answered 200. *)
Lemma no_errors_no_spikes_witness :
  exists a,
    detect_anomalies Samples.loaded = Ok a /\ error_spike_hours a = [].
Proof.
  apply (no_errors_no_spikes Samples.loaded Samples.two_requests
                             Samples.warm_server).
  - reflexivity.
  - reflexivity.
  - discriminate.
  - intros r [<-|[<-|[]]]; reflexivity.
Defined.

End SpikeFacts.

(** ** Overloaded servers *)

Section SaturationFacts.
Import Num Frame DashboardEngine.

Lemma gt_num_spec (x : option Q) (y : Q) :
  gt_num x y = true <-> exists v, x = Some v /\ y < v.
Proof.
  unfold gt_num. destruct x as [v|].
  - rewrite negb_true_iff. split.
    + intro E. exists v. split; [reflexivity|].
      apply Qnot_le_lt. intro H. apply Qle_bool_iff in H. congruence.
    + intros [v' [E H]]. injection E as <-.
      destruct (Qle_bool v y) eqn:E; [|reflexivity].
      apply Qle_bool_iff in E. exfalso. apply (Qlt_not_le _ _ H E).
  - split; [discriminate | intros [v [E _]]; discriminate].
Qed.








End SaturationFacts.

(** ** Percentiles *)

Section QuantileFacts.
Import Num Frame DashboardEngine.











End QuantileFacts.

(** ** The slow-request threshold *)

Section AnomalyFacts.
Import Num Frame DashboardEngine.



Lemma not_Qle_bool (a b : Q) : negb (Qle_bool a b) = true <-> b < a.
Proof.
  rewrite negb_true_iff. split.
  - intro E. apply Qnot_le_lt. intro H. apply Qle_bool_iff in H.
    congruence.
  - intro H. destruct (Qle_bool a b) eqn:E; [|reflexivity].
    apply Qle_bool_iff in E. exfalso. apply (Qlt_not_le _ _ H E).
Qed.









(** *** Rounding a real *)











(** With a single request the threshold is NaN, not the mean. *)
Lemma slow_request_threshold_single :
  exists a,
    detect_anomalies Samples.single = Ok a
    /\ slow_request_threshold_ms a = None
    /\ threshold_population [100] <> None.
Proof.
  eexists. split; [reflexivity|]. split; [reflexivity|].
  unfold threshold_population, var_population. cbn [mean]. discriminate.
Qed.

End AnomalyFacts.

(** ** Groups partition the frame *)

Section GroupOrderFacts.
Import Num Frame.
Context {A K : Type}.
Variable eqb : K -> K -> bool.
Variable leb : K -> K -> bool.
Variable key : A -> K.
Hypothesis eqb_eq : forall a b, eqb a b = true <-> a = b.
Hypothesis leb_total : forall a b, leb a b = true \/ leb b a = true.
Hypothesis leb_trans :
  forall a b c, leb a b = true -> leb b c = true -> leb a c = true.
Hypothesis leb_antisym :
  forall a b, leb a b = true -> leb b a = true -> a = b.

Local Abbreviation before := (Frame.before leb).

Lemma before_trans (a b c : K) : before a b -> before b c -> before a c.
Proof.
  intros [Hab Nab] [Hbc Nbc]. split.
  - apply leb_trans with b; assumption.
  - intro E. subst c. apply Nab. apply leb_antisym; assumption.
Qed.

Lemma insert_key_sorted (k : K) (ks : list K) :
  StronglySorted before ks ->
  StronglySorted before (insert_key eqb leb k ks).
Proof.
  induction 1 as [|k' r Hs IH Hk']; simpl.
  - repeat constructor.
  - destruct (eqb k k') eqn:E; [constructor; assumption|].
    assert (Nk : k <> k').
    { intro H. apply eqb_eq in H. congruence. }
    destruct (leb k k') eqn:L.
    + assert (Hb : before k k') by (split; assumption).
      constructor; [constructor; assumption|].
      constructor; [exact Hb|].
      rewrite Forall_forall in *. intros x Hx.
      apply before_trans with k'; [exact Hb | apply Hk', Hx].
    + assert (Hb : before k' k).
      { split; [|congruence].
        destruct (leb_total k k') as [H|H]; [congruence | exact H]. }
      constructor; [exact IH|].
      rewrite Forall_forall in *. intros x Hx.
      apply (insert_key_In eqb leb eqb_eq) in Hx.
      destruct Hx as [->|Hx]; [exact Hb | apply Hk', Hx].
Qed.

Lemma group_keys_sorted (l : list A) :
  StronglySorted before (group_keys eqb leb key l).
Proof.
  unfold group_keys. induction (map key l) as [|k ks IH]; simpl.
  - constructor.
  - apply insert_key_sorted, IH.
Qed.

Lemma sorted_NoDup (ks : list K) : StronglySorted before ks -> NoDup ks.
Proof.
  induction 1 as [|k r Hs IH Hk]; constructor; [|exact IH].
  intro Hin. rewrite Forall_forall in Hk.
  destruct (Hk k Hin) as [_ N]. congruence.
Qed.

(** Each key heads exactly one group. *)
Lemma group_keys_NoDup (l : list A) : NoDup (group_keys eqb leb key l).
Proof. apply sorted_NoDup, group_keys_sorted. Qed.

Lemma groupby_keys (l : list A) :
  map fst (groupby eqb leb key l) = group_keys eqb leb key l.
Proof.
  unfold groupby. rewrite map_map. simpl. apply map_id.
Qed.

Lemma zsum_cons (x : Z) (l : list Z) : zsum (x :: l) = (x + zsum l)%Z.
Proof. reflexivity. Qed.

Lemma pick_one (k : K) (c : Z) (us : list K) :
  NoDup us -> In k us ->
  zsum (map (fun u => if eqb k u then c else 0%Z) us) = c.
Proof.
  induction 1 as [|u us Hu Hnd IH]; intro Hin; [destruct Hin|].
  simpl. destruct (eqb k u) eqn:E.
  - apply eqb_eq in E. subst u.
    assert (Z0 : zsum (map (fun u => if eqb k u then c else 0%Z) us) = 0%Z).
    { clear IH Hin Hnd. induction us as [|x us IH]; [reflexivity|].
      simpl. destruct (eqb k x) eqn:E.
      - apply eqb_eq in E. subst x. exfalso. apply Hu. left. reflexivity.
      - rewrite IH; [reflexivity|]. intro H. apply Hu. right. exact H. }
    rewrite Z0. lia.
  - destruct Hin as [->|Hin].
    + assert (eqb k k = true) by (apply eqb_eq; reflexivity). congruence.
    + rewrite (IH Hin). lia.
Qed.

(** Summing a column group by group gives the sum of the column. *)
Lemma partition_zsum (f : A -> Z) (us : list K) (l : list A) :
  NoDup us ->
  (forall a, In a l -> In (key a) us) ->
  zsum (map (fun u =>
               zsum (map f (filter (fun a => eqb (key a) u) l))) us)
  = zsum (map f l).
Proof.
  intros Hnd. induction l as [|a l IH]; intro Hcov.
  - simpl. clear Hnd Hcov.
    induction us as [|u us IHu]; [reflexivity | exact IHu].
  - assert (Hsplit :
      forall vs,
        zsum (map (fun u =>
                     zsum (map f (filter (fun a => eqb (key a) u)
                                         (a :: l)))) vs)
        = (zsum (map (fun u => if eqb (key a) u then f a else 0%Z) vs)
           + zsum (map (fun u =>
                          zsum (map f (filter (fun a => eqb (key a) u) l)))
                       vs))%Z).
    { induction vs as [|v vs IHv]; [reflexivity|].
      cbn [map]. rewrite !zsum_cons, IHv. cbn [filter].
      destruct (eqb (key a) v); cbn [map]; rewrite ?zsum_cons; lia. }
    rewrite Hsplit, IH.
    + rewrite pick_one; [reflexivity | exact Hnd |].
      apply Hcov. left. reflexivity.
    + intros x Hx. apply Hcov. right. exact Hx.
Qed.

Lemma groupby_zsum (f : A -> Z) (l : list A) :
  zsum (map (fun g => zsum (map f (snd g))) (groupby eqb leb key l))
  = zsum (map f l).
Proof.
  unfold groupby. rewrite map_map. cbn [snd].
  apply partition_zsum.
  - apply group_keys_NoDup.
  - intros a Ha. apply (group_keys_In eqb leb key eqb_eq).
    apply in_map, Ha.
Qed.

End GroupOrderFacts.

(** ** Ranges of the request and server KPIs *)

Section KpiBounds.
Import Num Frame DashboardEngine.



Lemma qsum_flags {A} (p : A -> bool) (l : list A) :
  qsum (map (fun a => flag (p a)) l)
  == inject_Z (Z.of_nat (List.length (filter p l))).
Proof.
  induction l as [|a l IH]; [reflexivity|].
  cbn [map qsum fold_right filter]. fold (qsum (map (fun a => flag (p a)) l)).
  rewrite IH. destruct (p a); unfold flag.
  - cbn [List.length]. rewrite Nat2Z.inj_succ. unfold Z.succ.
    rewrite inject_Z_plus. change (inject_Z 1) with 1. ring.
  - ring.
Qed.






End KpiBounds.

(** ** Server KPIs *)

Section UniqueFacts.
Import Frame.
Context {K : Type}.
Variable eqb : K -> K -> bool.
Hypothesis eqb_eq : forall a b, eqb a b = true <-> a = b.

Lemma existsb_eqb (k : K) (seen : list K) :
  existsb (eqb k) seen = true <-> In k seen.
Proof.
  rewrite existsb_exists. split.
  - intros [x [Hx E]]. apply eqb_eq in E. subst x. exact Hx.
  - intro H. exists k. split; [exact H | apply eqb_eq; reflexivity].
Qed.

Lemma unique_acc_In (ks : list K) :
  forall seen x,
    In x (unique_acc eqb seen ks) <-> In x ks /\ ~ In x seen.
Proof.
  induction ks as [|k ks IH]; intros seen x; simpl.
  - tauto.
  - destruct (existsb (eqb k) seen) eqn:E.
    + apply existsb_eqb in E. rewrite IH. split.
      * intros [H1 H2]. auto.
      * intros [[->|H1] H2]; [contradiction | auto].
    + assert (N : ~ In k seen).
      { intro H. apply existsb_eqb in H. congruence. }
      simpl. rewrite IH. simpl. split.
      * intros [->|[H1 H2]]; [auto | split; [auto | tauto]].
      * intros [[->|H1] H2]; [auto|].
        destruct (eqb k x) eqn:Ekx.
        -- apply eqb_eq in Ekx. auto.
        -- right. split; [exact H1|]. intros [->|H]; [|contradiction].
           assert (eqb x x = true) by (apply eqb_eq; reflexivity).
           congruence.
Qed.

Lemma unique_acc_NoDup (ks : list K) :
  forall seen, NoDup (unique_acc eqb seen ks).
Proof.
  induction ks as [|k ks IH]; intro seen; simpl.
  - constructor.
  - destruct (existsb (eqb k) seen); [apply IH|].
    constructor; [|apply IH].
    intro H. apply unique_acc_In in H. destruct H as [_ H].
    apply H. left. reflexivity.
Qed.

Lemma unique_In (ks : list K) (x : K) : In x (unique eqb ks) <-> In x ks.
Proof. unfold unique. rewrite unique_acc_In. simpl. tauto. Qed.

Lemma unique_NoDup (ks : list K) : NoDup (unique eqb ks).
Proof. apply unique_acc_NoDup. Qed.

End UniqueFacts.

Section ServerKpiFacts.
Import Num Frame DashboardEngine.

Lemma string_compare_trans (a : string) :
  forall b c,
    String.compare a b <> Gt -> String.compare b c <> Gt ->
    String.compare a c <> Gt.
Proof.
  induction a as [|x a IH]; intros b c H1 H2.
  - destruct c; discriminate.
  - destruct b as [|y b]; [simpl in H1; congruence|].
    destruct c as [|z c]; [simpl in H2; congruence|].
    simpl in *. unfold Ascii.compare in *.
    destruct (N.compare_spec (N_of_ascii x) (N_of_ascii y));
      destruct (N.compare_spec (N_of_ascii y) (N_of_ascii z));
      destruct (N.compare_spec (N_of_ascii x) (N_of_ascii z));
      try congruence; try lia; try (apply IH with b; assumption).
Qed.

Lemma string_leb_trans (a b c : string) :
  String.leb a b = true -> String.leb b c = true -> String.leb a c = true.
Proof.
  unfold String.leb. intros H1 H2.
  pose proof (string_compare_trans a b c) as H.
  destruct (String.compare a b); destruct (String.compare b c);
    destruct (String.compare a c); try reflexivity; try discriminate;
    exfalso; apply H; congruence.
Qed.

Lemma fold_left_Qmax_ub (l : list Q) :
  forall x,
    x <= fold_left Qmax l x
    /\ Forall (fun y => y <= fold_left Qmax l x) l.
Proof.
  induction l as [|a l IH]; intro x; simpl.
  - split; [apply Qle_refl | constructor].
  - destruct (IH (Qmax x a)) as [H1 H2]. split.
    + apply Qle_trans with (Qmax x a); [apply Q.le_max_l | exact H1].
    + constructor; [|exact H2].
      apply Qle_trans with (Qmax x a); [apply Q.le_max_r | exact H1].
Qed.

Lemma qsum_le_bound (l : list Q) (M : Q) :
  Forall (fun y => y <= M) l -> qsum l <= qlen l * M.
Proof.
  induction 1 as [|x l Hx _ IH].
  - change (0 <= 0 * M). lra.
  - unfold qlen in *. cbn [qsum fold_right List.length].
    fold (qsum l). rewrite Nat2Z.inj_succ. unfold Z.succ.
    rewrite inject_Z_plus. change (inject_Z 1) with 1. lra.
Qed.

(** A mean is at most the largest value of its column. *)
Lemma mean_le_max (l : list Q) :
  l <> [] ->
  exists m M, mean l = Some m /\ qmax l = Some M /\ m <= M.
Proof.
  intro Hne. destruct l as [|x l]; [congruence|].
  eexists. eexists. split; [reflexivity|]. split; [reflexivity|].
  destruct (fold_left_Qmax_ub l x) as [H1 H2].
  set (M := fold_left Qmax l x) in *.
  apply Qle_shift_div_r; [apply qlen_pos; discriminate|].
  rewrite Qmult_comm. apply qsum_le_bound. constructor; assumption.
Qed.

(** X4.  The average cpu and memory usage do not exceed the respective
    maximum; nor do the reported values, each the rounding of the double
    computed for it, as long as neither the exact mean nor the maximum is
    within the rounding error of a tie of the rounding. *)
Theorem server_average_below_max
        (self : engine) (df : list ServerMetric.t) :
  server_metrics_df self = Some df ->
  df <> [] ->
  let cpu := map ServerMetric.cpu_usage_percent df in
  let memory := map ServerMetric.memory_usage_percent df in
  exists k mc xc mm xm,
    compute_server_kpis self = Ok k
    /\ mean cpu = Some mc /\ qmax cpu = Some xc /\ mc <= xc
    /\ mean memory = Some mm /\ qmax memory = Some xm /\ mm <= xm
    /\ (forall m' x',
           rounds_as 2 (slack cpu) mc m' ->
           rounds_as 2 (slack cpu) xc x' ->
           average_cpu_usage k = Some (round2 m')
           /\ max_cpu_usage k = Some (round2 x')
           /\ round2 m' <= round2 x')
    /\ (forall m' x',
           rounds_as 2 (slack memory) mm m' ->
           rounds_as 2 (slack memory) xm x' ->
           average_memory_usage k = Some (round2 m')
           /\ max_memory_usage k = Some (round2 x')
           /\ round2 m' <= round2 x').
Proof.
  intros Hdf Hne cpu memory. unfold compute_server_kpis. rewrite Hdf.
  destruct (mean_le_max cpu) as [c [C [Hc [HC Hle1]]]].
  { unfold cpu. destruct df; [congruence | discriminate]. }
  destruct (mean_le_max memory) as [m [M [Hm [HM Hle2]]]].
  { unfold memory. destruct df; [congruence | discriminate]. }
  eexists. exists c, C, m, M.
  split; [reflexivity|].
  cbn [average_cpu_usage max_cpu_usage average_memory_usage
       max_memory_usage].
  fold cpu. fold memory. rewrite Hc, HC, Hm, HM. cbn [map_num].
  repeat (split; [first [reflexivity | assumption]|]).
  split; intros m' x' Hr1 Hr2; unfold round2;
    rewrite (round_nd_stable _ _ _ _ Hr1), (round_nd_stable _ _ _ _ Hr2);
    repeat split; apply round_nd_mono; assumption.
Qed.

(** The averages on the sample server: 80.0 against 80.01 for the cpu. *)
Lemma server_average_below_max_witness :
  exists k,
    compute_server_kpis Samples.loaded = Ok k
    /\ average_cpu_usage k = Some (round2 (24001 # 300))
    /\ max_cpu_usage k = Some (round2 (8001 # 100))
    /\ round2 (24001 # 300) <= round2 (8001 # 100).
Proof.
  destruct (server_average_below_max Samples.loaded Samples.warm_server)
    as [k [mc [xc [mm [xm [Hk [Hmc [Hxc [_ [_ [_ [_ [Hcpu _]]]]]]]]]]]]].
  - reflexivity.
  - discriminate.
  - vm_compute in Hmc. injection Hmc as <-.
    vm_compute in Hxc. injection Hxc as <-.
    exists k. split; [exact Hk|].
    apply Hcpu; split; vm_compute; first [reflexivity | discriminate].
Defined.

End ServerKpiFacts.

(** ** Per-server tables *)

Section ServerGroupFacts.
Import Num Frame DashboardEngine.

Lemma by_server_keys_sorted (df : list ServerMetric.t) :
  StronglySorted (before String.leb) (map fst (by_server df)).
Proof.
  unfold by_server. rewrite groupby_keys.
  apply (group_keys_sorted String.eqb String.leb ServerMetric.server_id
           String.eqb_eq String.leb_total string_leb_trans
           String.leb_antisym).
Qed.

Lemma by_server_keys_NoDup (df : list ServerMetric.t) :
  NoDup (map fst (by_server df)).
Proof.
  unfold by_server. rewrite groupby_keys.
  apply (group_keys_NoDup String.eqb String.leb ServerMetric.server_id
           String.eqb_eq String.leb_total string_leb_trans
           String.leb_antisym).
Qed.

Lemma zsum_wrapped (l : list Z) :
  wrap64 (zsum (map wrap64 l)) = wrap64 (zsum l).
Proof.
  induction l as [|x l IH]; [reflexivity|].
  cbn [map]. rewrite !zsum_cons.
  rewrite wrap64_add, Z.add_comm, <- wrap64_add, IH, wrap64_add.
  f_equal. lia.
Qed.

Lemma zsum_nonneg (l : list Z) :
  Forall (fun x => (0 <= x)%Z) l -> (0 <= zsum l)%Z.
Proof.
  induction 1 as [|x l Hx _ IH]; [reflexivity|].
  rewrite zsum_cons. lia.
Qed.

Lemma zsum_filter_le {A} (f : A -> Z) (p : A -> bool) (l : list A) :
  (forall a, In a l -> (0 <= f a)%Z) ->
  (0 <= zsum (map f (filter p l)) <= zsum (map f l))%Z.
Proof.
  induction l as [|a l IH]; intro H; [simpl; lia|].
  assert (Ha : (0 <= f a)%Z) by (apply H; left; reflexivity).
  assert (IH' := IH (fun b Hb => H b (or_intror Hb))).
  cbn [filter map]. destruct (p a); cbn [map]; rewrite ?zsum_cons; lia.
Qed.

(** X5.  The failures per server: one entry for every server of the frame,
    the [int64] sum of the failures of its rows, that is, their sum up to
    a multiple of [2^64], in the signed range; so is the total, and the
    entries add up to the total up to a multiple of [2^64].  All of them
    are the exact sums when no sum overflows: when no row has a negative
    count and the sum of all counts is below [2^63]. *)
Theorem health_failures_by_server_spec
        (self : engine) (df : list ServerMetric.t) :
  server_metrics_df self = Some df ->
  exists k,
    compute_server_kpis self = Ok k
    /\ (forall s,
           In s (map fst (backend_health_failures_by_server k))
           <-> In s (map ServerMetric.server_id df))
    /\ NoDup (map fst (backend_health_failures_by_server k))
    /\ (forall s n,
           In (s, n) (backend_health_failures_by_server k) ->
           (- 9223372036854775808 <= n < 9223372036854775808)%Z
           /\ ((n - zsum (map ServerMetric.backend_health_failures
                              (rows_of s df)))
               mod 18446744073709551616 = 0)%Z)
    /\ (- 9223372036854775808 <= backend_health_failures_total k
        < 9223372036854775808)%Z
    /\ ((backend_health_failures_total k
         - zsum (map ServerMetric.backend_health_failures df))
        mod 18446744073709551616 = 0)%Z
    /\ ((zsum (map snd (backend_health_failures_by_server k))
         - backend_health_failures_total k)
        mod 18446744073709551616 = 0)%Z
    /\ ((forall r, In r df ->
                   (0 <= ServerMetric.backend_health_failures r)%Z) ->
        (zsum (map ServerMetric.backend_health_failures df)
         < 9223372036854775808)%Z ->
        backend_health_failures_total k
        = zsum (map ServerMetric.backend_health_failures df)
        /\ (forall s n,
               In (s, n) (backend_health_failures_by_server k) ->
               n = zsum (map ServerMetric.backend_health_failures
                             (rows_of s df)))
        /\ zsum (map snd (backend_health_failures_by_server k))
           = backend_health_failures_total k).
Proof.
  intro Hdf. unfold compute_server_kpis. rewrite Hdf.
  eexists. split; [reflexivity|].
  cbn [backend_health_failures_by_server backend_health_failures_total].
  assert (Hin : forall s n,
             In (s, n)
                (map (fun g =>
                        (fst g,
                         isum (map ServerMetric.backend_health_failures
                                   (snd g))))
                     (by_server df))
             <-> In s (map ServerMetric.server_id df)
                 /\ n = isum (map ServerMetric.backend_health_failures
                                  (rows_of s df))).
  { intros s n. rewrite in_map_iff. split.
    - intros [[k rows] [E H]]. simpl in E. injection E as -> <-.
      apply (groupby_In _ _ _ String.eqb_eq) in H. destruct H as [Hk ->].
      split; [exact Hk | reflexivity].
    - intros [Hk ->]. exists (s, rows_of s df). split; [reflexivity|].
      apply (groupby_In _ _ _ String.eqb_eq). split; [exact Hk|reflexivity]. }
  assert (Hsum : zsum (map (fun g =>
                              zsum (map ServerMetric.backend_health_failures
                                        (snd g)))
                           (by_server df))
                 = zsum (map ServerMetric.backend_health_failures df)).
  { unfold by_server.
    apply (groupby_zsum String.eqb String.leb ServerMetric.server_id
             String.eqb_eq String.leb_total string_leb_trans
             String.leb_antisym). }
  assert (Hmod : wrap64 (zsum (map (fun g =>
                                      isum (map
                                              ServerMetric.backend_health_failures
                                              (snd g)))
                                   (by_server df)))
                 = isum (map ServerMetric.backend_health_failures df)).
  { transitivity
      (wrap64 (zsum (map wrap64
                         (map (fun g =>
                                 zsum (map ServerMetric.backend_health_failures
                                           (snd g)))
                              (by_server df))))).
    - f_equal. f_equal. rewrite map_map. apply map_ext. intro g.
      apply isum_wrap.
    - rewrite zsum_wrapped, Hsum, isum_wrap. reflexivity. }
  split; [|split; [|split; [|split; [|split; [|split]]]]].
  - intro s. rewrite map_map. cbn [fst].
    change (map (fun x : string * list ServerMetric.t => fst x)
                (by_server df))
      with (map fst (by_server df)).
    unfold by_server. rewrite groupby_keys.
    apply (group_keys_In _ _ _ String.eqb_eq).
  - rewrite map_map. cbn [fst]. apply by_server_keys_NoDup.
  - intros s n H. apply Hin in H. destruct H as [_ ->].
    rewrite isum_wrap. apply wrap64_spec.
  - rewrite isum_wrap. apply wrap64_spec.
  - rewrite isum_wrap. apply wrap64_spec.
  - rewrite map_map. cbn [snd]. rewrite <- Hmod.
    set (z := zsum (map (fun x : string * list ServerMetric.t =>
                           isum (map ServerMetric.backend_health_failures
                                     (snd x)))
                        (by_server df))).
    destruct (wrap64_spec z) as [_ H].
    apply Z.mod_divide in H; [|lia]. apply Z.mod_divide; [lia|].
    replace (z - wrap64 z)%Z with (- (wrap64 z - z))%Z by lia.
    apply Z.divide_opp_r, H.
  - intros Hpos Hmax.
    assert (Hall : (0 <= zsum (map ServerMetric.backend_health_failures df))%Z).
    { apply zsum_nonneg. rewrite Forall_forall. intros x Hx.
      apply in_map_iff in Hx. destruct Hx as [r [<- Hr]]. apply Hpos, Hr. }
    assert (Hgroup : forall s,
               isum (map ServerMetric.backend_health_failures (rows_of s df))
               = zsum (map ServerMetric.backend_health_failures
                           (rows_of s df))).
    { intro s. rewrite isum_wrap. apply wrap64_small. unfold rows_of.
      pose proof (zsum_filter_le ServerMetric.backend_health_failures
                    (fun r => String.eqb (ServerMetric.server_id r) s)
                    df Hpos). lia. }
    split; [rewrite isum_wrap; apply wrap64_small; lia|].
    split.
    + intros s n H. apply Hin in H. destruct H as [_ ->]. apply Hgroup.
    + rewrite map_map. cbn [snd]. rewrite isum_wrap, wrap64_small by lia.
      rewrite <- Hsum. f_equal. apply map_ext_in. intros g Hg.
      destruct g as [s rows]. cbn [snd].
      apply (groupby_In _ _ _ String.eqb_eq) in Hg. destruct Hg as [_ ->].
      apply Hgroup.
Qed.

(** The failures per server on the sample frame, where no sum overflows. *)
Lemma health_failures_by_server_spec_witness :
  exists k,
    compute_server_kpis Samples.loaded = Ok k
    /\ NoDup (map fst (backend_health_failures_by_server k))
    /\ zsum (map snd (backend_health_failures_by_server k))
       = backend_health_failures_total k.
Proof.
  destruct (health_failures_by_server_spec Samples.loaded
              Samples.warm_server eq_refl)
    as [k [Hk [_ [Hn [_ [_ [_ [_ Hs]]]]]]]].
  exists k. split; [exact Hk|]. split; [exact Hn|].
  apply Hs.
  - intros r [<-|[<-|[<-|[]]]]; discriminate.
  - reflexivity.
Defined.

Lemma above_80_sorted (col : util_row -> option Q)
      (table : list (string * util_row)) :
  StronglySorted (before String.leb) (map fst table) ->
  StronglySorted (before String.leb) (above_80 col table)
  /\ incl (above_80 col table) (map fst table).
Proof.
  unfold above_80. induction table as [|row t IH]; simpl; intro Hs.
  - split; [constructor | intros x []].
  - inversion Hs as [|? ? Hs' Hrow]; subst.
    destruct (IH Hs') as [IH1 IH2].
    destruct (gt_num (col (snd row)) 80); simpl.
    + split.
      * constructor; [exact IH1|].
        rewrite Forall_forall in *. intros x Hx. apply Hrow, IH2, Hx.
      * intros x [<-|Hx]; [left; reflexivity | right; apply IH2, Hx].
    + split; [exact IH1|]. intros x Hx. right. apply IH2, Hx.
Qed.

(** X6.  The utilisation table has one row per server of the frame, in
    ascending order of the server id; the two lists of overloaded servers
    are taken from its keys, in the same order and without repetition. *)
Theorem server_utilization_keys
        (self : engine) (df : list ServerMetric.t) :
  server_metrics_df self = Some df ->
  exists k,
    compute_server_kpis self = Ok k
    /\ (forall s, In s (map fst (server_utilization k))
                  <-> In s (map ServerMetric.server_id df))
    /\ StronglySorted (before String.leb) (map fst (server_utilization k))
    /\ NoDup (map fst (server_utilization k))
    /\ StronglySorted (before String.leb) (high_cpu_servers k)
    /\ StronglySorted (before String.leb) (high_memory_servers k)
    /\ incl (high_cpu_servers k) (map fst (server_utilization k))
    /\ incl (high_memory_servers k) (map fst (server_utilization k)).
Proof.
  intro Hdf. unfold compute_server_kpis. rewrite Hdf.
  eexists. split; [reflexivity|].
  cbn [server_utilization high_cpu_servers high_memory_servers].
  assert (Hkeys : map fst (server_util df) = map fst (by_server df)).
  { unfold server_util. rewrite map_map. reflexivity. }
  assert (Hsub : forall col,
             StronglySorted (before String.leb)
                            (above_80 col (server_util df))
             /\ incl (above_80 col (server_util df))
                     (map fst (server_util df))).
  { intro col. apply above_80_sorted. rewrite Hkeys.
    apply by_server_keys_sorted. }
  rewrite Hkeys.
  split.
  { intro s. unfold by_server. rewrite groupby_keys.
    apply (group_keys_In _ _ _ String.eqb_eq). }
  split; [apply by_server_keys_sorted|].
  split; [apply by_server_keys_NoDup|].
  rewrite <- Hkeys.
  split; [apply Hsub|]. split; [apply Hsub|].
  split; apply Hsub.
Qed.

(** The utilisation table of the sample frame. *)
Lemma server_utilization_keys_witness :
  exists k,
    compute_server_kpis Samples.loaded = Ok k
    /\ NoDup (map fst (server_utilization k))
    /\ incl (high_cpu_servers k) (map fst (server_utilization k)).
Proof.
  destruct (server_utilization_keys Samples.loaded Samples.warm_server
                                    eq_refl)
    as [k [Hk [_ [_ [Hn [_ [_ [Hi _]]]]]]]].
  exists k. auto.
Defined.

(** X11.  On a request frame with rows, a server is reported unhealthy
    exactly when one of its samples shows more than five health-check
    failures; it is reported once. *)
Theorem unhealthy_servers_spec
        (self : engine) (df_req : list RequestLog.t)
        (df_srv : list ServerMetric.t) :
  request_logs_df self = Some df_req ->
  server_metrics_df self = Some df_srv ->
  df_req <> [] ->
  exists a,
    detect_anomalies self = Ok a
    /\ (forall s,
           In s (server_health_failures_above_5 a)
           <-> exists r, In r df_srv
                         /\ ServerMetric.server_id r = s
                         /\ (5 < ServerMetric.backend_health_failures r)%Z)
    /\ NoDup (server_health_failures_above_5 a).
Proof.
  intros Hr Hs Hne.
  rewrite (detect_anomalies_loaded self df_req df_srv Hr Hs Hne).
  eexists. split; [reflexivity|].
  cbn [server_health_failures_above_5]. split.
  - intro s. rewrite (unique_In String.eqb String.eqb_eq), in_map_iff.
    split.
    + intros [r [E H]]. apply filter_In in H. destruct H as [Hin Hf].
      exists r. split; [exact Hin|]. split; [exact E|].
      apply Z.ltb_lt, Hf.
    + intros [r [Hin [E Hf]]]. exists r. split; [exact E|].
      apply filter_In. split; [exact Hin | apply Z.ltb_lt, Hf].
  - apply (unique_NoDup String.eqb String.eqb_eq).
Qed.

(** The sample servers are all healthy. *)
Lemma unhealthy_servers_spec_witness :
  exists a,
    detect_anomalies Samples.loaded = Ok a
    /\ NoDup (server_health_failures_above_5 a).
Proof.
  destruct (unhealthy_servers_spec Samples.loaded Samples.two_requests
                                   Samples.warm_server eq_refl eq_refl)
    as [a [Ha [_ Hn]]]; [discriminate|].
  exists a. auto.
Defined.

End ServerGroupFacts.

(** ** Ranking *)

Section RankFacts.
Import Frame.
Context {A : Type}.

(** [gtb] is the comparison the sort is run with, "strictly larger";
    [geb] is the order its result is in. *)
Variable gtb : A -> A -> bool.
Variable geb : A -> A -> bool.

Lemma insert_desc_perm (x : A) (l : list A) :
  Permutation (insert_desc gtb x l) (x :: l).
Proof.
  induction l as [|y r IH]; simpl.
  - apply Permutation_refl.
  - destruct (gtb y x).
    + eapply perm_trans; [apply perm_skip, IH | apply perm_swap].
    + apply Permutation_refl.
Qed.

Lemma sort_desc_perm (l : list A) : Permutation (sort_desc gtb l) l.
Proof.
  induction l as [|x l IH]; simpl.
  - constructor.
  - eapply perm_trans; [apply insert_desc_perm | apply perm_skip, IH].
Qed.

Hypothesis gtb_geb : forall a b, gtb a b = true -> geb a b = true.
Hypothesis not_gtb : forall a b, gtb a b = false -> geb b a = true.
Hypothesis geb_trans :
  forall a b c, geb a b = true -> geb b c = true -> geb a c = true.

Lemma insert_desc_sorted (x : A) (l : list A) :
  StronglySorted (fun a b => geb a b = true) l ->
  StronglySorted (fun a b => geb a b = true) (insert_desc gtb x l).
Proof.
  induction 1 as [|y r Hs IH Hy]; simpl.
  - repeat constructor.
  - destruct (gtb y x) eqn:E.
    + constructor; [exact IH|].
      rewrite Forall_forall in *. intros z Hz.
      apply (Permutation_in _ (insert_desc_perm x r)) in Hz.
      destruct Hz as [<-|Hz]; [apply gtb_geb, E | apply Hy, Hz].
    + assert (Hxy : geb x y = true) by (apply not_gtb, E).
      constructor; [constructor; assumption|].
      constructor; [exact Hxy|].
      rewrite Forall_forall in *. intros z Hz.
      apply geb_trans with y; [exact Hxy | apply Hy, Hz].
Qed.

Lemma sort_desc_sorted (l : list A) :
  StronglySorted (fun a b => geb a b = true) (sort_desc gtb l).
Proof.
  induction l as [|x l IH]; simpl.
  - constructor.
  - apply insert_desc_sorted, IH.
Qed.

(** In a ranked list the first [n] dominate the rest. *)
Lemma sorted_firstn_skipn (n : nat) (l : list A) :
  StronglySorted (fun a b => geb a b = true) l ->
  forall a b, In a (firstn n l) -> In b (skipn n l) -> geb a b = true.
Proof.
  intro Hs. revert n. induction Hs as [|x r Hs IH Hx]; intros n a b Ha Hb.
  - destruct n; destruct Ha.
  - destruct n as [|n]; [destruct Ha|]. simpl in Ha, Hb.
    destruct Ha as [<-|Ha].
    + rewrite Forall_forall in Hx. apply Hx.
      rewrite <- (firstn_skipn n r). apply in_or_app. right. exact Hb.
    + apply (IH n); assumption.
Qed.

Lemma sorted_firstn (n : nat) (l : list A) :
  StronglySorted (fun a b => geb a b = true) l ->
  StronglySorted (fun a b => geb a b = true) (firstn n l).
Proof.
  intro Hs. revert n. induction Hs as [|x r Hs IH Hx]; intro n.
  - destruct n; constructor.
  - destruct n as [|n]; [constructor|]. simpl. constructor; [apply IH|].
    rewrite Forall_forall in *. intros y Hy. apply Hx.
    rewrite <- (firstn_skipn n r). apply in_or_app. left. exact Hy.
Qed.

End RankFacts.

(** ** Traffic patterns *)

Section TrafficFacts.
Import Num Frame DashboardEngine.

Lemma Zleb_total (a b : Z) : (a <=? b)%Z = true \/ (b <=? a)%Z = true.
Proof. rewrite !Z.leb_le. lia. Qed.

Lemma Zleb_trans (a b c : Z) :
  (a <=? b)%Z = true -> (b <=? c)%Z = true -> (a <=? c)%Z = true.
Proof. rewrite !Z.leb_le. lia. Qed.

Lemma Zleb_antisym (a b : Z) :
  (a <=? b)%Z = true -> (b <=? a)%Z = true -> a = b.
Proof. rewrite !Z.leb_le. lia. Qed.

Lemma zsum_ones {A} (l : list A) :
  zsum (map (fun _ => 1%Z) l) = Z.of_nat (List.length l).
Proof.
  induction l as [|a l IH]; [reflexivity|].
  cbn [map List.length]. rewrite zsum_cons, IH. lia.
Qed.

Lemma hour_range (ts : Z) : (0 <= hour ts < 24)%Z.
Proof. unfold hour. apply Z.mod_pos_bound. lia. Qed.

Lemma by_hour_counts_sum (df : list RequestLog.t) :
  zsum (map (fun kv => Z.of_nat (snd kv))
            (map (fun g => (fst g, List.length (snd g))) (by_hour df)))
  = Z.of_nat (List.length df).
Proof.
  rewrite map_map. cbn [snd]. unfold by_hour.
  rewrite <- zsum_ones.
  rewrite <- (groupby_zsum Z.eqb Z.leb
                (fun r => hour (RequestLog.timestamp r))
                Z.eqb_eq Zleb_total Zleb_trans Zleb_antisym
                (fun _ => 1%Z) df).
  f_equal. apply map_ext. intro g. symmetry. apply zsum_ones.
Qed.

(** X7.  The hourly volume of a request frame with rows: one entry for
    every hour of the day in which a request fell, in ascending order of
    the hour, holding the number of requests of that hour; the entries
    add up to the number of requests. *)
Theorem hourly_traffic_volume_spec (self : engine) (df : list RequestLog.t) :
  request_logs_df self = Some df ->
  df <> [] ->
  exists p,
    compute_traffic_patterns self = Ok p
    /\ (forall h n,
           In (h, n) (hourly_traffic_volume p)
           <-> In h (map (fun r => hour (RequestLog.timestamp r)) df)
               /\ n = List.length
                        (filter (fun r =>
                                   (hour (RequestLog.timestamp r) =? h)%Z)
                                df))
    /\ StronglySorted Z.lt (map fst (hourly_traffic_volume p))
    /\ (forall h n, In (h, n) (hourly_traffic_volume p) ->
                    (0 <= h < 24)%Z /\ (0 < n)%nat)
    /\ zsum (map (fun kv => Z.of_nat (snd kv)) (hourly_traffic_volume p))
       = Z.of_nat (List.length df).
Proof.
  intros Hdf Hne. rewrite (compute_traffic_patterns_loaded self df Hdf Hne).
  eexists. split; [reflexivity|]. cbn [hourly_traffic_volume].
  assert (Hin : forall h n,
             In (h, n) (map (fun g => (fst g, List.length (snd g)))
                            (by_hour df))
             <-> In h (map (fun r => hour (RequestLog.timestamp r)) df)
                 /\ n = List.length
                          (filter (fun r =>
                                     (hour (RequestLog.timestamp r) =? h)%Z)
                                  df)).
  { intros h n. rewrite in_map_iff. unfold by_hour. split.
    - intros [[k rows] [E H]]. simpl in E. injection E as -> <-.
      apply (groupby_In _ _ _ Z.eqb_eq) in H. destruct H as [Hk ->].
      split; [exact Hk | reflexivity].
    - intros [Hk ->]. eexists (h, _). split; [reflexivity|].
      apply (groupby_In _ _ _ Z.eqb_eq). split; [exact Hk | reflexivity]. }
  split; [exact Hin|]. split; [|split].
  - rewrite map_map. cbn [fst]. unfold by_hour.
    change (map (fun x => fst x)
                (groupby Z.eqb Z.leb
                         (fun r => hour (RequestLog.timestamp r)) df))
      with (map fst (groupby Z.eqb Z.leb
                             (fun r => hour (RequestLog.timestamp r)) df)).
    rewrite groupby_keys.
    pose proof (group_keys_sorted Z.eqb Z.leb
                  (fun r => hour (RequestLog.timestamp r))
                  Z.eqb_eq Zleb_total Zleb_trans Zleb_antisym df) as Hs.
    induction Hs as [|k ks Hs IH Hk]; constructor; [exact IH|].
    rewrite Forall_forall in *. intros x Hx.
    destruct (Hk x Hx) as [L N]. apply Z.leb_le in L. lia.
  - intros h n H. apply Hin in H. destruct H as [Hk ->].
    apply in_map_iff in Hk. destruct Hk as [r [<- Hr]].
    split; [apply hour_range|].
    assert (Hf : In r (filter (fun r0 =>
                                 (hour (RequestLog.timestamp r0)
                                  =? hour (RequestLog.timestamp r))%Z) df)).
    { apply filter_In. split; [exact Hr | apply Z.eqb_refl]. }
    destruct (filter _ df); [destruct Hf | simpl; lia].
  - apply by_hour_counts_sum.
Qed.

(** The hourly volume of the sample frame. *)
Lemma hourly_traffic_volume_spec_witness :
  exists p,
    compute_traffic_patterns Samples.loaded = Ok p
    /\ StronglySorted Z.lt (map fst (hourly_traffic_volume p))
    /\ zsum (map (fun kv => Z.of_nat (snd kv)) (hourly_traffic_volume p))
       = Z.of_nat (List.length Samples.two_requests).
Proof.
  destruct (hourly_traffic_volume_spec Samples.loaded Samples.two_requests
                                       eq_refl)
    as [p [Hp [_ [Hs [_ Hz]]]]]; [discriminate|].
  exists p. auto.
Defined.

Local Abbreviation by_latency :=
  (fun a b : Z * Q => Qle_bool (snd b) (snd a)).

Local Abbreviation above_latency :=
  (fun a b : Z * Q => negb (Qle_bool (snd a) (snd b))).

Lemma above_latency_by (a b : Z * Q) :
  above_latency a b = true -> by_latency a b = true.
Proof.
  cbv beta. rewrite not_Qle_bool, Qle_bool_iff. apply Qlt_le_weak.
Qed.

Lemma not_above_latency (a b : Z * Q) :
  above_latency a b = false -> by_latency b a = true.
Proof. cbv beta. rewrite negb_false_iff. auto. Qed.

Lemma by_latency_trans (a b c : Z * Q) :
  by_latency a b = true -> by_latency b c = true -> by_latency a c = true.
Proof.
  cbv beta. rewrite !Qle_bool_iff. intros H1 H2.
  apply Qle_trans with (snd b); assumption.
Qed.

Lemma present_In {K} (s : list (K * option Q)) (h : K) (m : Q) :
  In (h, m)
     (flat_map (fun kv => match snd kv with
                          | Some v => [(fst kv, v)]
                          | None => []
                          end) s)
  <-> In (h, Some m) s.
Proof.
  rewrite in_flat_map. split.
  - intros [[k [v|]] [Hin H]]; simpl in H; [|destruct H].
    destruct H as [E|[]]. injection E as -> ->. exact Hin.
  - intro H. exists (h, Some m). split; [exact H | left; reflexivity].
Qed.

Lemma present_length {K} (s : list (K * option Q)) :
  Forall (fun kv => snd kv <> None) s ->
  List.length
    (flat_map (fun kv => match snd kv with
                         | Some v => [(fst kv, v)]
                         | None => []
                         end) s)
  = List.length s.
Proof.
  induction 1 as [|kv s Hkv _ IH]; [reflexivity|].
  cbn [flat_map]. rewrite length_app, IH.
  destruct (snd kv); [reflexivity | congruence].
Qed.

(** Every hour that occurs has a mean latency. *)
Lemma hourly_latency_present (df : list RequestLog.t) :
  Forall (fun kv => snd kv <> None) (hourly_latency df).
Proof.
  unfold hourly_latency. rewrite Forall_forall. intros kv H.
  apply in_map_iff in H. destruct H as [g [<- Hg]]. cbn [snd].
  apply (groupby_rows Z.eqb Z.leb _ Z.eqb_eq) in Hg.
  destruct Hg as [Hne _]. destruct (snd g); [congruence | discriminate].
Qed.

(** X8.  The top latency hours of a request frame with rows: the five
    hours (all of them when fewer) with the highest mean latency, highest
    first, each with the rounded mean that [hourly_avg_latency] shows for
    it; no hour left out has a higher rounded mean than a listed one. *)
Theorem top_latency_hours_spec (self : engine) (df : list RequestLog.t) :
  request_logs_df self = Some df ->
  df <> [] ->
  exists p,
    compute_traffic_patterns self = Ok p
    /\ List.length (top_latency_hours p)
       = Nat.min 5 (List.length (hourly_avg_latency p))
    /\ (forall h v, In (h, v) (top_latency_hours p) ->
                    In (h, Some v) (hourly_avg_latency p))
    /\ StronglySorted (fun a b => snd b <= snd a) (top_latency_hours p)
    /\ (forall h v h' v',
           In (h, v) (top_latency_hours p) ->
           In (h', Some v') (hourly_avg_latency p) ->
           ~ In h' (map fst (top_latency_hours p)) ->
           v' <= v).
Proof.
  intros Hdf Hne. rewrite (compute_traffic_patterns_loaded self df Hdf Hne).
  eexists. split; [reflexivity|].
  cbn [top_latency_hours hourly_avg_latency]. unfold nlargest.
  set (hl := hourly_latency df).
  set (present := flat_map (fun kv => match snd kv with
                                      | Some v => [(fst kv, v)]
                                      | None => []
                                      end) hl).
  set (ranked := sort_desc above_latency present).
  pose proof (sort_desc_perm above_latency present) as Hperm.
  fold ranked in Hperm.
  pose proof (sort_desc_sorted above_latency by_latency above_latency_by
                               not_above_latency by_latency_trans
                               present) as Hsorted.
  fold ranked in Hsorted.
  assert (Hfrom : forall h m, In (h, m) ranked ->
                              In (h, Some (round2 m))
                                 (map (fun kv => (fst kv,
                                                  map_num round2 (snd kv)))
                                      hl)).
  { intros h m H. apply (Permutation_in _ Hperm) in H.
    apply present_In in H. apply in_map_iff.
    exists (h, Some m). split; [reflexivity | exact H]. }
  split; [|split; [|split]].
  - rewrite !length_map, length_firstn. f_equal.
    rewrite (Permutation_length Hperm). apply present_length.
    apply hourly_latency_present.
  - intros h v H. apply in_map_iff in H.
    destruct H as [[h0 m] [E H]]. simpl in E. injection E as -> <-.
    apply Hfrom. rewrite <- (firstn_skipn 5 ranked).
    apply in_or_app. left. exact H.
  - pose proof (sorted_firstn by_latency 5 ranked Hsorted) as Hs.
    induction Hs as [|x r Hs IH Hx]; [constructor|].
    cbn [map]. constructor; [exact IH|].
    rewrite Forall_forall in *. intros y Hy. apply in_map_iff in Hy.
    destruct Hy as [z [<- Hz]]. cbn [snd].
    apply round_nd_mono. apply Qle_bool_iff. apply (Hx z Hz).
  - intros h v h' v' Hin Hall Hnot.
    apply in_map_iff in Hin. destruct Hin as [[h0 m] [E Hin]].
    simpl in E. injection E as -> <-.
    apply in_map_iff in Hall. destruct Hall as [[h1 [m'|]] [E Hall]];
      simpl in E; [|discriminate].
    injection E as -> <-.
    assert (Hr : In (h', m') ranked).
    { apply (Permutation_in _ (Permutation_sym Hperm)).
      apply present_In, Hall. }
    rewrite <- (firstn_skipn 5 ranked) in Hr.
    apply in_app_or in Hr. destruct Hr as [Hr|Hr].
    + exfalso. apply Hnot. rewrite map_map. cbn [fst].
      apply in_map_iff. exists (h', m'). split; [reflexivity | exact Hr].
    + apply round_nd_mono. apply Qle_bool_iff.
      apply (sorted_firstn_skipn by_latency 5 ranked Hsorted
                                 (h, m) (h', m') Hin Hr).
Qed.

(** The top latency hours of the sample frame. *)
Lemma top_latency_hours_spec_witness :
  exists p,
    compute_traffic_patterns Samples.loaded = Ok p
    /\ List.length (top_latency_hours p)
       = Nat.min 5 (List.length (hourly_avg_latency p))
    /\ StronglySorted (fun a b => snd b <= snd a) (top_latency_hours p).
Proof.
  destruct (top_latency_hours_spec Samples.loaded Samples.two_requests
                                   eq_refl)
    as [p [Hp [Hl [_ [Hs _]]]]]; [discriminate|].
  exists p. auto.
Defined.

End TrafficFacts.

(** ** Distributions *)

Section DistributionFacts.
Import Num Frame DashboardEngine.



Section Counting.
Context {K : Type}.
Variable eqb : K -> K -> bool.
Hypothesis eqb_eq : forall a b, eqb a b = true <-> a = b.


End Counting.



End DistributionFacts.

(** ** How many requests and hours can be flagged *)

Section OutlierFacts.
Import Num Frame DashboardEngine.


Lemma filter_length_mono {A} (p q : A -> bool) (l : list A) :
  (forall x, p x = true -> q x = true) ->
  (List.length (filter p l) <= List.length (filter q l))%nat.
Proof.
  intro H. induction l as [|x l IH]; [reflexivity|].
  simpl. destruct (p x) eqn:P.
  - rewrite (H x P). simpl. lia.
  - destruct (q x); simpl; lia.
Qed.

Lemma qsum_cons (x : Q) (l : list Q) : qsum (x :: l) = x + qsum l.
Proof. reflexivity. Qed.

(** Values all above [c] sum to more than [c] times their number. *)
Lemma qsum_above (g : Q -> Q) (c : Q) (l : list Q) :
  Forall (fun x => c < g x) l -> l <> [] ->
  c * qlen l < qsum (map g l).
Proof.
  induction 1 as [|x l Hx Hl IH]; [congruence|]. intros _.
  unfold qlen in *. cbn [map qsum fold_right List.length].
  fold (qsum (map g l)). rewrite Nat2Z.inj_succ. unfold Z.succ.
  rewrite inject_Z_plus. change (inject_Z 1) with 1.
  destruct l as [|y l].
  - change (inject_Z (Z.of_nat (List.length (@nil Q)))) with 0.
    change (qsum (map g [])) with 0. lra.
  - assert (c * inject_Z (Z.of_nat (List.length (y :: l)))
            < qsum (map g (y :: l))) by (apply IH; discriminate).
    lra.
Qed.

(** Non-negative terms: a part sums to at most the whole. *)
Lemma qsum_filter_le (g : Q -> Q) (p : Q -> bool) (l : list Q) :
  Forall (fun x => 0 <= g x) l ->
  qsum (map g (filter p l)) <= qsum (map g l).
Proof.
  induction 1 as [|x l Hx _ IH]; [apply Qle_refl|].
  cbn [filter map]. rewrite qsum_cons.
  destruct (p x).
  - cbn [map]. rewrite qsum_cons. lra.
  - lra.
Qed.




(** Lowering the threshold never lowers the count of values above it. *)
Lemma count_above_antitone (t1 t2 : R) (l : list Q) :
  (t1 <= t2)%R ->
  (count_above (Some t2) l <= count_above (Some t1) l)%nat.
Proof.
  intro H. unfold count_above. apply filter_length_mono.
  intro x. unfold above.
  destruct (Rlt_dec t2 (Q2R x)) as [L2|L2]; [|discriminate].
  destruct (Rlt_dec t1 (Q2R x)) as [L1|L1]; [reflexivity|].
  exfalso. apply L1. lra.
Qed.

Local Abbreviation values :=
  (flat_map (fun kv : Z * option Q => match snd kv with
                                      | Some v => [v]
                                      | None => []
                                      end)).

Lemma spikes_length (he : list (Z * option Q)) (t : Q) :
  List.length
    (flat_map (fun kv =>
                 if gt_num (snd kv) t
                 then match snd kv with
                      | Some v => [(fst kv, round2 v)]
                      | None => []
                      end
                 else []) he)
  = List.length (filter (fun v => negb (Qle_bool v t)) (values he)).
Proof.
  induction he as [|kv he IH]; [reflexivity|].
  cbn [flat_map]. rewrite length_app, IH.
  destruct (snd kv) as [v|]; cbn [gt_num app]; [|reflexivity].
  cbn [filter]. destruct (negb (Qle_bool v t)); reflexivity.
Qed.

(** Markov's bound: of non-negative values, fewer than half are above
    twice their mean. *)
Lemma above_twice_mean (vs : list Q) (m : Q) :
  Forall (fun v => 0 <= v) vs ->
  mean vs = Some m ->
  let f := List.length (filter (fun v => negb (Qle_bool v (m * 2))) vs) in
  0 <= m /\ (f = 0%nat \/ (2 * f < List.length vs)%nat).
Proof.
  intros Hpos Hm. cbv zeta.
  assert (Hne : vs <> []) by (intros ->; discriminate).
  pose proof (qlen_pos vs Hne) as HN.
  assert (Hsum : qsum vs == m * qlen vs).
  { destruct vs as [|x vs]; [congruence|]. unfold mean in Hm.
    assert (E : qsum (x :: vs) / qlen (x :: vs) = m) by congruence.
    rewrite <- E. revert HN.
    generalize (qlen (x :: vs)) (qsum (x :: vs)). intros n t Hn.
    field. lra. }
  assert (Hs0 : 0 <= qsum vs).
  { clear - Hpos. induction Hpos as [|x l Hx _ IH]; [apply Qle_refl|].
    rewrite qsum_cons. lra. }
  assert (Hm0 : 0 <= m).
  { destruct (Qlt_le_dec m 0) as [P|P]; [|exact P].
    exfalso. assert (m * qlen vs < 0) by nra. lra. }
  split; [exact Hm0|].
  set (F := filter (fun v => negb (Qle_bool v (m * 2))) vs).
  destruct F as [|x0 F0] eqn:EF; [left; reflexivity|]. right.
  rewrite <- EF.
  assert (HF : Forall (fun x => m * 2 < (fun v : Q => v) x) F).
  { rewrite Forall_forall. intros x Hx. unfold F in Hx.
    apply filter_In in Hx. destruct Hx as [_ Hx].
    apply not_Qle_bool in Hx. exact Hx. }
  assert (H1 : m * 2 * qlen F < qsum (map (fun v : Q => v) F)).
  { apply qsum_above; [exact HF | rewrite EF; discriminate]. }
  assert (H2 : qsum (map (fun v : Q => v) F)
               <= qsum (map (fun v : Q => v) vs)).
  { apply qsum_filter_le. exact Hpos. }
  rewrite (map_id vs), Hsum in H2.
  assert (HK : 0 <= qlen F).
  { unfold qlen. change 0 with (inject_Z 0). rewrite <- Zle_Qle. lia. }
  assert (H4 : 2 * qlen F < qlen vs).
  { assert (Hmp : 0 < m).
    { destruct (Qlt_le_dec 0 m) as [P|P]; [exact P|].
      assert (E : m == 0) by lra.
      exfalso. rewrite E in H1, H2. lra. }
    apply Qnot_le_lt. intro Hc.
    assert (m * qlen vs <= m * (2 * qlen F)).
    { apply Qmult_le_l; assumption. }
    lra. }
  unfold qlen in H4.
  assert (H5 : inject_Z (2 * Z.of_nat (List.length F))
               < inject_Z (Z.of_nat (List.length vs))).
  { rewrite inject_Z_mult. change (inject_Z 2) with 2. exact H4. }
  rewrite <- Zlt_Qlt in H5. lia.
Qed.

Lemma values_In (he : list (Z * option Q)) (v : Q) :
  In v (values he) <-> exists h, In (h, Some v) he.
Proof.
  rewrite in_flat_map. split.
  - intros [[h [w|]] [Hin H]]; simpl in H; [|destruct H].
    destruct H as [->|[]]. exists h. exact Hin.
  - intros [h H]. exists (h, Some v). split; [exact H | left; reflexivity].
Qed.

Lemma mean_Some (l : list Q) :
  l <> [] -> mean l = Some (qsum l / qlen l).
Proof. destruct l; [congruence | reflexivity]. Qed.

(** An hourly error rate is the share of failed requests of the hour, in
    percent. *)
Lemma hourly_errors_In (df : list RequestLog.t) (h : Z) (v : Q) :
  In (h, Some v) (hourly_errors df) ->
  exists rows,
    rows <> []
    /\ (forall r, In r rows ->
                  In r df /\ hour (RequestLog.timestamp r) = h)
    /\ v == inject_Z (Z.of_nat (List.length (filter is_error rows)))
            / qlen rows * 100.
Proof.
  unfold hourly_errors. intro H. apply in_map_iff in H.
  destruct H as [g [E Hg]]. injection E as <- Ev.
  apply (groupby_rows Z.eqb Z.leb _ Z.eqb_eq) in Hg.
  destruct Hg as [Hne Hrows].
  exists (snd g). split; [exact Hne|]. split; [exact Hrows|].
  rewrite mean_Some in Ev.
  2:{ destruct (snd g); [congruence | discriminate]. }
  cbn [map_num] in Ev.
  assert (E : qsum (map (fun r0 => flag (is_error r0)) (snd g))
              / qlen (map (fun r0 => flag (is_error r0)) (snd g)) * 100
              = v) by congruence.
  rewrite <- E, qsum_flags. unfold qlen. rewrite length_map. reflexivity.
Qed.

Lemma hourly_errors_nonneg (df : list RequestLog.t) :
  Forall (fun v => 0 <= v) (values (hourly_errors df)).
Proof.
  rewrite Forall_forall. intros v Hv. apply values_In in Hv.
  destruct Hv as [h Hv]. apply hourly_errors_In in Hv.
  destruct Hv as [rows [Hne [_ ->]]].
  pose proof (qlen_pos rows Hne) as HN.
  assert (0 <= inject_Z (Z.of_nat (List.length (filter is_error rows)))).
  { change 0 with (inject_Z 0). rewrite <- Zle_Qle. lia. }
  assert (0 <= inject_Z (Z.of_nat (List.length (filter is_error rows)))
               / qlen rows).
  { apply Qle_shift_div_l; [exact HN|]. lra. }
  lra.
Qed.

Lemma hourly_errors_length (df : list RequestLog.t) :
  List.length (values (hourly_errors df)) = List.length (by_hour df).
Proof.
  unfold hourly_errors.
  assert (H : forall gs : list (Z * list RequestLog.t),
             Forall (fun g => snd g <> []) gs ->
             List.length
               (values (map (fun g =>
                               (fst g,
                                map_num (fun m => m * 100)
                                  (mean (map (fun r => flag (is_error r))
                                             (snd g))))) gs))
             = List.length gs).
  { induction 1 as [|g gs Hg _ IH]; [reflexivity|].
    cbn [map flat_map]. rewrite length_app, IH. cbn [snd List.length].
    destruct (snd g); [congruence | reflexivity]. }
  apply H. rewrite Forall_forall. intros g Hg.
  apply (groupby_rows Z.eqb Z.leb _ Z.eqb_eq) in Hg. apply Hg.
Qed.

(** X10.  On a request frame with rows, an hour is flagged only if some
    request of it failed, and at most half of the hours that occur are
    flagged at once. *)
Theorem error_spike_hours_bound
        (self : engine) (df_req : list RequestLog.t)
        (df_srv : list ServerMetric.t) :
  request_logs_df self = Some df_req ->
  server_metrics_df self = Some df_srv ->
  df_req <> [] ->
  exists a,
    detect_anomalies self = Ok a
    /\ (forall h v,
           In (h, v) (error_spike_hours a) ->
           exists r, In r df_req
                     /\ hour (RequestLog.timestamp r) = h
                     /\ (400 <= RequestLog.status_code r)%Z)
    /\ (2 * List.length (error_spike_hours a)
        <= List.length (by_hour df_req))%nat.
Proof.
  intros Hr Hs Hne.
  rewrite (detect_anomalies_loaded self df_req df_srv Hr Hs Hne).
  eexists. split; [reflexivity|]. cbn [error_spike_hours].
  unfold error_spikes, series_mean.
  destruct (mean (values (hourly_errors df_req))) as [m|] eqn:Em.
  2:{ split; [intros h v [] | simpl; lia]. }
  destruct (above_twice_mean _ m (hourly_errors_nonneg df_req) Em)
    as [Hm0 Hcount].
  split.
  - intros h v H. apply in_flat_map in H.
    destruct H as [[h0 [v0|]] [Hin H]]; cbn [snd fst] in H.
    2:{ cbn [gt_num] in H. destruct H. }
    destruct (gt_num (Some v0) (m * 2)) eqn:G; [|destruct H].
    destruct H as [E|[]]. injection E as -> _.
    apply gt_num_spec in G. destruct G as [v1 [E1 Hlt]].
    injection E1 as <-.
    apply hourly_errors_In in Hin.
    destruct Hin as [rows [Hrne [Hrows Hv]]].
    pose proof (qlen_pos rows Hrne) as HN.
    destruct (filter is_error rows) as [|r fr] eqn:EF.
    + exfalso. rewrite Hv in Hlt. cbn [List.length] in Hlt.
      change (inject_Z (Z.of_nat 0)) with 0 in Hlt.
      assert (0 / qlen rows * 100 == 0) by (field; lra). lra.
    + assert (Hf : In r (filter is_error rows)) by (rewrite EF; left;
                                                     reflexivity).
      apply filter_In in Hf. destruct Hf as [Hin He].
      destruct (Hrows r Hin) as [Hdf Hh].
      exists r. split; [exact Hdf|]. split; [exact Hh|].
      apply Z.leb_le, He.
  - rewrite spikes_length, <- hourly_errors_length.
    destruct Hcount as [H0|H2]; lia.
Qed.

(** The bound on the sample frame. *)
Lemma error_spike_hours_bound_witness :
  exists a,
    detect_anomalies Samples.loaded = Ok a
    /\ (2 * List.length (error_spike_hours a)
        <= List.length (by_hour Samples.two_requests))%nat.
Proof.
  destruct (error_spike_hours_bound Samples.loaded Samples.two_requests
                                    Samples.warm_server eq_refl eq_refl)
    as [a [Ha [_ Hb]]]; [discriminate|].
  exists a. auto.
Defined.

End OutlierFacts.

(** ** The report as a whole *)

Section ReportFacts.
Import Num Frame DashboardEngine.



End ReportFacts.

(** ** Batch insert under any behaviour of the store *)

Section AtomicityFacts.
Import SQLDataWarehouse.
Context {A : Type}.
Variable self : warehouse.
Variable insert_sql : table.
Variable row_preparer : A -> result (list pyval).

Lemma execute_ok (c c' : conn) (r : row) :
  execute c r = Ok c' ->
  pending c' = pending c ++ [r] /\ plan c' = plan c.
Proof.
  unfold execute. destruct (plan c) eqn:P;
    try (intro H; injection H as <-; cbn; auto).
  destruct (Nat.eqb (executed c) k); [discriminate|].
  intro H. injection H as <-. cbn. auto.
Qed.

Lemma run_batch_ok (batch : list A) :
  forall c c',
    run_batch insert_sql row_preparer c batch = Ok c' ->
    exists rows,
      Forall2 (fun r row => row_preparer r = Ok row) batch rows
      /\ pending c' = pending c ++ map (pair insert_sql) rows
      /\ plan c' = plan c.
Proof.
  induction batch as [|r batch IH]; intros c c' H.
  - simpl in H. injection H as <-. exists []. simpl.
    rewrite app_nil_r. auto.
  - cbn [run_batch] in H.
    destruct (row_preparer r) as [row|e] eqn:Hr; [|discriminate].
    cbn [bind] in H.
    destruct (execute c (insert_sql, row)) as [c1|e] eqn:He;
      [|discriminate].
    cbn [bind] in H. apply execute_ok in He. destruct He as [Hp Hpl].
    destruct (IH c1 c' H) as [rows [HF [Hpend Hplan]]].
    exists (row :: rows). split; [constructor; assumption|].
    split; [|congruence].
    rewrite Hpend, Hp, <- app_assoc. reflexivity.
Qed.

Lemma run_batches_ok (bs : list (list A)) :
  forall c t c' t',
    run_batches insert_sql row_preparer c t bs = (Ok c', t') ->
    exists rows,
      Forall2 (fun r row => row_preparer r = Ok row) (concat bs) rows
      /\ pending c' = pending c ++ map (pair insert_sql) rows
      /\ plan c' = plan c
      /\ t' = (t + List.length (concat bs))%nat.
Proof.
  induction bs as [|b bs IH]; intros c t c' t' H.
  - simpl in H. injection H as <- <-. exists []. simpl.
    rewrite app_nil_r, Nat.add_0_r. auto.
  - cbn [run_batches] in H.
    destruct (run_batch insert_sql row_preparer c b) as [c1|e] eqn:Hb;
      [|discriminate].
    apply run_batch_ok in Hb. destruct Hb as [rows1 [HF1 [Hp1 Hpl1]]].
    destruct (IH c1 _ c' t' H) as [rows2 [HF2 [Hp2 [Hpl2 Ht]]]].
    exists (rows1 ++ rows2). cbn [concat].
    split; [apply Forall2_app; assumption|].
    split; [rewrite Hp2, Hp1, map_app, app_assoc; reflexivity|].
    split; [congruence|].
    rewrite length_app. lia.
Qed.

(** The counter only grows. *)
Lemma run_batches_counter (bs : list (list A)) :
  forall c t, (t <= snd (run_batches insert_sql row_preparer c t bs))%nat.
Proof.
  induction bs as [|b bs IH]; intros c t; cbn [run_batches].
  - simpl. lia.
  - destruct (run_batch insert_sql row_preparer c b) as [c1|e].
    + eapply Nat.le_trans; [|apply IH]. lia.
    + simpl. lia.
Qed.

Lemma attempt_counter (p : conn_plan) (t : nat) (records : list A) :
  (t <= snd (attempt self insert_sql row_preparer p t records))%nat.
Proof.
  unfold attempt. destruct (connect p) as [c|e]; [|simpl; lia].
  destruct (batches (batch_size self) records) as [bs|e]; [|simpl; lia].
  pose proof (run_batches_counter bs c t) as H.
  destruct (run_batches insert_sql row_preparer c t bs) as [[c'|e] t'];
    simpl in H |- *; [|exact H].
  destruct (commit c'); simpl; exact H.
Qed.

(** A successful attempt commits one row per record, in the order of the
    records, and adds their number to the counter. *)
Lemma attempt_ok (p : conn_plan) (t t' : nat) (records : list A)
      (rows : list row) :
  (0 < batch_size self)%Z ->
  attempt self insert_sql row_preparer p t records = (Ok rows, t') ->
  exists prepared,
    Forall2 (fun r row => row_preparer r = Ok row) records prepared
    /\ rows = map (pair insert_sql) prepared
    /\ t' = (t + List.length records)%nat.
Proof.
  intros Hb. unfold attempt.
  destruct (connect p) as [c|e] eqn:Hc; [|discriminate].
  assert (Hpend : pending c = []).
  { unfold connect in Hc. destruct p; try discriminate;
      injection Hc as <-; reflexivity. }
  unfold batches.
  replace (batch_size self =? 0)%Z with false
    by (symmetry; apply Z.eqb_neq; lia).
  replace (batch_size self <? 0)%Z with false
    by (symmetry; apply Z.ltb_ge; lia).
  set (bs := chunks (List.length records) (Z.to_nat (batch_size self))
                    records).
  assert (Hcat : concat bs = records) by (apply chunks_concat; lia).
  destruct (run_batches insert_sql row_preparer c t bs) as [[c'|e] t1]
    eqn:Hrun; [|discriminate].
  apply run_batches_ok in Hrun.
  destruct Hrun as [prepared [HF [Hp [_ Ht]]]].
  rewrite Hcat in HF, Ht. rewrite Hpend in Hp. simpl in Hp.
  destruct (commit c') as [rows'|e] eqn:Hm; [|discriminate].
  intro H. injection H as <- <-.
  exists prepared. split; [exact HF|]. split; [|exact Ht].
  unfold commit in Hm. destruct (plan c'); congruence.
Qed.

(** The loop from attempt number [a], with [S k] attempts left. *)
Lemma retry_loop_outcome (records : list A) (k : nat) :
  (0 < batch_size self)%Z ->
  forall (a t : nat) (w : world) res w',
    (Z.of_nat a + Z.of_nat (S k) = retry_attempts self)%Z ->
    retry_loop self insert_sql row_preparer
               (map Z.of_nat (seq a (S k))) t records w = (res, w') ->
    (opened w < opened w' <= opened w + S k)%nat
    /\ match res with
       | Raise _ =>
           committed w' = committed w
           /\ opened w' = (opened w + S k)%nat
       | Ok n =>
           exists prepared,
             Forall2 (fun r row => row_preparer r = Ok row) records prepared
             /\ committed w'
                = committed w ++ map (pair insert_sql) prepared
             /\ (t + List.length records <= n)%nat
       end.
Proof.
  intro Hb. induction k as [|k IH]; intros a t w res w' Hn Hrun.
  - cbn [seq map retry_loop] in Hrun.
    destruct (attempt self insert_sql row_preparer (faults w (opened w))
                      t records) as [[rows|e] t1] eqn:Hat.
    + injection Hrun as <- <-. cbn [opened committed].
      split; [lia|].
      destruct (attempt_ok _ _ _ _ _ Hb Hat) as [prep [HF [-> ->]]].
      exists prep. split; [exact HF|]. split; [reflexivity | lia].
    + replace (Z.of_nat a =? retry_attempts self - 1)%Z with true in Hrun
        by (symmetry; apply Z.eqb_eq; lia).
      injection Hrun as <- <-. cbn [opened committed].
      split; [lia|]. split; [reflexivity | lia].
  - change (seq a (S (S k))) with (a :: seq (S a) (S k)) in Hrun.
    cbn [map retry_loop] in Hrun.
    pose proof (attempt_counter (faults w (opened w)) t records) as Hcnt.
    destruct (attempt self insert_sql row_preparer (faults w (opened w))
                      t records) as [[rows|e] t1] eqn:Hat.
    + injection Hrun as <- <-. cbn [opened committed].
      split; [lia|].
      destruct (attempt_ok _ _ _ _ _ Hb Hat) as [prep [HF [-> ->]]].
      exists prep. split; [exact HF|]. split; [reflexivity | lia].
    + replace (Z.of_nat a =? retry_attempts self - 1)%Z with false in Hrun
        by (symmetry; apply Z.eqb_neq; lia).
      apply IH in Hrun; [|lia].
      cbn [opened committed] in Hrun. simpl in Hcnt.
      destruct Hrun as [Ho Hres]. split; [lia|].
      destruct res as [n|e'].
      * destruct Hres as [prep [HF [Hc Hle]]].
        exists prep. split; [exact HF|]. split; [exact Hc | lia].
      * destruct Hres as [Hc Ho']. split; [exact Hc | lia].
Qed.

End AtomicityFacts.

Section AtomicityTheorem.
Import SQLDataWarehouse.

Lemma batch_insert_outcome
        {A} (self : warehouse) (insert_sql : table)
        (row_preparer : A -> result (list pyval))
        (records : list A) (w w' : world) (res : result nat) :
  (1 <= retry_attempts self)%Z ->
  (0 < batch_size self)%Z ->
  _batch_insert self insert_sql row_preparer records w = (res, w') ->
  (opened w < opened w'
   <= opened w + Z.to_nat (retry_attempts self))%nat
  /\ match res with
     | Raise _ =>
         committed w' = committed w
         /\ opened w' = (opened w + Z.to_nat (retry_attempts self))%nat
     | Ok n =>
         exists prepared,
           Forall2 (fun r row => row_preparer r = Ok row) records prepared
           /\ committed w' = committed w ++ map (pair insert_sql) prepared
           /\ (List.length records <= n)%nat
     end.
Proof.
  intros Hn Hb. unfold _batch_insert, range.
  destruct (Z.to_nat (retry_attempts self)) as [|k] eqn:Ek; [lia|].
  intro Hrun.
  apply (retry_loop_outcome self insert_sql row_preparer records k Hb
                            0%nat 0%nat w res w') in Hrun; [|lia].
  destruct Hrun as [Ho Hres]. split; [exact Ho|].
  destruct res; exact Hres.
Qed.

(** X15.  A batch insert is all or nothing.  When it raises, no row has been
    committed and every configured attempt has been used; when it
    returns, one row per record has been committed, in the order of the
    records, and the returned count is at least their number.  At least
    one and at most [retry_attempts] connections are opened. *)
Theorem batch_insert_all_or_nothing
        {A} (self : warehouse) (insert_sql : table)
        (row_preparer : A -> result (list pyval))
        (records : list A) (w w' : world) (res : result nat) :
  (1 <= retry_attempts self)%Z ->
  (0 < batch_size self)%Z ->
  _batch_insert self insert_sql row_preparer records w = (res, w') ->
  (opened w < opened w'
   <= opened w + Z.to_nat (retry_attempts self))%nat
  /\ match res with
     | Raise _ =>
         committed w' = committed w
         /\ opened w' = (opened w + Z.to_nat (retry_attempts self))%nat
     | Ok n =>
         exists prepared,
           Forall2 (fun r row => row_preparer r = Ok row) records prepared
           /\ committed w' = committed w ++ map (pair insert_sql) prepared
           /\ (List.length records <= n)%nat
     end.
Proof. apply batch_insert_outcome. Qed.

(** All or nothing on the store that breaks once. *)
Lemma batch_insert_all_or_nothing_witness :
  exists n w' prepared,
    _batch_insert Samples.small_batches RequestLogs
                  _prepare_request_log_row Samples.three_logs
                  (Samples.fresh Samples.breaks_once) = (Ok n, w')
    /\ Forall2 (fun r row => _prepare_request_log_row r = Ok row)
               Samples.three_logs prepared
    /\ committed w' = map (pair RequestLogs) prepared
    /\ (List.length Samples.three_logs <= n)%nat.
Proof.
  destruct (_batch_insert Samples.small_batches RequestLogs
                          _prepare_request_log_row Samples.three_logs
                          (Samples.fresh Samples.breaks_once))
    as [res w'] eqn:E.
  destruct (batch_insert_all_or_nothing
              Samples.small_batches RequestLogs _prepare_request_log_row
              Samples.three_logs (Samples.fresh Samples.breaks_once) w' res)
    as [_ H].
  - simpl. lia.
  - simpl. lia.
  - exact E.
  - destruct res as [n|e].
    + destruct H as [prepared [HF [Hc Hl]]].
      exists n, w', prepared. auto.
    + exfalso. vm_compute in E. discriminate E.
Defined.

End AtomicityTheorem.

(** ** Records that cannot be prepared, and batch sizes that are not
       positive *)

Section PreparationFacts.
Import SQLDataWarehouse Fields.

Lemma prepare_request_log_row_eq (record : pydict) :
  _prepare_request_log_row record
  = match first_missing request_log_required record with
    | Some k => Raise (KeyError k)
    | None =>
        Ok (map (fun k => get record k PyNone) request_log_required
            ++ [get record "client_ip" (PyStr "");
                get record "user_agent" (PyStr "")])
    end.
Proof.
  unfold _prepare_request_log_row, first_missing, request_log_required.
  unfold getitem, contains, get. cbn [find map app].
  destruct (lookup "timestamp" record); [|reflexivity].
  destruct (lookup "server_id" record); [|reflexivity].
  destruct (lookup "region" record); [|reflexivity].
  destruct (lookup "request_method" record); [|reflexivity].
  destruct (lookup "status_code" record); [|reflexivity].
  destruct (lookup "response_time_ms" record); [|reflexivity].
  destruct (lookup "retry_rate" record); [|reflexivity].
  destruct (lookup "bytes_sent" record); reflexivity.
Qed.

(** X16.  A request-log record becomes a row of ten values in column order, the
    two optional columns defaulting to the empty string; a record that
    lacks a required key raises [KeyError] for the first one it lacks. *)
Theorem prepare_request_log_row_spec (record : pydict) :
  _prepare_request_log_row record
  = match first_missing request_log_required record with
    | Some k => Raise (KeyError k)
    | None =>
        Ok (map (fun k => get record k PyNone) request_log_required
            ++ [get record "client_ip" (PyStr "");
                get record "user_agent" (PyStr "")])
    end.
Proof. apply prepare_request_log_row_eq. Qed.

Lemma prepare_missing (record : pydict) :
  first_missing request_log_required record <> None ->
  exists e, _prepare_request_log_row record = Raise e.
Proof.
  rewrite prepare_request_log_row_eq.
  destruct (first_missing request_log_required record) as [k|];
    [|congruence].
  intros _. exists (KeyError k). reflexivity.
Qed.

Section BadRecord.
Context {A : Type}.
Variable self : warehouse.
Variable insert_sql : table.
Variable row_preparer : A -> result (list pyval).

Lemma run_batch_bad (batch : list A) (r : A) (e0 : exn) :
  In r batch -> row_preparer r = Raise e0 ->
  forall c, exists e, run_batch insert_sql row_preparer c batch = Raise e.
Proof.
  intros Hin Hbad. induction batch as [|x batch IH]; [destruct Hin|].
  intro c. cbn [run_batch].
  destruct (row_preparer x) as [row|e] eqn:Hx; cbn [bind].
  - destruct (execute c (insert_sql, row)) as [c1|e]; cbn [bind].
    + destruct Hin as [->|Hin]; [congruence|]. apply (IH Hin).
    + exists e. reflexivity.
  - exists e. reflexivity.
Qed.

Lemma run_batches_bad (bs : list (list A)) (r : A) (e0 : exn) :
  In r (concat bs) -> row_preparer r = Raise e0 ->
  forall c t,
    exists e, fst (run_batches insert_sql row_preparer c t bs) = Raise e.
Proof.
  intros Hin Hbad. induction bs as [|b bs IH]; [destruct Hin|].
  intros c t. cbn [run_batches].
  destruct (run_batch insert_sql row_preparer c b) as [c1|e] eqn:Hb.
  - cbn [concat] in Hin. apply in_app_or in Hin.
    destruct Hin as [Hin|Hin].
    + destruct (run_batch_bad b r e0 Hin Hbad c) as [e He]. congruence.
    + apply (IH Hin).
  - exists e. reflexivity.
Qed.

(** A record that cannot be prepared makes every attempt fail. *)
Lemma bad_record_fails_permanently (records : list A) (r : A) (e0 : exn)
      (w : world) :
  (0 < batch_size self)%Z ->
  In r records -> row_preparer r = Raise e0 ->
  fails_permanently self insert_sql row_preparer records w.
Proof.
  intros Hb Hin Hbad i t. unfold attempt.
  destruct (connect (faults w i)) as [c|e]; [|exists e; reflexivity].
  unfold batches.
  replace (batch_size self =? 0)%Z with false
    by (symmetry; apply Z.eqb_neq; lia).
  replace (batch_size self <? 0)%Z with false
    by (symmetry; apply Z.ltb_ge; lia).
  set (bs := chunks (List.length records) (Z.to_nat (batch_size self))
                    records).
  assert (Hcat : concat bs = records) by (apply chunks_concat; lia).
  rewrite <- Hcat in Hin.
  destruct (run_batches_bad bs r e0 Hin Hbad c t) as [e He].
  destruct (run_batches insert_sql row_preparer c t bs) as [[c'|e'] t'];
    simpl in He; [discriminate|].
  exists e'. reflexivity.
Qed.

(** A batch size of zero makes every attempt fail: [range] refuses the
    step. *)
Lemma zero_batch_fails_permanently (records : list A) (w : world) :
  batch_size self = 0%Z ->
  fails_permanently self insert_sql row_preparer records w.
Proof.
  intros Hb i t. unfold attempt.
  destruct (connect (faults w i)) as [c|e]; [|exists e; reflexivity].
  unfold batches. rewrite Hb. cbn. eexists. reflexivity.
Qed.

Lemma permanent_failure_outcome (records : list A) (w : world) :
  (1 <= retry_attempts self)%Z ->
  fails_permanently self insert_sql row_preparer records w ->
  exists e w',
    _batch_insert self insert_sql row_preparer records w = (Raise e, w')
    /\ fst (attempt self insert_sql row_preparer
                    (faults w (opened w
                               + Z.to_nat (retry_attempts self) - 1)%nat)
                    0 records) = Raise e
    /\ committed w' = committed w
    /\ opened w' = (opened w + Z.to_nat (retry_attempts self))%nat
    /\ trace w'
       = trace w ++ backoff_trace 0 (Z.to_nat (retry_attempts self)).
Proof.
  intros Hn Hf. unfold _batch_insert, range.
  destruct (Z.to_nat (retry_attempts self)) as [|k] eqn:Ek; [lia|].
  destruct (retry_loop_permanent self insert_sql row_preparer records k
                                 0%nat 0%nat w)
    as [e [w' [Hrun [Hlast [Ho [Ht Hc]]]]]]; [lia | exact Hf |].
  exists e, w'. split; [exact Hrun|].
  split; [replace (opened w + S k - 1)%nat with (opened w + k)%nat by lia;
          exact Hlast|].
  auto.
Qed.
End BadRecord.

(** X17.  One request-log record that lacks a required field makes the whole
    call fail, whatever the store does: every configured attempt is made,
    with the backoff between them, an exception is raised and no row of
    any record is committed. *)
Theorem insert_request_logs_missing_field
        (self : warehouse) (records : list pydict) (r : pydict)
        (w : world) :
  (1 <= retry_attempts self)%Z ->
  (0 < batch_size self)%Z ->
  In r records ->
  first_missing request_log_required r <> None ->
  exists e w',
    insert_request_logs self records w = (Raise e, w')
    /\ committed w' = committed w
    /\ opened w' = (opened w + Z.to_nat (retry_attempts self))%nat
    /\ trace w'
       = trace w ++ backoff_trace 0 (Z.to_nat (retry_attempts self)).
Proof.
  intros Hn Hb Hin Hmiss.
  destruct (prepare_missing r Hmiss) as [e0 He0].
  destruct (permanent_failure_outcome
              self RequestLogs _prepare_request_log_row records w Hn)
    as [e [w' [Hrun [_ [Hc [Ho Ht]]]]]].
  { apply (bad_record_fails_permanently self RequestLogs
             _prepare_request_log_row records r e0 w Hb Hin He0). }
  exists e, w'. split; [|auto].
  unfold insert_request_logs. destruct records; [destruct Hin | exact Hrun].
Qed.

(** A record without its timestamp, after two good ones, on a store that
    works. *)
Lemma insert_request_logs_missing_field_witness :
  exists e w',
    insert_request_logs default
      (Samples.three_logs ++ [[("server_id", PyStr "srv-01")]%string])
      (Samples.fresh (fun _ => Healthy)) = (Raise e, w')
    /\ committed w' = []
    /\ opened w' = 3%nat.
Proof.
  destruct (insert_request_logs_missing_field
              default
              (Samples.three_logs ++ [[("server_id", PyStr "srv-01")]%string])
              [("server_id", PyStr "srv-01")]%string
              (Samples.fresh (fun _ => Healthy)))
    as [e [w' [Hrun [Hc [Ho _]]]]].
  - simpl. lia.
  - simpl. lia.
  - apply in_or_app. right. left. reflexivity.
  - discriminate.
  - exists e, w'. auto.
Defined.

(** X18.  With a batch size of zero every call with records fails after all
    its attempts, and commits nothing; on a store that can be reached the
    exception is the [ValueError] of [range]. *)
Theorem batch_size_zero_fails
        {A} (self : warehouse) (insert_sql : table)
        (row_preparer : A -> result (list pyval))
        (records : list A) (w : world) :
  (1 <= retry_attempts self)%Z ->
  batch_size self = 0%Z ->
  exists e w',
    _batch_insert self insert_sql row_preparer records w = (Raise e, w')
    /\ committed w' = committed w
    /\ opened w' = (opened w + Z.to_nat (retry_attempts self))%nat
    /\ ((forall i e', faults w i <> ConnectFails e') ->
        e = ValueError "range() arg 3 must not be zero").
Proof.
  intros Hn Hb.
  destruct (permanent_failure_outcome self insert_sql row_preparer
                                      records w Hn)
    as [e [w' [Hrun [Hlast [Hc [Ho _]]]]]].
  { apply zero_batch_fails_permanently, Hb. }
  exists e, w'. split; [exact Hrun|]. split; [exact Hc|].
  split; [exact Ho|].
  intro Hreach. unfold attempt in Hlast.
  set (p := faults w (opened w + Z.to_nat (retry_attempts self) - 1)%nat)
    in *.
  assert (Hp : forall e', p <> ConnectFails e') by (intro e'; apply Hreach).
  unfold connect, batches in Hlast. rewrite Hb in Hlast.
  destruct p; cbn in Hlast; try congruence.
  exfalso. apply (Hp e0). reflexivity.
Qed.

(** A zero batch size on a healthy store. *)
Lemma batch_size_zero_fails_witness :
  exists w',
    _batch_insert {| batch_size := 0; retry_attempts := 3 |} RequestLogs
                  _prepare_request_log_row Samples.three_logs
                  (Samples.fresh (fun _ => Healthy))
    = (Raise (ValueError "range() arg 3 must not be zero"), w')
    /\ committed w' = [].
Proof.
  destruct (batch_size_zero_fails
              {| batch_size := 0; retry_attempts := 3 |} RequestLogs
              _prepare_request_log_row Samples.three_logs
              (Samples.fresh (fun _ => Healthy)))
    as [e [w' [Hrun [Hc [_ He]]]]].
  - simpl. lia.
  - reflexivity.
  - exists w'. rewrite <- He; [auto|]. intros i e'. discriminate.
Defined.

(** X19.  With a negative batch size the range of batches is empty: on a
    connection that works the call commits an empty transaction and
    returns 0, whatever the records. *)
Theorem negative_batch_size_writes_nothing
        {A} (self : warehouse) (insert_sql : table)
        (row_preparer : A -> result (list pyval))
        (records : list A) (w : world) :
  (1 <= retry_attempts self)%Z ->
  (batch_size self < 0)%Z ->
  (forall e, faults w (opened w) <> ConnectFails e) ->
  (forall e, faults w (opened w) <> CommitFails e) ->
  exists w',
    _batch_insert self insert_sql row_preparer records w = (Ok 0%nat, w')
    /\ committed w' = committed w
    /\ opened w' = S (opened w).
Proof.
  intros Hn Hb Hc Hm. unfold _batch_insert, range.
  destruct (Z.to_nat (retry_attempts self)) as [|k] eqn:Ek; [lia|].
  cbn [seq map retry_loop]. unfold attempt, batches.
  replace (batch_size self =? 0)%Z with false
    by (symmetry; apply Z.eqb_neq; lia).
  replace (batch_size self <? 0)%Z with true
    by (symmetry; apply Z.ltb_lt; lia).
  destruct (faults w (opened w)) as [| e | j e | e] eqn:Hp;
    cbn [connect run_batches commit plan pending].
  - eexists. split; [reflexivity|]. cbn. rewrite app_nil_r. auto.
  - exfalso. apply (Hc e). reflexivity.
  - eexists. split; [reflexivity|]. cbn. rewrite app_nil_r. auto.
  - exfalso. apply (Hm e). reflexivity.
Qed.

(** A negative batch size on a healthy store: three records, none
    written. *)
Lemma negative_batch_size_writes_nothing_witness :
  exists w',
    _batch_insert {| batch_size := -1; retry_attempts := 3 |} RequestLogs
                  _prepare_request_log_row Samples.three_logs
                  (Samples.fresh (fun _ => Healthy)) = (Ok 0%nat, w')
    /\ committed w' = []
    /\ opened w' = 1%nat.
Proof.
  apply (negative_batch_size_writes_nothing
           {| batch_size := -1; retry_attempts := 3 |} RequestLogs
           _prepare_request_log_row Samples.three_logs
           (Samples.fresh (fun _ => Healthy))).
  - simpl. lia.
  - simpl. lia.
  - intro e. discriminate.
  - intro e. discriminate.
Defined.

End PreparationFacts.

(** ** The batches of one attempt *)

Section BatchFacts.
Import SQLDataWarehouse.

Lemma chunks_nil {A} (fuel n : nat) : @chunks A fuel n [] = [].
Proof. destruct fuel; reflexivity. Qed.

Lemma chunks_cons {A} (fuel n : nat) (a : A) (l : list A) :
  chunks (S fuel) n (a :: l)
  = firstn n (a :: l) :: chunks fuel n (skipn n (a :: l)).
Proof. reflexivity. Qed.

Lemma ceil_div_small (len n : nat) :
  (0 < len <= n)%nat -> ((len + n - 1) / n = 1)%nat.
Proof.
  intro H. replace (len + n - 1)%nat with ((len - 1) + 1 * n)%nat by lia.
  rewrite Nat.div_add by lia. rewrite Nat.div_small by lia. reflexivity.
Qed.

Lemma ceil_div_step (len n : nat) :
  (0 < n < len)%nat ->
  ((len + n - 1) / n = S ((len - n + n - 1) / n))%nat.
Proof.
  intro H. replace (len + n - 1)%nat with ((len - n + n - 1) + 1 * n)%nat
    by lia.
  rewrite Nat.div_add by lia. lia.
Qed.

Lemma chunks_shape {A} (n : nat) :
  (0 < n)%nat ->
  forall (fuel : nat) (l : list A),
    (List.length l <= fuel)%nat ->
    Forall (fun b => (0 < List.length b <= n)%nat) (chunks fuel n l)
    /\ List.length (chunks fuel n l) = ((List.length l + n - 1) / n)%nat
    /\ (forall i, (S i < List.length (chunks fuel n l))%nat ->
                  List.length (nth i (chunks fuel n l) []) = n).
Proof.
  intros Hn fuel. induction fuel as [|f IH]; intros l Hl.
  - destruct l; [|simpl in Hl; lia]. simpl.
    split; [constructor|]. split.
    + rewrite Nat.div_small by lia. reflexivity.
    + intros i Hi. simpl in Hi. lia.
  - destruct l as [|a l].
    + simpl. split; [constructor|]. split.
      * rewrite Nat.div_small by lia. reflexivity.
      * intros i Hi. simpl in Hi. lia.
    + rewrite chunks_cons.
      destruct (IH (skipn n (a :: l))) as [H1 [H2 H3]].
      { rewrite length_skipn. simpl List.length in *. lia. }
      assert (Hf : List.length (firstn n (a :: l))
                   = Nat.min n (List.length (a :: l)))
        by apply length_firstn.
      split; [|split].
      * constructor; [|exact H1]. rewrite Hf. simpl List.length. lia.
      * cbn [List.length] in *. rewrite H2, length_skipn.
        cbn [List.length].
        destruct (Nat.le_gt_cases (S (List.length l)) n) as [Hs|Hs].
        -- replace (S (List.length l) - n)%nat with 0%nat by lia.
           rewrite (ceil_div_small (S (List.length l)) n) by lia.
           rewrite Nat.div_small by lia. reflexivity.
        -- rewrite (ceil_div_step (S (List.length l)) n) by lia.
           reflexivity.
      * intros i Hi. destruct i as [|i].
        -- cbn [nth]. rewrite Hf.
           cbn [List.length] in Hi.
           destruct (skipn n (a :: l)) as [|b r] eqn:Es.
           ++ rewrite chunks_nil in Hi. simpl in Hi. lia.
           ++ assert (Hlen : List.length (skipn n (a :: l)) = S (List.length r))
                by (rewrite Es; reflexivity).
              rewrite length_skipn in Hlen. lia.
        -- cbn [nth]. apply H3. cbn [List.length] in Hi. lia.
Qed.

(** X13.  With a positive batch size the records are cut into consecutive
    batches: put together they are the records, none is empty or longer
    than the batch size, all but the last are full, and there are
    [ceil(n / batch_size)] of them. *)
Theorem batches_spec {A} (bs : Z) (records : list A) :
  (0 < bs)%Z ->
  exists cs,
    batches bs records = Ok cs
    /\ concat cs = records
    /\ Forall (fun b => (0 < List.length b <= Z.to_nat bs)%nat) cs
    /\ List.length cs
       = ((List.length records + Z.to_nat bs - 1) / Z.to_nat bs)%nat
    /\ (forall i, (S i < List.length cs)%nat ->
                  List.length (nth i cs []) = Z.to_nat bs).
Proof.
  intro Hb. unfold batches.
  replace (bs =? 0)%Z with false by (symmetry; apply Z.eqb_neq; lia).
  replace (bs <? 0)%Z with false by (symmetry; apply Z.ltb_ge; lia).
  eexists. split; [reflexivity|].
  split; [apply chunks_concat; lia|].
  apply chunks_shape; lia.
Qed.

(** 2500 records in batches of 1000: three batches, the last of 500. *)
Lemma batches_spec_witness :
  exists cs,
    batches 1000 (repeat 0%Z 2500) = Ok cs
    /\ concat cs = repeat 0%Z 2500
    /\ List.length cs = 3%nat
    /\ List.length (nth 0 cs []) = 1000%nat.
Proof.
  destruct (batches_spec 1000 (repeat 0%Z 2500)) as [cs [H1 [H2 [_ [H4 H5]]]]].
  - lia.
  - exists cs. split; [exact H1|]. split; [exact H2|].
    assert (L : List.length cs = 3%nat).
    { rewrite H4, repeat_length. reflexivity. }
    split; [exact L|]. apply (H5 0%nat). rewrite L. lia.
Defined.

(** The call on a store that works at the first attempt. *)
Lemma batch_insert_healthy_witness :
  exists w',
    _batch_insert Samples.small_batches RequestLogs
                  _prepare_request_log_row Samples.three_logs
                  (Samples.fresh (fun _ => Healthy))
    = (Ok (List.length Samples.three_logs), w')
    /\ List.length (committed w') = 3%nat
    /\ trace w' = [EvConnect].
Proof.
  destruct (batch_insert_healthy
              Samples.small_batches RequestLogs _prepare_request_log_row
              Samples.three_logs
              (map (fun r => match _prepare_request_log_row r with
                             | Ok row => row
                             | Raise _ => []
                             end) Samples.three_logs)
              (Samples.fresh (fun _ => Healthy)))
    as [w' [Hrun [Hc Ht]]].
  - simpl. lia.
  - simpl. lia.
  - reflexivity.
  - repeat constructor.
  - exists w'. split; [exact Hrun|]. split; [|exact Ht].
    rewrite Hc. reflexivity.
Defined.

End BatchFacts.

(** ** Retention cleanup *)

Section RetentionFacts.
Import SQLDataWarehouse Retention.

Lemma filter_all {A} (p : A -> bool) (l : list A) :
  (forall x, In x l -> p x = true) -> filter p l = l.
Proof.
  induction l as [|x l IH]; intro H; [reflexivity|].
  simpl. rewrite (H x (or_introl eq_refl)). f_equal.
  apply IH. intros y Hy. apply H. right. exact Hy.
Qed.

Lemma filter_none_in {A} (p : A -> bool) (l : list A) :
  (forall x, In x l -> p x = false) -> filter p l = [].
Proof.
  induction l as [|x l IH]; intro H; [reflexivity|].
  simpl. rewrite (H x (or_introl eq_refl)).
  apply IH. intros y Hy. apply H. right. exact Hy.
Qed.

Lemma filter_split_length {A} (p : A -> bool) (l : list A) :
  (List.length (filter p l) + List.length (filter (fun x => negb (p x)) l)
   = List.length l)%nat.
Proof.
  induction l as [|x l IH]; [reflexivity|].
  simpl. destruct (p x); simpl; lia.
Qed.

Lemma cleanup_outcome
        (retention_days now : Z) (p : conn_plan) (db : database) :
  match cleanup_old_data retention_days now p db with
  | (Ok cleanup_results, db') =>
      cleanup_results
      = map (fun t =>
               (t, List.length
                     (filter (expired (cutoff_date now retention_days))
                             (db t))))
            cleanup_tables
      /\ (forall t,
             db' t
             = filter (fun r =>
                         negb (expired (cutoff_date now retention_days) r))
                      (db t))
      /\ (forall t n,
             In (t, n) cleanup_results ->
             (n + List.length (db' t) = List.length (db t))%nat)
  | (Raise _, db') => db' = db
  end.
Proof.
  unfold cleanup_old_data.
  destruct (cutoff_overflows now retention_days); [reflexivity|].
  set (c := cutoff_date now retention_days).
  assert (Hgood :
    forall q,
      (forall j e, q = ExecuteFails j e -> (4 <= j)%nat) ->
      delete_loop q c 0 cleanup_tables db []
      = Ok (fun t => filter (fun r => negb (expired c r)) (db t),
            map (fun t => (t, List.length (filter (expired c) (db t))))
                cleanup_tables)
        \/ exists db1 res,
             delete_loop q c 0 cleanup_tables db [] = Ok (db1, res)
             /\ (forall t, db1 t
                           = filter (fun r => negb (expired c r)) (db t))
             /\ res = map (fun t =>
                             (t, List.length (filter (expired c) (db t))))
                          cleanup_tables).
  { intros q Hq. right.
    assert (E : delete_loop q c 0 cleanup_tables db []
                = delete_loop Healthy c 0 cleanup_tables db []).
    { destruct q as [| e | j e | e]; try reflexivity.
      specialize (Hq j e eq_refl).
      destruct j as [|[|[|[|j]]]]; try lia. reflexivity. }
    rewrite E. eexists. eexists. split; [reflexivity|].
    split; [|reflexivity].
    intro t. destruct t; reflexivity. }
  assert (Hdone :
    forall db1 res,
      (forall t, db1 t = filter (fun r => negb (expired c r)) (db t)) ->
      res = map (fun t => (t, List.length (filter (expired c) (db t))))
                cleanup_tables ->
      res = map (fun t => (t, List.length (filter (expired c) (db t))))
                cleanup_tables
      /\ (forall t, db1 t = filter (fun r => negb (expired c r)) (db t))
      /\ (forall t n, In (t, n) res ->
                      (n + List.length (db1 t) = List.length (db t))%nat)).
  { intros db1 res H1 H2. split; [exact H2|]. split; [exact H1|].
    intros t n Hin. rewrite H2 in Hin. apply in_map_iff in Hin.
    destruct Hin as [t' [E _]]. injection E as -> <-.
    rewrite H1. apply filter_split_length. }
  destruct p as [| e | j e | e]; cbn [connect].
  - destruct (Hgood Healthy) as [H|[db1 [res [H [H1 H2]]]]];
      [intros; discriminate | | ]; rewrite H.
    + apply Hdone; [intro; reflexivity | reflexivity].
    + apply Hdone; assumption.
  - reflexivity.
  - destruct (Nat.le_gt_cases 4 j) as [Hj|Hj].
    + destruct (Hgood (ExecuteFails j e))
        as [H|[db1 [res [H [H1 H2]]]]];
        [intros j' e' E; injection E as <- <-; exact Hj | | ]; rewrite H.
      * apply Hdone; [intro; reflexivity | reflexivity].
      * apply Hdone; assumption.
    + destruct j as [|[|[|[|j]]]]; try lia; reflexivity.
  - destruct (delete_loop (CommitFails e) c 0 cleanup_tables db [])
      as [[db1 res]|e']; reflexivity.
Qed.

(** X20.  Cleanup is all or nothing.  When it returns, every managed table has
    lost exactly its rows older than the cutoff, the others are kept in
    their order, and the count reported for a table is the number of rows
    it lost; when it raises, no table has changed. *)
Theorem cleanup_old_data_spec
        (retention_days now : Z) (p : conn_plan) (db : database) :
  match cleanup_old_data retention_days now p db with
  | (Ok cleanup_results, db') =>
      cleanup_results
      = map (fun t =>
               (t, List.length
                     (filter (expired (cutoff_date now retention_days))
                             (db t))))
            cleanup_tables
      /\ (forall t,
             db' t
             = filter (fun r =>
                         negb (expired (cutoff_date now retention_days) r))
                      (db t))
      /\ (forall t n,
             In (t, n) cleanup_results ->
             (n + List.length (db' t) = List.length (db t))%nat)
  | (Raise _, db') => db' = db
  end.
Proof. apply cleanup_outcome. Qed.



Lemma cleanup_fresh
        (retention_days now : Z) (p : conn_plan) (db db' : database)
        (cleanup_results : list (table * nat)) :
  (forall t r, In r (db t) -> (cutoff_date now retention_days <= fst r)%Z) ->
  cleanup_old_data retention_days now p db = (Ok cleanup_results, db') ->
  cleanup_results = map (fun t => (t, 0%nat)) cleanup_tables
  /\ forall t, db' t = db t.
Proof.
  intros Hfresh Hrun.
  pose proof (cleanup_outcome retention_days now p db) as H.
  rewrite Hrun in H. destruct H as [Hres [Hdb _]].
  assert (Hnone : forall t,
             filter (expired (cutoff_date now retention_days)) (db t) = []).
  { intro t. apply filter_none_in. intros r Hr. unfold expired.
    apply Z.ltb_ge. apply (Hfresh t r Hr). }
  split.
  - rewrite Hres. apply map_ext. intro t. rewrite Hnone. reflexivity.
  - intro t. rewrite Hdb. apply filter_all. intros r Hr.
    unfold expired. apply negb_true_iff, Z.ltb_ge. apply (Hfresh t r Hr).
Qed.

(** X22.  When no row is older than the cutoff, a cleanup that returns reports
    zero for every table and leaves every table as it was. *)
Theorem cleanup_nothing_expired
        (retention_days now : Z) (p : conn_plan) (db db' : database)
        (cleanup_results : list (table * nat)) :
  (forall t r, In r (db t) -> (cutoff_date now retention_days <= fst r)%Z) ->
  cleanup_old_data retention_days now p db = (Ok cleanup_results, db') ->
  cleanup_results = map (fun t => (t, 0%nat)) cleanup_tables
  /\ forall t, db' t = db t.
Proof. apply cleanup_fresh. Qed.

(** Nothing of the sample database is older than 90 days. *)
Lemma cleanup_nothing_expired_witness :
  exists cleanup_results db',
    cleanup_old_data 90 Samples.today Healthy Samples.aged
    = (Ok cleanup_results, db')
    /\ cleanup_results = map (fun t => (t, 0%nat)) cleanup_tables
    /\ forall t, db' t = Samples.aged t.
Proof.
  destruct (cleanup_old_data 90 Samples.today Healthy Samples.aged)
    as [res db'] eqn:E.
  assert (Hres : exists r, res = Ok r).
  { vm_compute in E. injection E as <- _. eexists. reflexivity. }
  destruct Hres as [r ->].
  exists r, db'. split; [reflexivity|].
  apply (cleanup_nothing_expired 90 Samples.today Healthy Samples.aged
                                 db' r).
  - intros t x Hx. destruct t; simpl in Hx;
      repeat (destruct Hx as [<-|Hx]; [vm_compute; discriminate|]);
      destruct Hx.
  - exact E.
Defined.

(** X23.  Cleanup is idempotent: run again at the same time with the same
    window, it finds nothing left to delete. *)
Theorem cleanup_idempotent
        (retention_days now : Z) (p q : conn_plan) (db db1 db2 : database)
        (first second : list (table * nat)) :
  cleanup_old_data retention_days now p db = (Ok first, db1) ->
  cleanup_old_data retention_days now q db1 = (Ok second, db2) ->
  second = map (fun t => (t, 0%nat)) cleanup_tables
  /\ forall t, db2 t = db1 t.
Proof.
  intros H1 H2.
  pose proof (cleanup_outcome retention_days now p db) as H.
  rewrite H1 in H. destruct H as [_ [Hdb _]].
  apply (cleanup_fresh retention_days now q db1 db2 second); [|exact H2].
  intros t r Hr. rewrite Hdb in Hr. apply filter_In in Hr.
  destruct Hr as [_ Hr]. unfold expired in Hr.
  apply negb_true_iff, Z.ltb_ge in Hr. exact Hr.
Qed.

(** Two cleanups of the sample database with a window of one day. *)
Lemma cleanup_idempotent_witness :
  exists first db1 second db2,
    cleanup_old_data 1 Samples.today Healthy Samples.aged
    = (Ok first, db1)
    /\ cleanup_old_data 1 Samples.today Healthy db1 = (Ok second, db2)
    /\ In (RequestLogs, 1%nat) first
    /\ second = map (fun t => (t, 0%nat)) cleanup_tables.
Proof.
  destruct (cleanup_old_data 1 Samples.today Healthy Samples.aged)
    as [res1 db1] eqn:E1.
  assert (H1 : exists r, res1 = Ok r /\ In (RequestLogs, 1%nat) r).
  { vm_compute in E1. injection E1 as <- _. eexists.
    split; [reflexivity | left; reflexivity]. }
  destruct H1 as [first [-> Hin]].
  destruct (cleanup_old_data 1 Samples.today Healthy db1)
    as [res2 db2] eqn:E2.
  assert (H2 : exists r, res2 = Ok r).
  { unfold cleanup_old_data in E2.
    assert (Ho : cutoff_overflows Samples.today 1 = false)
      by (vm_compute; reflexivity).
    rewrite Ho in E2. cbn [connect] in E2.
    destruct (delete_loop Healthy _ 0 cleanup_tables db1 [])
      as [[d r]|e] eqn:D; [|discriminate D].
    injection E2 as <- _. eexists. reflexivity. }
  destruct H2 as [second ->].
  exists first, db1, second, db2.
  split; [reflexivity|]. split; [exact E2|]. split; [exact Hin|].
  apply (cleanup_idempotent 1 Samples.today Healthy Healthy Samples.aged
                            db1 db2 first second E1 E2).
Defined.

(** X24.  The orchestrator's cleanup never raises: it answers the empty
    mapping exactly when the warehouse raised, and then no table has
    changed; otherwise it passes on the four counts of the warehouse. *)
Theorem orchestrator_cleanup_spec
        (retention_days now : Z) (p : conn_plan) (db : database) :
  match Retention.cleanup_old_data retention_days now p db with
  | (Ok cleanup_results, db') =>
      ObservabilityOrchestrator.cleanup_old_data retention_days now p db
      = (cleanup_results, db')
      /\ List.length cleanup_results = 4%nat
      /\ map fst cleanup_results = cleanup_tables
  | (Raise _, _) =>
      ObservabilityOrchestrator.cleanup_old_data retention_days now p db
      = ([], db)
  end.
Proof.
  pose proof (cleanup_outcome retention_days now p db) as H.
  unfold ObservabilityOrchestrator.cleanup_old_data.
  destruct (cleanup_old_data retention_days now p db) as [[res|e] db'].
  - destruct H as [-> _]. split; [reflexivity|].
    split; [reflexivity|]. rewrite map_map. apply map_id.
  - rewrite H. reflexivity.
Qed.

End RetentionFacts.

(** ** The orchestrator's warehouse step *)

Section OrchestratorFacts.
Import SQLDataWarehouse ObservabilityOrchestrator.

Lemma store_report_outcome
      (report_data : pydict) (report_type : string)
      (processing_time_ms : option Z) (now : Z) (w : world) :
  let out := store_analytics_report report_data report_type
                                    processing_time_ms now w in
  (fst out = true
   /\ exists rc,
       committed (snd out)
       = committed w ++ [report_row now report_type report_data
                                    processing_time_ms rc])
  \/ (fst out = false /\ committed (snd out) = committed w).
Proof.
  unfold store_analytics_report.
  destruct (report_record_count report_data) as [rc|e];
    [|right; split; reflexivity].
  destruct (connect (faults w (opened w))) as [c|e] eqn:Hc;
    [|right; split; reflexivity].
  cbn [bind].
  assert (Hpc : pending c = []).
  { unfold connect in Hc. destruct (faults w (opened w)); try discriminate;
      injection Hc as <-; reflexivity. }
  destruct (execute c (report_row now report_type report_data
                                  processing_time_ms rc)) as [c'|e] eqn:He;
    [|right; split; reflexivity].
  cbn [bind]. apply execute_ok in He. destruct He as [Hp _].
  rewrite Hpc in Hp. simpl in Hp.
  destruct (commit c') as [rows|e] eqn:Hm; [|right; split; reflexivity].
  left. split; [reflexivity|]. exists rc. cbn [snd committed].
  unfold commit in Hm. destruct (plan c'); congruence.
Qed.

Lemma insert_request_logs_outcome
      (self : warehouse) (records : list pydict) (w w' : world)
      (res : result nat) :
  (1 <= retry_attempts self)%Z ->
  (0 < batch_size self)%Z ->
  insert_request_logs self records w = (res, w') ->
  match res with
  | Raise _ => committed w' = committed w
  | Ok _ =>
      exists prepared,
        Forall2 (fun r row => _prepare_request_log_row r = Ok row)
                records prepared
        /\ committed w' = committed w ++ map (pair RequestLogs) prepared
  end.
Proof.
  intros Hn Hb. unfold insert_request_logs. destruct records as [|r rs].
  - intro H. injection H as <- <-. exists []. simpl.
    rewrite app_nil_r. split; [constructor | reflexivity].
  - intro H. apply batch_insert_outcome in H; [|exact Hn|exact Hb].
    destruct H as [_ H]. destruct res as [n|e]; [|apply H].
    destruct H as [prep [HF [Hc _]]]. exists prep. auto.
Qed.

Lemma insert_server_metrics_outcome
      (self : warehouse) (records : list pydict) (w w' : world)
      (res : result nat) :
  (1 <= retry_attempts self)%Z ->
  (0 < batch_size self)%Z ->
  insert_server_metrics self records w = (res, w') ->
  match res with
  | Raise _ => committed w' = committed w
  | Ok _ =>
      exists prepared,
        Forall2 (fun r row => _prepare_server_metrics_row r = Ok row)
                records prepared
        /\ committed w' = committed w ++ map (pair ServerMetrics) prepared
  end.
Proof.
  intros Hn Hb. unfold insert_server_metrics. destruct records as [|r rs].
  - intro H. injection H as <- <-. exists []. simpl.
    rewrite app_nil_r. split; [constructor | reflexivity].
  - intro H. apply batch_insert_outcome in H; [|exact Hn|exact Hb].
    destruct H as [_ H]. destruct res as [n|e]; [|apply H].
    destruct H as [prep [HF [Hc _]]]. exists prep. auto.
Qed.

(** The processing time that goes into the report row: none when the
    report carries no processing metadata; for a float, the double
    product with 1000, truncated. *)
Lemma processing_time_ms_spec
      (int_of_str : string -> option Z) (float_mul : Q -> Q -> option Q)
      (analytics_report : pydict) (ms : option Z) :
  processing_time_ms int_of_str float_mul analytics_report = Some ms ->
  (lookup "processing_metadata" analytics_report = None -> ms = None)
  /\ (forall metadata q,
         lookup "processing_metadata" analytics_report
         = Some (PyDict metadata) ->
         lookup "processing_time_seconds" metadata = Some (PyFloat q) ->
         ~ q == 0 ->
         exists product,
           float_mul q 1000 = Some product
           /\ ms = Some (Z.quot (Qnum product) (Z.pos (Qden product)))).
Proof.
  unfold processing_time_ms, get. intro H. split.
  - intro E. rewrite E in H. cbn in H. congruence.
  - intros metadata q E1 E2 Hq. rewrite E1, E2 in H.
    cbn [truthy scaled_int] in H.
    assert (Hz : Qeq_bool q 0 = false).
    { destruct (Qeq_bool q 0) eqn:E; [|reflexivity].
      apply Qeq_bool_iff in E. contradiction. }
    rewrite Hz in H. cbn [negb] in H.
    destruct (float_mul q 1000) as [product|]; cbn [option_map] in H;
      [|discriminate].
    exists product. split; [reflexivity|].
    injection H as <-. reflexivity.
Qed.

(** X25.  The warehouse step answers [True] exactly when the report row was
    committed.  Then both files were read, every request and metric
    record has its row committed before it, in order, and the report row
    carries the processing time in milliseconds: the double product
    [processing_time * 1000], truncated.  When it answers [False] no
    report row has been added, though rows of the request log or of the
    metrics may already be committed: the three writes are separate
    transactions. *)
Theorem store_data_warehouse_spec
        (int_of_str : string -> option Z)
        (float_mul : Q -> Q -> option Q) (self : warehouse)
        (request_logs server_metrics : option (list pydict))
        (analytics_report : pydict) (now : Z) (w : world) :
  (1 <= retry_attempts self)%Z ->
  (0 < batch_size self)%Z ->
  let out := store_data_warehouse int_of_str float_mul self request_logs
                                  server_metrics analytics_report now w in
  (fst out = true ->
   exists rq sm prq psm ms rc,
     request_logs = Some rq /\ server_metrics = Some sm
     /\ Forall2 (fun r row => _prepare_request_log_row r = Ok row) rq prq
     /\ Forall2 (fun r row => _prepare_server_metrics_row r = Ok row) sm psm
     /\ processing_time_ms int_of_str float_mul analytics_report = Some ms
     /\ (lookup "processing_metadata" analytics_report = None -> ms = None)
     /\ (forall metadata q,
            lookup "processing_metadata" analytics_report
            = Some (PyDict metadata) ->
            lookup "processing_time_seconds" metadata = Some (PyFloat q) ->
            ~ q == 0 ->
            exists product,
              float_mul q 1000 = Some product
              /\ ms = Some (Z.quot (Qnum product) (Z.pos (Qden product))))
     /\ committed (snd out)
        = committed w ++ map (pair RequestLogs) prq
          ++ map (pair ServerMetrics) psm
          ++ [(AnalyticsReports,
               [PyInt now; PyStr "comprehensive"; PyDict analytics_report;
                match ms with
                | Some t => PyInt t
                | None => PyNone
                end;
                rc])])
  /\ (fst out = false ->
      forall r, In r (committed (snd out)) ->
                In r (committed w)
                \/ fst r = RequestLogs \/ fst r = ServerMetrics).
Proof.
  intros Hn Hb. cbv zeta. unfold store_data_warehouse.
  destruct request_logs as [rq|].
  2:{ split; [discriminate | intros _ r Hr; left; exact Hr]. }
  destruct (insert_request_logs self rq w) as [res1 w1] eqn:E1.
  pose proof (insert_request_logs_outcome self rq w w1 res1 Hn Hb E1) as H1.
  destruct res1 as [n1|e1].
  2:{ split; [discriminate|]. intros _ r Hr. left. cbn [snd] in Hr.
      rewrite H1 in Hr. exact Hr. }
  destruct H1 as [prq [HF1 Hc1]].
  assert (Hin1 : forall r, In r (committed w1) ->
                           In r (committed w) \/ fst r = RequestLogs).
  { intros r Hr. rewrite Hc1 in Hr. apply in_app_or in Hr.
    destruct Hr as [Hr|Hr]; [left; exact Hr|]. right.
    apply in_map_iff in Hr. destruct Hr as [x [<- _]]. reflexivity. }
  destruct server_metrics as [sm|].
  2:{ split; [discriminate|]. intros _ r Hr. cbn [snd] in Hr.
      destruct (Hin1 r Hr); auto. }
  destruct (insert_server_metrics self sm w1) as [res2 w2] eqn:E2.
  pose proof (insert_server_metrics_outcome self sm w1 w2 res2 Hn Hb E2)
    as H2.
  destruct res2 as [n2|e2].
  2:{ split; [discriminate|]. intros _ r Hr. cbn [snd] in Hr.
      rewrite H2 in Hr. destruct (Hin1 r Hr); auto. }
  destruct H2 as [psm [HF2 Hc2]].
  assert (Hin2 : forall r, In r (committed w2) ->
                           In r (committed w)
                           \/ fst r = RequestLogs \/ fst r = ServerMetrics).
  { intros r Hr. rewrite Hc2 in Hr. apply in_app_or in Hr.
    destruct Hr as [Hr|Hr]; [destruct (Hin1 r Hr); auto|]. right. right.
    apply in_map_iff in Hr. destruct Hr as [x [<- _]]. reflexivity. }
  destruct (processing_time_ms int_of_str float_mul analytics_report)
    as [ms|] eqn:Ems.
  2:{ split; [discriminate|]. intros _ r Hr. apply Hin2, Hr. }
  destruct (processing_time_ms_spec _ _ _ _ Ems) as [Hnone Hfloat].
  pose proof (store_report_outcome analytics_report "comprehensive" ms now
                                   w2) as H3.
  cbv zeta in H3.
  destruct (store_analytics_report analytics_report "comprehensive" ms now
                                   w2) as [ok w3].
  cbn [fst snd] in *.
  destruct H3 as [[-> [rc Hc3]]|[-> Hc3]].
  - split; [|discriminate]. intros _.
    exists rq, sm, prq, psm, ms, rc.
    repeat (split; [auto; fail|]).
    rewrite Hc3, Hc2, Hc1, <- !app_assoc. reflexivity.
  - split; [discriminate|]. intros _ r Hr. rewrite Hc3 in Hr.
    apply Hin2, Hr.
Qed.

(** Three request logs, three metrics and an empty report on a store that
    works: seven rows are committed and the answer is [True]. *)
Lemma store_data_warehouse_spec_witness :
  exists w',
    store_data_warehouse (fun _ => None) (fun _ _ => None)
                         Samples.small_batches
                         (Some Samples.three_logs)
                         (Some Samples.three_metrics) [] 1000
                         (Samples.fresh (fun _ => Healthy)) = (true, w')
    /\ List.length (committed w') = 7%nat.
Proof.
  destruct (store_data_warehouse (fun _ => None) (fun _ _ => None)
              Samples.small_batches
              (Some Samples.three_logs) (Some Samples.three_metrics) []
              1000 (Samples.fresh (fun _ => Healthy))) as [ok w'] eqn:E.
  destruct (store_data_warehouse_spec
              (fun _ => None) (fun _ _ => None) Samples.small_batches
              (Some Samples.three_logs) (Some Samples.three_metrics) []
              1000 (Samples.fresh (fun _ => Healthy))) as [Ht _].
  - simpl. lia.
  - simpl. lia.
  - rewrite E in Ht. cbn [fst snd] in Ht.
    assert (Hok : ok = true).
    { vm_compute in E. injection E as <- _. reflexivity. }
    subst ok. exists w'. split; [reflexivity|].
    destruct (Ht eq_refl)
      as [rq [sm [prq [psm [ms [rc [Hrq [Hsm [F1 [F2 [_ [_ [_ Hc]]]]]]]]]]]]].
    injection Hrq as <-. injection Hsm as <-.
    rewrite Hc. cbn [committed Samples.fresh app].
    rewrite !length_app, !length_map.
    rewrite <- (Forall2_length F1), <- (Forall2_length F2). reflexivity.
Defined.

End OrchestratorFacts.
